(** * scripts/extract.py: batched representation extraction

    A shallow embedding of [run] from [scripts/extract.py] and the
    properties of its layer-index resolution, batch window, label
    handling and per-sequence slicing.

    Conventions.
    - Python integers are [Z]; indices produced by [enumerate] are [nat].
    - A raised exception is the [Raise] branch of [Exc]; the effects of
      [run] (directory creation, model invocation, [torch.save]) are an
      event trace next to the outcome, so that what happened before an
      exception stays visible.
    - The feature axis of an activation tensor is never indexed by the
      script.  One position's feature vector is therefore a value of an
      abstract type [V], with the elementwise float operations the script
      relies on ([+], division by a Python integer, the cast to float16)
      as section variables.  No algebraic law of floating point is assumed
      except where a statement says so.
    - Strings are byte strings: labels and residue strings are ASCII, so
      [len] is [String.length].
    - [assert] statements are executed (the interpreter runs without
      [-O]).
    - The model and the data loader are parameters of [run]; exceptions
      raised inside them are outside the embedding.
    - [run] is the script in a world where [mkdir], the model call and
      [torch.save] return: what is stated of [run] holds of the script
      as long as these calls return.  [run_env] is the same script in a
      world where each of these calls can raise.  Loading the model and
      reading the FASTA file stay outside both.
    - [print], [tqdm] and device transfers have no effect on the values
      and are left out. *)

From Stdlib Require Import ZArith Lia Ascii String.
From stdpp Require Import gmap strings list fin_maps.

(** ** Python semantics used by the script *)

Module Py.

Inductive Error : Type :=
| AssertionError
| ValueError
| IndexError
| KeyError
| NameError
| RuntimeError.

Inductive Exc (A : Type) : Type :=
| Ok (a : A)
| Raise (e : Error).
Arguments Ok {A} a.
Arguments Raise {A} e.

Definition bind {A B} (m : Exc A) (k : A -> Exc B) : Exc B :=
  match m with
  | Ok a => k a
  | Raise e => Raise e
  end.

(** [l[i]] for an index that is known to be non-negative. *)
Definition index {A} (l : list A) (i : nat) : Exc A :=
  match l !! i with
  | Some x => Ok x
  | None => Raise IndexError
  end.

(** Normalisation of one bound of a slice over a sequence of length [n]:
    a negative bound counts from the end, and the result is clamped to
    [0 .. n]. *)
Definition clamp (n : Z) (k : Z) : Z :=
  if (k <? 0)%Z then Z.max (k + n) 0 else Z.min k n.

(** [l[lo:hi]] (step 1).  Slicing never raises. *)
Definition slice {A} (lo hi : Z) (l : list A) : list A :=
  let n := Z.of_nat (length l) in
  let lo' := clamp n lo in
  let hi' := clamp n hi in
  take (Z.to_nat (hi' - lo')) (drop (Z.to_nat lo') l).

(** [s.split(sep)] for a one-character separator: one piece more than
    there are separators, empty pieces kept. *)
Fixpoint split (sep : ascii) (s : string) : list string :=
  match s with
  | EmptyString => [EmptyString]
  | String c s' =>
      if Ascii.eqb c sep then EmptyString :: split sep s'
      else match split sep s' with
           | [] => [String c EmptyString]
           | w :: ws => String c w :: ws
           end
  end.

(** [a, b = xs]: unpacking into two targets. *)
Definition unpack2 {A} (xs : list A) : Exc (A * A) :=
  match xs with
  | [a; b] => Ok (a, b)
  | _ => Raise ValueError
  end.

(** [x in xs] for a list of strings. *)
Definition contains (x : string) (xs : list string) : bool :=
  bool_decide (x ∈ xs).

(** [{k: f(v) for k, v in d.items()}] over a dict kept in insertion
    order; the first [f(v)] that raises aborts the comprehension. *)
Fixpoint dict_comp {K A B} (f : A -> Exc B) (d : list (K * A)) : Exc (list (K * B)) :=
  match d with
  | [] => Ok []
  | (k, v) :: d' =>
      bind (f v) (fun b => bind (dict_comp f d') (fun r => Ok ((k, b) :: r)))
  end.

(** Number of occurrences of a character in a string. *)
Fixpoint count_char (c : ascii) (s : string) : nat :=
  match s with
  | EmptyString => 0
  | String c' s' => (if Ascii.eqb c' c then 1 else 0) + count_char c s'
  end.

End Py.

Import Py.

Notation "'let*' x ':=' m 'in' k" := (Py.bind m (fun x => k))
  (at level 10, x pattern, m at level 100, k at level 200, only parsing).

(** ** Layer-index resolution (lines 85-86) *)

(** The element expression of the comprehension on line 86.  Python's [%]
    is floored, as [Z.modulo] is. *)
Definition resolve_layer (num_layers i : Z) : Z :=
  ((i + num_layers + 1) mod (num_layers + 1))%Z.

(** The condition of the [assert] on line 85 for one index. *)
Definition layer_in_range (num_layers i : Z) : bool :=
  (- (num_layers + 1) <=? i)%Z && (i <=? num_layers)%Z.

(** Lines 85-86: the assertion over all requested indices, then the
    comprehension. *)
Definition resolve_layers (num_layers : Z) (requested : list Z) : Exc (list Z) :=
  if forallb (layer_in_range num_layers) requested
  then Ok (map (resolve_layer num_layers) requested)
  else Raise AssertionError.

(** ** Command-line arguments read by [run] *)

Module Args.
Record t : Type := mk {
  include : list string;
  repr_layers : list Z;
  truncation_seq_length : Z;
  output_dir : string
}.
End Args.

(** The path [args.output_dir / name], kept as the two operands of
    pathlib's [/].  The join itself is not evaluated: pathlib lets a
    [name] that starts with [/] replace the directory and drops [.]
    components and doubled separators, so equal operands denote the same
    file, and different operands may do so as well. *)
Record OutputFile : Type := mkOutputFile {
  file_dir : string;
  file_name : string
}.

(** Activations [positions, features] and [batch, positions, features]
    over feature vectors [V]; contacts [positions, positions] and
    [batch, positions, positions] over scores [C]. *)
Abbreviation Tensor2 V := (list V) (only parsing).
Abbreviation Tensor3 V := (list (list V)) (only parsing).
Abbreviation Contacts2 C := (list (list C)) (only parsing).
Abbreviation Contacts3 C := (list (list (list C))) (only parsing).

Section Extract.

(** One position's feature vector, one contact score, a token batch and
    the logits tensor. *)
Context {V C Toks Logits : Type}.

(** Elementwise float addition, the zero vector a reduction starts from,
    elementwise division by a Python integer, and the cast to float16. *)
Variable vadd : V -> V -> V.
Variable vzero : V.
Variable vdiv : V -> Z -> V.
Variable to_float16 : V -> V.

(** The dict returned by the model: ["representations"] in insertion
    order, ["contacts"] present or not. *)
Record ModelOut : Type := mkModelOut {
  out_logits : Logits;
  out_representations : list (Z * Tensor3 V);
  out_contacts : option (Contacts3 C)
}.

Record Model : Type := mkModel {
  num_layers : Z;
  is_MSATransformer : bool;
  forward : Toks -> list Z -> bool -> ModelOut
}.

(** One item of the data loader: [(labels, strs, toks)]. *)
Definition Batch : Type := (list string * list string * Toks)%type.

(** The values stored in a result dict. *)
Inductive Value : Type :=
| VStr (s : string)
| VLayerTensors (d : list (Z * Tensor2 V))
| VTensor (t : Tensor2 V)
| VLayerVectors (d : list (Z * V))
| VContacts (m : Contacts2 C).

Inductive Event : Type :=
| MkdirOutputDir (dir : string)
| Infer (toks : Toks) (layers : list Z) (return_contacts : bool)
| MkdirParent (f : OutputFile)
| Save (result : gmap string Value) (f : OutputFile).

(** A computation of [run]: the events it performed and how it ended. *)
Definition IO (A : Type) : Type := (list Event * Exc A)%type.

Definition ret {A} (a : A) : IO A := ([], Ok a).
Definition emit (e : Event) : IO unit := ([e], Ok tt).
Definition lift {A} (m : Exc A) : IO A := ([], m).
Definition io_bind {A B} (m : IO A) (k : A -> IO B) : IO B :=
  match m with
  | (tr, Ok a) => let '(tr', r) := k a in (tr ++ tr', r)
  | (tr, Raise e) => (tr, Raise e)
  end.
Definition trace {A} (m : IO A) : list Event := fst m.
Definition outcome {A} (m : IO A) : Exc A := snd m.

(** [for i, x in enumerate(xs): body], counting from [i]; an exception
    in one iteration ends the loop. *)
Fixpoint for_enumerate {A} (body : nat -> A -> IO unit) (i : nat) (xs : list A) : IO unit :=
  match xs with
  | [] => ret tt
  | x :: xs' => io_bind (body i x) (fun _ => for_enumerate body (S i) xs')
  end.

Notation "'let!' x ':=' m 'in' k" := (io_bind m (fun x => k))
  (at level 10, x pattern, m at level 100, k at level 200, only parsing).

(** *** Tensor operations *)

(** Reduction of a stack of vectors by [+]. *)
Definition vsum (vs : list V) : V := foldl vadd vzero vs.

(** [t.mean(0)] of a [positions, features] tensor. *)
Definition mean0 (t : Tensor2 V) : V :=
  vdiv (vsum t) (Z.of_nat (length t)).

(** [torch.stack(ts)]: needs at least one tensor, all of one shape. *)
Definition stack (ts : list (Tensor2 V)) : Exc (list (Tensor2 V)) :=
  match ts with
  | [] => Raise RuntimeError
  | t0 :: rest =>
      if forallb (fun t => length t =? length t0) rest
      then Ok ts else Raise RuntimeError
  end.

(** [stacked.sum(dim=0)]: position by position, the sum over the
    stacked tensors in stacking order. *)
Definition sum_dim0 (stacked : list (Tensor2 V)) : Tensor2 V :=
  match stacked with
  | [] => []
  | t0 :: _ => foldl (zip_with vadd) (replicate (length t0) vzero) stacked
  end.

(** [t / n] for a Python integer [n]. *)
Definition div_scalar (t : Tensor2 V) (n : Z) : Tensor2 V :=
  map (fun v => vdiv v n) t.

(** [t[i, lo:hi]]. *)
Definition row_slice (i : nat) (lo hi : Z) (t : Tensor3 V) : Exc (Tensor2 V) :=
  let* row := index t i in Ok (slice lo hi row).

(** [t[i, 0]]. *)
Definition row_first (i : nat) (t : Tensor3 V) : Exc V :=
  let* row := index t i in index row 0.

(** [contacts[i, :n, :n]]. *)
Definition contact_slice (i : nat) (n : Z) (c : Contacts3 C) : Exc (Contacts2 C) :=
  let* m := index c i in Ok (map (slice 0 n) (slice 0 n m)).

(** *** The body of the per-sequence loop *)

(** Lines 115-141: the result dict of sequence [i] of a batch.
    [contacts] is bound exactly when line 109 ran. *)
Definition build_result (args : Args.t) (repr_layers : list Z) (return_contacts : bool)
    (representations : list (Z * Tensor3 V)) (contacts : option (Contacts3 C))
    (strs : list string) (i : nat) (id label : string) : Exc (gmap string Value) :=
  let result : gmap string Value := <["label" := VStr label]> (<["id" := VStr id]> ∅) in
  let* s := index strs i in
  let truncate_len :=
    Z.min (Args.truncation_seq_length args) (Z.of_nat (String.length s)) in
  let* result :=
    if contains "per_tok" (Args.include args) then
      let* d := dict_comp (row_slice i 1 (truncate_len + 1)) representations in
      Ok (<["representations" := VLayerTensors d]> result)
    else Ok result in
  let* result :=
    if contains "avg_per_tok" (Args.include args) then
      let* tmp := dict_comp (row_slice i 1 (truncate_len + 1)) representations in
      let* stacked := stack (map snd tmp) in
      Ok (<["avg_per_tok" :=
              VTensor (div_scalar (sum_dim0 stacked) (Z.of_nat (length repr_layers)))]> result)
    else Ok result in
  let* result :=
    if contains "mean" (Args.include args) then
      let* d := dict_comp (fun t => let* sl := row_slice i 1 (truncate_len + 1) t in
                                    Ok (mean0 sl)) representations in
      Ok (<["mean_representations" := VLayerVectors d]> result)
    else Ok result in
  let* result :=
    if contains "bos" (Args.include args) then
      let* d := dict_comp (row_first i) representations in
      Ok (<["bos_representations" := VLayerVectors d]> result)
    else Ok result in
  if return_contacts then
    match contacts with
    | Some c =>
        let* m := contact_slice i truncate_len c in
        Ok (<["contacts" := VContacts m]> result)
    | None => Raise NameError
    end
  else Ok result.

(** Lines 112-146: one iteration of the loop over the labels. *)
Definition save_sequence (args : Args.t) (repr_layers : list Z) (return_contacts : bool)
    (representations : list (Z * Tensor3 V)) (contacts : option (Contacts3 C))
    (strs : list string) (i : nat) (label : string) : IO unit :=
  let! (id, label) := lift (unpack2 (split " " label)) in
  let output_file := mkOutputFile (Args.output_dir args) (id ++ "_" ++ label ++ ".pt") in
  let! _ := emit (MkdirParent output_file) in
  let! result := lift (build_result args repr_layers return_contacts
                         representations contacts strs i id label) in
  emit (Save result output_file).

(** Lines 93-146: the body of the batch loop for a batch inside the
    window. *)
Definition process_batch (model : Model) (args : Args.t) (repr_layers : list Z)
    (return_contacts : bool) (batch : Batch) : IO unit :=
  let '(labels, strs, toks) := batch in
  let! _ := emit (Infer toks repr_layers return_contacts) in
  let out := forward model toks repr_layers return_contacts in
  let representations :=
    map (fun '(layer, t) => (layer, map (map to_float16) t)) (out_representations out) in
  let! contacts :=
    lift (if return_contacts then
            match out_contacts out with
            | Some c => Ok (Some c)
            | None => Raise KeyError
            end
          else Ok None) in
  for_enumerate (save_sequence args repr_layers return_contacts representations contacts strs)
    0 labels.

(** Lines 91-92: the loop over the data loader, with the window test. *)
Definition batch_loop (start_batch end_batch : Z) (model : Model) (args : Args.t)
    (repr_layers : list Z) (return_contacts : bool) (data_loader : list Batch) : IO unit :=
  for_enumerate
    (fun batch_idx batch =>
       if (start_batch <=? Z.of_nat batch_idx)%Z && (Z.of_nat batch_idx <? end_batch)%Z
       then process_batch model args repr_layers return_contacts batch
       else ret tt)
    0 data_loader.

(** [run(args)].  [model] is what [load_model_and_alphabet] returned and
    [data_loader] the loader built on lines 75-79, whose collate function
    is the batch converter for the truncation length it is given. *)
Definition run (model : Model) (data_loader : Z -> list Batch) (args : Args.t) : IO unit :=
  let! _ := lift (if is_MSATransformer model then Raise ValueError else Ok tt) in
  let data_loader := data_loader (Args.truncation_seq_length args) in
  let! _ := emit (MkdirOutputDir (Args.output_dir args)) in
  let return_contacts := contains "contacts" (Args.include args) in
  let! repr_layers := lift (resolve_layers (num_layers model) (Args.repr_layers args)) in
  let start_batch := 0%Z in
  let end_batch := 1200%Z in
  batch_loop start_batch end_batch model args repr_layers return_contacts data_loader.

(** *** Reference definitions

    The artifacts as the specification words them, on total list
    operations; the theorems compare them with what [build_result]
    computes through Python slicing. *)

(** Truncation length of a sequence. *)
Definition truncation_length (max_len : Z) (s : string) : Z :=
  Z.min max_len (Z.of_nat (String.length s)).

(** Row [i] of a batch-level array. *)
Definition row {A} (i : nat) (t : list (list A)) : list A :=
  default [] (t !! i).

(** Entry [(p, q)] of a matrix. *)
Definition entry {A} (m : list (list A)) (p q : nat) : option A :=
  match m !! p with
  | Some r => r !! q
  | None => None
  end.

(** Positions [1 .. n] of row [i]. *)
Definition spec_per_tok (i : nat) (n : Z) (t : Tensor3 V) : Tensor2 V :=
  take (Z.to_nat n) (drop 1 (row i t)).

(** Position by position, the sum of the given slices divided by their
    number. *)
Definition spec_avg_per_tok (n : Z) (slices : list (Tensor2 V)) : Tensor2 V :=
  map (fun p => vdiv (vsum (omap (fun sl : Tensor2 V => sl !! p) slices))
                     (Z.of_nat (length slices)))
      (seq 0 (Z.to_nat n)).

(** Rows and columns [0 .. n-1] of the contact map of sequence [i]. *)
Definition spec_contacts (i : nat) (n : Z) (c : Contacts3 C) : Contacts2 C :=
  map (take (Z.to_nat n)) (take (Z.to_nat n) (row i c)).

(** Position 0 of row [i]. *)
Definition spec_bos (i : nat) (t : Tensor3 V) : V :=
  hd vzero (row i t).

(** The bundle of sequence [i]: identifier and label, and one entry per
    requested kind.  The [avg_per_tok] entry is written as the script
    computes it from the slices, sum over the stacked slices divided by
    the length of the list of requested layers. *)
Definition spec_result (args : Args.t) (repr_layers : list Z) (return_contacts : bool)
    (representations : list (Z * Tensor3 V)) (contacts : option (Contacts3 C))
    (i : nat) (s id label : string) : gmap string Value :=
  let n := truncation_length (Args.truncation_seq_length args) s in
  let r0 : gmap string Value := <["label" := VStr label]> (<["id" := VStr id]> ∅) in
  let r1 :=
    if contains "per_tok" (Args.include args)
    then <["representations" :=
             VLayerTensors (map (fun kv => (kv.1, spec_per_tok i n kv.2)) representations)]> r0
    else r0 in
  let r2 :=
    if contains "avg_per_tok" (Args.include args)
    then <["avg_per_tok" :=
             VTensor (div_scalar
                        (sum_dim0 (map (fun kv => spec_per_tok i n kv.2) representations))
                        (Z.of_nat (length repr_layers)))]> r1
    else r1 in
  let r3 :=
    if contains "mean" (Args.include args)
    then <["mean_representations" :=
             VLayerVectors
               (map (fun kv => (kv.1, mean0 (spec_per_tok i n kv.2))) representations)]> r2
    else r2 in
  let r4 :=
    if contains "bos" (Args.include args)
    then <["bos_representations" :=
             VLayerVectors (map (fun kv => (kv.1, spec_bos i kv.2)) representations)]> r3
    else r3 in
  if return_contacts
  then <["contacts" := VContacts (spec_contacts i n (default [] contacts))]> r4
  else r4.

(** Batches whose index lies in the window [lo <= b < hi], in order;
    [k] is the index of the first batch of the list. *)
Fixpoint window_batches (lo hi : Z) (k : nat) (batches : list Batch) : list Batch :=
  match batches with
  | [] => []
  | b :: rest =>
      if decide (lo <= Z.of_nat k < hi)%Z
      then b :: window_batches lo hi (S k) rest
      else window_batches lo hi (S k) rest
  end.

(** The given batches processed one after the other. *)
Definition process_all (model : Model) (args : Args.t) (repr_layers : list Z)
    (return_contacts : bool) (batches : list Batch) : IO unit :=
  for_enumerate (fun _ batch => process_batch model args repr_layers return_contacts batch)
    0 batches.

(** *** Shape of the model output for one sequence *)

(** Every layer's activation has a row [i] with the marker position and
    at least [n] further positions. *)
Definition rows_cover (i : nat) (n : Z) (representations : list (Z * Tensor3 V)) : bool :=
  forallb (fun kv : Z * Tensor3 V =>
             match kv.2 !! i with
             | Some r => (n + 1 <=? Z.of_nat (length r))%Z
             | None => false
             end) representations.

(** The contact map is bound and its entry [i] is at least [n] by [n]. *)
Definition contacts_cover (i : nat) (n : Z) (contacts : option (Contacts3 C)) : bool :=
  match contacts with
  | Some c =>
      match c !! i with
      | Some m =>
          (n <=? Z.of_nat (length m))%Z
          && forallb (fun r : list C => (n <=? Z.of_nat (length r))%Z) m
      | None => false
      end
  | None => false
  end.

(** What [build_result] needs of its inputs for sequence [i] with
    residue string [s]: a non-negative truncation length, activations
    and contacts that cover the truncated sequence, and at least one
    activation to stack when [avg_per_tok] is requested. *)
Definition sequence_ok (args : Args.t) (return_contacts : bool)
    (representations : list (Z * Tensor3 V)) (contacts : option (Contacts3 C))
    (i : nat) (s : string) : bool :=
  let n := truncation_length (Args.truncation_seq_length args) s in
  (0 <=? Args.truncation_seq_length args)%Z
  && rows_cover i n representations
  && (if contains "avg_per_tok" (Args.include args)
      then match representations with [] => false | _ => true end
      else true)
  && (if return_contacts then contacts_cover i n contacts else true).

(** The entry a [Save] event stored under [key], with the file. *)
Definition saved (key : string) (e : Event) : option (OutputFile * option Value) :=
  match e with
  | Save result f => Some (f, result !! key)
  | _ => None
  end.

Definition is_infer (e : Event) : bool :=
  match e with Infer _ _ _ => true | _ => false end.

Definition is_save (e : Event) : bool :=
  match e with Save _ _ => true | _ => false end.

End Extract.

(** ** A small concrete instance

    Feature dimension 1 with integral values, on which the float
    operations are exact as long as the quotients are integral:
    [V := Z], [+] is [Z.add], division is [Z.div], the cast is the
    identity.  Token batches are lists of rows of token ids. *)

Module Toy.

Definition Toks : Type := list (list Z).

(** The batch converter: a marker token 0, then the residues (as their
    character codes) truncated to [max_len] when [max_len] is not 0.
    All sequences of the file in one batch, padded with 1. *)
Definition encode (max_len : Z) (s : string) : list Z :=
  let codes := map (fun c => Z.of_nat (nat_of_ascii c)) (list_ascii_of_string s) in
  0%Z :: (if (max_len =? 0)%Z then codes else slice 0 max_len codes).

Definition pad (n : nat) (r : list Z) : list Z :=
  r ++ replicate (n - length r) 1%Z.

Definition loader (file : list (string * string)) (max_len : Z) : list (@Batch Toks) :=
  let rows := map (fun e => encode max_len e.2) file in
  let width := foldr (fun r => Nat.max (length r)) 0 rows in
  [(map fst file, map snd file, map (pad width) rows)].

(** A model of [n] layers.  Layer [k] at a position is the token id
    there plus [k] times the sum of the row (positions mix, as under
    attention).  One activation per distinct requested layer; contacts
    are a constant map over the content positions. *)
Definition activations (k : Z) (toks : Toks) : list (list Z) :=
  map (fun r => map (fun tok => tok + k * foldr Z.add 0 r)%Z r) toks.

Definition forward (toks : Toks) (layers : list Z) (return_contacts : bool)
    : @ModelOut Z Z unit :=
  mkModelOut tt
    (map (fun k => (k, activations k toks)) (remove_dups layers))
    (if return_contacts
     then Some (map (fun r => replicate (length r - 1) (replicate (length r - 1) 7%Z)) toks)
     else None).

Definition model (n : Z) : @Model Z Z Toks unit := mkModel n false forward.

Definition extract (n : Z) (file : list (string * string)) (args : Args.t) : @IO Z Z Toks unit :=
  run Z.add 0%Z Z.div id (model n) (loader file) args.

Definition bundle :=
  @build_result Z Z Z.add 0%Z Z.div.

(** A FASTA file of one sequence, its token batch, and what the model
    returns for it when layer 1 and the contacts are asked for. *)
Definition file1 : list (string * string) := [("s1 x", "BD")].
Definition toks1 : Toks := [[0; 66; 68]]%Z.
Definition representations1 : list (Z * Tensor3 Z) :=
  out_representations (forward toks1 [1%Z] true).
Definition contacts1 : option (Contacts3 Z) :=
  out_contacts (forward toks1 [1%Z] true).

Definition all_kinds : list string :=
  ["per_tok"; "avg_per_tok"; "mean"; "bos"; "contacts"].

Definition args (include : list string) (repr_layers : list Z) (max_len : Z) : Args.t :=
  Args.mk include repr_layers max_len "out".

End Toy.

(** ** Whole batches and whole runs

    Reference definitions for the events of a batch and of a run, used
    to state what [process_batch] and [run] do on well-formed input. *)

(** [s.replace(a, b)] for single characters. *)
Fixpoint replace_char (a b : ascii) (s : string) : string :=
  match s with
  | EmptyString => EmptyString
  | String c s' => String (if Ascii.eqb c a then b else c) (replace_char a b s')
  end.

(** The values [create_parser] registers for the options of [run] that
    are left out on the command line (lines 37-58), and the choices of
    [--include]. *)
Module Defaults.
Definition toks_per_batch : Z := 4096.
Definition repr_layers : list Z := [-1]%Z.
Definition truncation_seq_length : Z := 1022.
Definition include_choices : list string :=
  ["mean"; "per_tok"; "avg_per_tok"; "bos"; "contacts"].
End Defaults.

(** The keys a result dict can hold. *)
Definition result_keys : list string :=
  ["id"; "label"; "representations"; "avg_per_tok"; "mean_representations";
   "bos_representations"; "contacts"].

Section Batches.

Context {V C Toks Logits : Type}.
Variable vadd : V -> V -> V.
Variable vzero : V.
Variable vdiv : V -> Z -> V.
Variable to_float16 : V -> V.

(** The file a [Save] event wrote. *)
Definition saved_file (e : @Event V C Toks) : option OutputFile :=
  match e with
  | Save _ f => Some f
  | _ => None
  end.

(** Lines 112-113: the output file of a label, [args.output_dir /
    f"{id}_{label}.pt"] for the two parts the label splits into; none
    when the unpacking raises. *)
Definition label_file (args : Args.t) (lbl : string) : option OutputFile :=
  match split " " lbl with
  | [id; label] => Some (mkOutputFile (Args.output_dir args) (id ++ "_" ++ label ++ ".pt"))
  | _ => None
  end.

(** The dict comprehension of lines 102-104. *)
Definition to_half (representations : list (Z * Tensor3 V)) : list (Z * Tensor3 V) :=
  map (fun '(layer, t) => (layer, map (map to_float16) t)) representations.

(** [f i x] for the elements [x] of [xs] numbered from [i], appended. *)
Fixpoint concat_enumerate {A B} (f : nat -> A -> list B) (i : nat) (xs : list A) : list B :=
  match xs with
  | [] => []
  | x :: xs' => f i x ++ concat_enumerate f (S i) xs'
  end.

(** [p i x] holds for all elements [x] of [xs] numbered from [i]. *)
Fixpoint all_enumerate {A} (p : nat -> A -> bool) (i : nat) (xs : list A) : bool :=
  match xs with
  | [] => true
  | x :: xs' => p i x && all_enumerate p (S i) xs'
  end.

(** The two events of a sequence whose label splits in two and whose
    residue string exists: the parent directory, then the reference
    bundle saved under the label's file. *)
Definition sequence_events (args : Args.t) (repr_layers : list Z) (return_contacts : bool)
    (representations : list (Z * Tensor3 V)) (contacts : option (Contacts3 C))
    (strs : list string) (i : nat) (lbl : string) : list (@Event V C Toks) :=
  match split " " lbl, strs !! i with
  | [id; label], Some s =>
      let f := mkOutputFile (Args.output_dir args) (id ++ "_" ++ label ++ ".pt") in
      [MkdirParent f;
       Save (spec_result vadd vzero vdiv args repr_layers return_contacts
               representations contacts i s id label) f]
  | _, _ => []
  end.

(** Sequence [i] of a batch is in order: one space in the label, a
    residue string, and model output that covers it. *)
Definition sequence_in_order (args : Args.t) (return_contacts : bool)
    (representations : list (Z * Tensor3 V)) (contacts : option (Contacts3 C))
    (strs : list string) (i : nat) (lbl : string) : bool :=
  (count_char " " lbl =? 1)
  && match strs !! i with
     | Some s => sequence_ok args return_contacts representations contacts i s
     | None => false
     end.

(** What line 109 binds [contacts] to. *)
Definition bound_contacts (return_contacts : bool) (out : @ModelOut V C Logits)
    : option (Contacts3 C) :=
  if return_contacts then out_contacts out else None.

(** A batch is in order: the model returns contacts when asked to, and
    every sequence is in order for the float16 activations. *)
Definition batch_ok (model : @Model V C Toks Logits) (args : Args.t) (repr_layers : list Z)
    (return_contacts : bool) (batch : @Batch Toks) : bool :=
  let '(labels, strs, toks) := batch in
  let out := forward model toks repr_layers return_contacts in
  (if return_contacts then bool_decide (is_Some (out_contacts out)) else true)
  && all_enumerate
       (sequence_in_order args return_contacts (to_half (out_representations out))
          (bound_contacts return_contacts out) strs)
       0 labels.

(** The events of a batch in order: the model invocation, then the
    events of its sequences. *)
Definition batch_events (model : @Model V C Toks Logits) (args : Args.t)
    (repr_layers : list Z) (return_contacts : bool) (batch : @Batch Toks)
    : list (@Event V C Toks) :=
  let '(labels, strs, toks) := batch in
  let out := forward model toks repr_layers return_contacts in
  Infer toks repr_layers return_contacts
  :: concat_enumerate
       (sequence_events args repr_layers return_contacts (to_half (out_representations out))
          (bound_contacts return_contacts out) strs)
       0 labels.

(** The events of a run in order: the output directory, then the
    events of the first 1200 batches. *)
Definition run_events (model : @Model V C Toks Logits) (args : Args.t)
    (repr_layers : list Z) (data_loader : Z -> list (@Batch Toks))
    : list (@Event V C Toks) :=
  MkdirOutputDir (Args.output_dir args)
  :: concat (map (batch_events model args repr_layers
                    (contains "contacts" (Args.include args)))
                 (take 1200 (data_loader (Args.truncation_seq_length args)))).

(** The model invocation of a batch. *)
Definition infer_event (repr_layers : list Z) (return_contacts : bool) (batch : @Batch Toks)
    : @Event V C Toks :=
  Infer batch.2 repr_layers return_contacts.

(** The labels of a batch. *)
Definition batch_labels (batch : @Batch Toks) : list string := batch.1.1.

End Batches.

(** ** The five kinds of representation

    The right-hand sides of the assignments of lines 120-141, one per
    value of [--include]: what [build_result] evaluates when the test of
    the kind passes, for the truncation length of the sequence. *)

Section Kinds.

Context {V C : Type}.
Variable vadd : V -> V -> V.
Variable vzero : V.
Variable vdiv : V -> Z -> V.

(** Lines 120-123. *)
Definition extract_per_tok (i : nat) (truncate_len : Z)
    (representations : list (Z * Tensor3 V)) : Exc (@Value V C) :=
  let* d := dict_comp (row_slice i 1 (truncate_len + 1)) representations in
  Ok (VLayerTensors d).

(** Lines 125-129. *)
Definition extract_avg_per_tok (repr_layers : list Z) (i : nat) (truncate_len : Z)
    (representations : list (Z * Tensor3 V)) : Exc (@Value V C) :=
  let* tmp := dict_comp (row_slice i 1 (truncate_len + 1)) representations in
  let* stacked := stack (map snd tmp) in
  Ok (VTensor (div_scalar vdiv (sum_dim0 vadd vzero stacked)
                 (Z.of_nat (length repr_layers)))).

(** Lines 132-135. *)
Definition extract_mean (i : nat) (truncate_len : Z)
    (representations : list (Z * Tensor3 V)) : Exc (@Value V C) :=
  let* d := dict_comp (fun t => let* sl := row_slice i 1 (truncate_len + 1) t in
                                Ok (mean0 vadd vzero vdiv sl)) representations in
  Ok (VLayerVectors d).

(** Lines 137-139. *)
Definition extract_bos (i : nat) (representations : list (Z * Tensor3 V))
    : Exc (@Value V C) :=
  let* d := dict_comp (row_first i) representations in
  Ok (VLayerVectors d).

(** Line 141; [contacts] is unbound when line 109 did not run. *)
Definition extract_contacts (i : nat) (truncate_len : Z) (contacts : option (Contacts3 C))
    : Exc (@Value V C) :=
  match contacts with
  | Some c => let* m := contact_slice i truncate_len c in Ok (VContacts m)
  | None => Raise NameError
  end.

End Kinds.

(** ** Calls that raise

    [mkdir], the model and [torch.save] are calls into the world around
    the script, and each of them can raise: [FileExistsError] or
    [OSError] from the file system, a resource error from the model.
    [run] is the script in a world where every such call returns.
    [run_env] is the script in an arbitrary world [env]: the same
    statements, where each call first asks [env] whether it returns.
    A call that raises ends the run like any other exception. *)

Section World.

Context {V C Toks Logits X : Type}.
Variable vadd : V -> V -> V.
Variable vzero : V.
Variable vdiv : V -> Z -> V.
Variable to_float16 : V -> V.

(** How a computation ends: it returns, a statement of the script
    raises, or the call [ev] raises the exception [x]. *)
Inductive Outcome (A : Type) : Type :=
| Returned (a : A)
| Raised (e : Error)
| Failed (ev : @Event V C Toks) (x : X).
Arguments Returned {A} a.
Arguments Raised {A} e.
Arguments Failed {A} ev x.

(** The world: [env h ev] is [None] when the call [ev] returns after
    the calls [h] that returned before it since the start, and [Some x]
    when it raises [x].  No two calls of one run have the same [h], so
    an arbitrary [env] covers every way the calls of a run can turn
    out. *)
Definition Env : Type := list (@Event V C Toks) -> @Event V C Toks -> option X.

(** A computation in a world: from the calls that returned so far to
    the calls that returned during the computation and its outcome. *)
Definition IOE (A : Type) : Type :=
  list (@Event V C Toks) -> list (@Event V C Toks) * Outcome A.

Definition ret_env {A} (a : A) : IOE A := fun _ => ([], Returned a).

Definition lift_env {A} (m : Exc A) : IOE A :=
  fun _ => ([], match m with Ok a => Returned a | Raise e => Raised e end).

(** A call is recorded when it returns. *)
Definition call (env : Env) (ev : @Event V C Toks) : IOE unit :=
  fun h =>
    match env h ev with
    | None => ([ev], Returned tt)
    | Some x => ([], Failed ev x)
    end.

Definition bind_env {A B} (m : IOE A) (k : A -> IOE B) : IOE B :=
  fun h =>
    match m h with
    | (tr, Returned a) => let '(tr', r) := k a (h ++ tr) in (tr ++ tr', r)
    | (tr, Raised e) => (tr, Raised e)
    | (tr, Failed ev x) => (tr, Failed ev x)
    end.

Fixpoint for_enumerate_env {A} (body : nat -> A -> IOE unit) (i : nat) (xs : list A)
    : IOE unit :=
  match xs with
  | [] => ret_env tt
  | x :: xs' => bind_env (body i x) (fun _ => for_enumerate_env body (S i) xs')
  end.

Notation "'let?' x ':=' m 'in' k" := (bind_env m (fun x => k))
  (at level 10, x pattern, m at level 100, k at level 200, only parsing).

(** Lines 112-146 with the calls of lines 114 and 143. *)
Definition save_sequence_env (env : Env) (args : Args.t) (repr_layers : list Z)
    (return_contacts : bool) (representations : list (Z * Tensor3 V))
    (contacts : option (Contacts3 C)) (strs : list string) (i : nat) (label : string)
    : IOE unit :=
  let? (id, label) := lift_env (unpack2 (split " " label)) in
  let output_file := mkOutputFile (Args.output_dir args) (id ++ "_" ++ label ++ ".pt") in
  let? _ := call env (MkdirParent output_file) in
  let? result := lift_env (build_result vadd vzero vdiv args repr_layers return_contacts
                             representations contacts strs i id label) in
  call env (Save result output_file).

(** Lines 93-146 with the model call of line 99: when it returns, its
    value is what [forward] gives. *)
Definition process_batch_env (env : Env) (model : @Model V C Toks Logits) (args : Args.t)
    (repr_layers : list Z) (return_contacts : bool) (batch : @Batch Toks) : IOE unit :=
  let '(labels, strs, toks) := batch in
  let? _ := call env (Infer toks repr_layers return_contacts) in
  let out := forward model toks repr_layers return_contacts in
  let representations :=
    map (fun '(layer, t) => (layer, map (map to_float16) t)) (out_representations out) in
  let? contacts :=
    lift_env (if return_contacts then
                match out_contacts out with
                | Some c => Ok (Some c)
                | None => Raise KeyError
                end
              else Ok None) in
  for_enumerate_env
    (save_sequence_env env args repr_layers return_contacts representations contacts strs)
    0 labels.

(** Lines 91-92. *)
Definition batch_loop_env (env : Env) (start_batch end_batch : Z)
    (model : @Model V C Toks Logits) (args : Args.t) (repr_layers : list Z)
    (return_contacts : bool) (data_loader : list (@Batch Toks)) : IOE unit :=
  for_enumerate_env
    (fun batch_idx batch =>
       if (start_batch <=? Z.of_nat batch_idx)%Z && (Z.of_nat batch_idx <? end_batch)%Z
       then process_batch_env env model args repr_layers return_contacts batch
       else ret_env tt)
    0 data_loader.

(** [run(args)] with the call of line 82. *)
Definition run_env (env : Env) (model : @Model V C Toks Logits)
    (data_loader : Z -> list (@Batch Toks)) (args : Args.t) : IOE unit :=
  let? _ := lift_env (if is_MSATransformer model then Raise ValueError else Ok tt) in
  let data_loader := data_loader (Args.truncation_seq_length args) in
  let? _ := call env (MkdirOutputDir (Args.output_dir args)) in
  let return_contacts := contains "contacts" (Args.include args) in
  let? repr_layers := lift_env (resolve_layers (num_layers model) (Args.repr_layers args)) in
  let start_batch := 0%Z in
  let end_batch := 1200%Z in
  batch_loop_env env start_batch end_batch model args repr_layers return_contacts data_loader.

(** *** Reference definitions *)

(** Every call of [evs], made in this order after the calls [h],
    returns. *)
Fixpoint accepts (env : Env) (h evs : list (@Event V C Toks)) : bool :=
  match evs with
  | [] => true
  | ev :: rest =>
      match env h ev with
      | None => accepts env (h ++ [ev]) rest
      | Some _ => false
      end
  end.

(** The calls of [evs] made in this order after the calls [h]: those
    that returned, and the first one that raised, if any. *)
Fixpoint replay (env : Env) (h evs : list (@Event V C Toks))
    : list (@Event V C Toks) * option (@Event V C Toks * X) :=
  match evs with
  | [] => ([], None)
  | ev :: rest =>
      match env h ev with
      | None => let '(tr, r) := replay env (h ++ [ev]) rest in (ev :: tr, r)
      | Some x => ([], Some (ev, x))
      end
  end.

(** A computation of the world where every call returns, taken to the
    world [env]: its calls are made in order up to the first that
    raises; when all return, it ends as it did. *)
Definition under {A} (env : Env) (m : @IO V C Toks A) : IOE A :=
  fun h =>
    match replay env h (trace m) with
    | (tr, Some (ev, x)) => (tr, Failed ev x)
    | (tr, None) =>
        (tr, match outcome m with Ok a => Returned a | Raise e => Raised e end)
    end.

(** The calls [run] makes: the output directory, the model on the
    tokens of a loaded batch, and the parent directory and the save of
    the file of a label of a loaded batch. *)
Definition external_call (args : Args.t) (batches : list (@Batch Toks))
    (ev : @Event V C Toks) : Prop :=
  ev = MkdirOutputDir (Args.output_dir args)
  \/ (exists batch layers,
        batch ∈ batches
        /\ ev = Infer batch.2 layers (contains "contacts" (Args.include args)))
  \/ (exists batch lbl f,
        batch ∈ batches /\ lbl ∈ batch_labels batch /\ label_file args lbl = Some f
        /\ (ev = MkdirParent f \/ exists result, ev = Save result f)).

End World.

Arguments Returned {V C Toks X A} a.
Arguments Raised {V C Toks X A} e.
Arguments Failed {V C Toks X A} ev x.

(** A second file for the concrete instance: two sequences in one
    batch. *)
Module Toy2.
Definition file2 : list (string * string) := [("s1 x", "BD"); ("s2 y", "B")].
Definition batch2 : @Batch Toy.Toks :=
  (["s1 x"; "s2 y"], ["BD"; "B"], [[0; 66; 68]; [0; 66; 1]]%Z).
Definition args2 : Args.t := Toy.args ["mean"; "bos"] Defaults.repr_layers 1022.

(** Model output whose row for the sequence holds no position at
    all. *)
Definition empty_row : list (Z * Tensor3 Z) := [(1%Z, [[]])].

(** A world where every call returns, and a disk that holds one file:
    [torch.save] raises once a file was saved. *)
Definition quiet : @Env Z Z Toy.Toks string := fun _ _ => None.
Definition full_disk : @Env Z Z Toy.Toks string :=
  fun h ev =>
    match ev with
    | Save _ _ => if existsb is_save h then Some "OSError" else None
    | _ => None
    end.

(** A batch whose label holds no space. *)
Definition bad_batch : @Batch Toy.Toks := (["s3"], ["B"], [[0; 66]]%Z).

(** A model that returns no contacts even when asked, and an MSA
    Transformer. *)
Definition model_without_contacts : @Model Z Z Toy.Toks unit :=
  mkModel 1 false (fun toks layers _ => Toy.forward toks layers false).
Definition msa_model : @Model Z Z Toy.Toks unit := mkModel 12 true Toy.forward.

Definition process_all (args : Args.t) (layers : list Z) (rc : bool)
    (batches : list (@Batch Toy.Toks)) : @IO Z Z Toy.Toks unit :=
  process_all Z.add 0%Z Z.div id (Toy.model 1) args layers rc batches.

Definition process_batch (args : Args.t) (layers : list Z) (rc : bool)
    (batch : @Batch Toy.Toks) : @IO Z Z Toy.Toks unit :=
  process_batch Z.add 0%Z Z.div id (Toy.model 1) args layers rc batch.
End Toy2.

(** ** Facts about the Python operations *)

Section PyFacts.

Context {A : Type}.
Implicit Types l : list A.

Lemma clamp_nonneg (n k : Z) :
  (0 <= n)%Z -> (0 <= k)%Z -> clamp n k = Z.min k n.
Proof.
  intros Hn Hk. unfold clamp.
  destruct (Z.ltb_spec k 0); [lia | done].
Qed.

(** [l[0:n]] keeps the first [n] elements. *)
Lemma slice_prefix (n : Z) l :
  (0 <= n)%Z -> slice 0 n l = take (Z.to_nat n) l.
Proof.
  intros Hn. unfold slice.
  rewrite !clamp_nonneg by lia.
  rewrite (Z.min_l 0) by lia. rewrite Z.sub_0_r. simpl.
  destruct (Z.min_spec n (Z.of_nat (length l))) as [[Hlt ->] | [Hge ->]].
  - done.
  - rewrite Nat2Z.id. rewrite !take_ge; [done | lia | done].
Qed.

(** [l[1:n+1]] drops the first element and keeps the next [n]. *)
Lemma slice_after_first (n : Z) l :
  (0 <= n)%Z -> slice 1 (n + 1) l = take (Z.to_nat n) (drop 1 l).
Proof.
  intros Hn. unfold slice.
  rewrite !clamp_nonneg by lia.
  destruct l as [| x l].
  - simpl. by rewrite !take_nil.
  - rewrite (Z.min_l 1) by (simpl length; lia).
    change (Z.to_nat 1) with 1. simpl drop. rewrite !drop_0.
    destruct (Z.min_spec (n + 1) (Z.of_nat (length (x :: l)))) as [[Hlt ->] | [Hge ->]].
    + f_equal. lia.
    + simpl length in *. rewrite !take_ge; [done | lia | lia].
Qed.

Lemma index_lookup l (i : nat) (x : A) :
  l !! i = Some x -> index l i = Ok x.
Proof. intros H. unfold index. by rewrite H. Qed.

End PyFacts.

Section DictComp.

Context {K A B : Type}.

(** A comprehension none of whose elements raises is a [map]. *)
Lemma dict_comp_total (f : A -> Exc B) (g : A -> B) (d : list (K * A)) :
  Forall (fun kv => f kv.2 = Ok (g kv.2)) d ->
  dict_comp f d = Ok (map (fun kv => (kv.1, g kv.2)) d).
Proof.
  induction 1 as [| [k v] d Hv _ IH]; [done |].
  simpl in *. by rewrite Hv, IH.
Qed.

(** A comprehension that returned has one entry per item, under the
    same key and in the same order. *)
Lemma dict_comp_inv (f : A -> Exc B) (d : list (K * A)) (r : list (K * B)) :
  dict_comp f d = Ok r ->
  Forall2 (fun kv kb => kb.1 = kv.1 /\ f kv.2 = Ok kb.2) d r.
Proof.
  revert r. induction d as [| [k v] d IH]; intros r; simpl.
  - intros [= <-]. constructor.
  - destruct (f v) as [b |] eqn:Hb; [| done]. simpl.
    destruct (dict_comp f d) as [r' |]; [| done]. simpl.
    intros [= <-]. constructor; [done | by apply IH].
Qed.

End DictComp.

Section SplitFacts.

Lemma split_nonempty (sep : ascii) (s : string) : split sep s <> [].
Proof.
  destruct s as [| c s]; simpl; [done |].
  destruct (Ascii.eqb c sep); [done |].
  by destruct (split sep s).
Qed.

(** One piece more than there are separators. *)
Lemma split_length (sep : ascii) (s : string) :
  length (split sep s) = S (count_char sep s).
Proof.
  induction s as [| c s IH]; simpl; [done |].
  destruct (Ascii.eqb c sep); simpl.
  - by rewrite IH.
  - destruct (split sep s); simpl in *; lia.
Qed.

(** A string without separator is its own single piece. *)
Lemma split_one (sep : ascii) (s b : string) :
  split sep s = [b] -> s = b /\ count_char sep b = 0.
Proof.
  revert b. induction s as [| c s IH]; intros b; simpl.
  - by intros [= <-].
  - destruct (Ascii.eqb_spec c sep) as [-> | Hne].
    + intros [= _ Hs]. by destruct (split_nonempty sep s).
    + destruct (split sep s) as [| w ws] eqn:Hw; [by destruct (split_nonempty sep s) |].
      intros [= <- ->]. destruct (IH w eq_refl) as [-> Hc].
      simpl. by destruct (Ascii.eqb_spec c sep).
Qed.

(** No piece contains the separator, and the pieces joined by the
    separator give the string back. *)
Lemma split_two (sep : ascii) (s a b : string) :
  split sep s = [a; b] ->
  s = (a ++ String sep b)%string /\ count_char sep a = 0 /\ count_char sep b = 0.
Proof.
  revert a. induction s as [| c s IH]; intros a; simpl; [done |].
  destruct (Ascii.eqb_spec c sep) as [-> | Hne].
  - intros [= <- Hs]. destruct (split_one _ _ _ Hs) as [-> Hb]. done.
  - destruct (split sep s) as [| w ws] eqn:Hw; [done |].
    intros [= <- ->]. destruct (IH w eq_refl) as (-> & Ha & Hb).
    simpl. by destruct (Ascii.eqb_spec c sep).
Qed.

End SplitFacts.

(** ** Layer-index resolution *)

Lemma resolve_layer_nonneg (n i : Z) :
  (0 <= i <= n)%Z -> resolve_layer n i = i.
Proof.
  intros H. unfold resolve_layer.
  replace (i + n + 1)%Z with (i + 1 * (n + 1))%Z by lia.
  rewrite Z_mod_plus_full. apply Z.mod_small. lia.
Qed.

Lemma resolve_layer_negative (n i : Z) :
  (- (n + 1) <= i < 0)%Z -> resolve_layer n i = (i + n + 1)%Z.
Proof. intros H. unfold resolve_layer. apply Z.mod_small. lia. Qed.

Lemma resolve_layer_shift (n i : Z) :
  resolve_layer n (i - (n + 1)) = resolve_layer n i.
Proof.
  unfold resolve_layer.
  replace (i + n + 1)%Z with (i - (n + 1) + n + 1 + 1 * (n + 1))%Z at 1 by lia.
  by rewrite Z_mod_plus_full.
Qed.

Lemma layer_in_range_true (n i : Z) :
  layer_in_range n i = true <-> (- (n + 1) <= i <= n)%Z.
Proof. unfold layer_in_range. rewrite andb_true_iff. lia. Qed.

(** C4: a requested index [i] with [-(numLayers+1) <= i <= numLayers]
    passes the assertion and resolves to [(i + numLayers + 1) mod
    (numLayers + 1)]; the resolved index lies in [0 .. numLayers]; [i] and
    [i - (numLayers+1)] resolve to the same index, and for [0 <= i] the
    shifted index is itself accepted; with 33 layers, -1 resolves to 33
    and 0 to 0. *)
Theorem resolve_layer_in_range (n i : Z) :
  (- (n + 1) <= i <= n)%Z ->
  resolve_layers n [i] = Ok [((i + n + 1) mod (n + 1))%Z]
  /\ resolve_layer n i = ((i + n + 1) mod (n + 1))%Z
  /\ (0 <= resolve_layer n i <= n)%Z
  /\ resolve_layer n i = resolve_layer n (i - (n + 1))
  /\ ((0 <= i)%Z -> resolve_layers n [(i - (n + 1))%Z] = resolve_layers n [i])
  /\ resolve_layer 33 (-1) = 33%Z
  /\ resolve_layer 33 0 = 0%Z.
Proof.
  intros Hi.
  assert (Hok : forall j, (- (n + 1) <= j <= n)%Z ->
                  resolve_layers n [j] = Ok [resolve_layer n j]).
  { intros j Hj. unfold resolve_layers. simpl.
    by rewrite (proj2 (layer_in_range_true n j) Hj). }
  repeat split.
  - by rewrite Hok.
  - destruct (Z.lt_ge_cases i 0).
    + rewrite resolve_layer_negative; lia.
    + rewrite resolve_layer_nonneg; lia.
  - destruct (Z.lt_ge_cases i 0).
    + rewrite resolve_layer_negative; lia.
    + rewrite resolve_layer_nonneg; lia.
  - by rewrite resolve_layer_shift.
  - intros H0. rewrite !Hok by lia. by rewrite resolve_layer_shift.
Qed.

Lemma resolve_layer_in_range_witness :
  resolve_layers 33 [0]%Z = Ok [((0 + 33 + 1) mod (33 + 1))%Z]
  /\ resolve_layer 33 0 = ((0 + 33 + 1) mod (33 + 1))%Z
  /\ (0 <= resolve_layer 33 0 <= 33)%Z
  /\ resolve_layer 33 0 = resolve_layer 33 (0 - (33 + 1))
  /\ ((0 <= 0)%Z -> resolve_layers 33 [(0 - (33 + 1))%Z] = resolve_layers 33 [0]%Z)
  /\ resolve_layer 33 (-1) = 33%Z
  /\ resolve_layer 33 0 = 0%Z.
Proof. apply (resolve_layer_in_range 33 0). lia. Defined.

(** An index outside the range fails the assertion, whatever else is
    requested. *)
Lemma resolve_layers_out_of_range (n : Z) (requested : list Z) :
  Exists (fun i => ~ (- (n + 1) <= i <= n)%Z) requested ->
  resolve_layers n requested = Raise AssertionError.
Proof.
  intros H. unfold resolve_layers.
  destruct (forallb (layer_in_range n) requested) eqn:Hall; [| done].
  exfalso. rewrite forallb_forall in Hall.
  apply Exists_exists in H as (i & Hin & Hi).
  apply Hi, layer_in_range_true, Hall. by apply list_elem_of_In.
Qed.

(** ** The event monad and the loops *)

Section IOFacts.

Context {V C Toks Logits : Type}.
Local Abbreviation IO := (@IO V C Toks).

Lemma io_bind_ret_l {A B} (a : A) (k : A -> IO B) : io_bind (ret a) k = k a.
Proof. unfold io_bind, ret. by destruct (k a). Qed.

Lemma io_bind_ret_r (m : IO unit) : io_bind m (fun _ => ret tt) = m.
Proof.
  destruct m as [tr [[] | e]]; simpl; [| done].
  by rewrite app_nil_r.
Qed.

Lemma io_bind_raise {A B} (tr : list Event) (e : Error) (k : A -> IO B) :
  io_bind (tr, Raise e) k = (tr, Raise e).
Proof. done. Qed.

Lemma io_bind_ext {A B} (m : IO A) (k k' : A -> IO B) :
  (forall a, k a = k' a) -> io_bind m k = io_bind m k'.
Proof. intros H. destruct m as [tr [a | e]]; simpl; [by rewrite H | done]. Qed.

(** A loop whose body ignores the index does not depend on where the
    count starts. *)
Lemma for_enumerate_const {A} (body : A -> IO unit) (i j : nat) (xs : list A) :
  for_enumerate (fun _ x => body x) i xs = for_enumerate (fun _ x => body x) j xs.
Proof.
  revert i j. induction xs as [| x xs IH]; intros i j; simpl; [done |].
  apply io_bind_ext. intros _. apply IH.
Qed.

(** An exception in one iteration ends the loop with the events so far. *)
Lemma for_enumerate_raise {A} (body : nat -> A -> IO unit) (i : nat) (x : A)
    (xs : list A) (tr : list Event) (e : Error) :
  body i x = (tr, Raise e) -> for_enumerate body i (x :: xs) = (tr, Raise e).
Proof. intros H. simpl. by rewrite H. Qed.

Lemma window_batches_elem (lo hi : Z) (k : nat) (batches : list (@Batch Toks)) b :
  b ∈ window_batches lo hi k batches <->
  exists j, batches !! j = Some b /\ (lo <= Z.of_nat (k + j) < hi)%Z.
Proof.
  revert k. induction batches as [| b' rest IH]; intros k; simpl.
  - split; [by intros ?%elem_of_nil | by intros (j & ? & _)].
  - assert (Hshift : (exists j, rest !! j = Some b /\ (lo <= Z.of_nat (S k + j) < hi)%Z) <->
                     (exists j, (b' :: rest) !! S j = Some b
                                /\ (lo <= Z.of_nat (k + S j) < hi)%Z)).
    { split; intros (j & Hj & Hw); exists j; (split; [done |]);
        by replace (k + S j) with (S k + j) in * by lia. }
    case_decide as Hk.
    + rewrite elem_of_cons, IH, Hshift. split.
      * intros [-> | (j & Hj & Hw)]; [| by exists (S j)].
        exists 0. by rewrite Nat.add_0_r.
      * intros ([| j] & Hj & Hw); [left; by injection Hj | right; by exists j].
    + rewrite IH, Hshift. split.
      * intros (j & Hj & Hw). by exists (S j).
      * intros ([| j] & Hj & Hw); [| by exists j].
        rewrite Nat.add_0_r in Hw. done.
Qed.

End IOFacts.

Section RunFacts.

Context {V C Toks Logits : Type}.
Variable vadd : V -> V -> V.
Variable vzero : V.
Variable vdiv : V -> Z -> V.
Variable to_float16 : V -> V.
Variable model : @Model V C Toks Logits.
Variable args : Args.t.

Lemma batch_loop_from (lo hi : Z) (layers : list Z) (rc : bool) (k : nat)
    (batches : list Batch) :
  for_enumerate
    (fun batch_idx batch =>
       if (lo <=? Z.of_nat batch_idx)%Z && (Z.of_nat batch_idx <? hi)%Z
       then process_batch vadd vzero vdiv to_float16 model args layers rc batch
       else ret tt)
    k batches
  = process_all vadd vzero vdiv to_float16 model args layers rc
      (window_batches lo hi k batches).
Proof.
  unfold process_all. revert k.
  induction batches as [| b rest IH]; intros k; [done |].
  simpl. case_decide as Hk.
  - replace ((lo <=? Z.of_nat k)%Z && (Z.of_nat k <? hi)%Z) with true
      by (symmetry; apply andb_true_iff; lia).
    simpl. apply io_bind_ext. intros _. rewrite IH.
    apply (for_enumerate_const
             (process_batch vadd vzero vdiv to_float16 model args layers rc)).
  - replace ((lo <=? Z.of_nat k)%Z && (Z.of_nat k <? hi)%Z) with false
      by (symmetry; apply andb_false_iff; lia).
    rewrite io_bind_ret_l. apply IH.
Qed.

(** C3: the batch loop processes exactly the batches whose index [b]
    satisfies [lo <= b < hi], in order, and does nothing for the others:
    it equals processing the batches of the window one after the other,
    and a batch belongs to those exactly when its index lies in the
    window.  With the window [0, 1) on three batches only batch 0 is
    processed. *)
Theorem batch_window_selects (lo hi : Z) (layers : list Z) (rc : bool)
    (batches : list Batch) :
  batch_loop vadd vzero vdiv to_float16 lo hi model args layers rc batches
    = process_all vadd vzero vdiv to_float16 model args layers rc
        (window_batches lo hi 0 batches)
  /\ (forall b, b ∈ window_batches lo hi 0 batches <->
                exists k, batches !! k = Some b /\ (lo <= Z.of_nat k < hi)%Z)
  /\ (forall b0 b1 b2,
        batch_loop vadd vzero vdiv to_float16 0 1 model args layers rc [b0; b1; b2]
        = process_batch vadd vzero vdiv to_float16 model args layers rc b0).
Proof.
  split; [apply batch_loop_from |]. split.
  - intros b. apply (window_batches_elem lo hi 0).
  - intros b0 b1 b2. unfold batch_loop. rewrite batch_loop_from.
    unfold process_all. simpl. apply io_bind_ret_r.
Qed.

(** C8: when a requested layer index lies outside
    [-(numLayers+1) .. numLayers], [run] ends with an exception without
    any model invocation and without saving any result, whatever the
    data loader holds; unless the model is an MSA Transformer (rejected
    even earlier) the exception is the failed assertion and the only
    effect is the creation of the output directory. *)
Theorem out_of_range_layer_aborts (data_loader : Z -> list Batch) :
  Exists (fun i => ~ (- (num_layers model + 1) <= i <= num_layers model)%Z)
         (Args.repr_layers args) ->
  (exists e, outcome (run vadd vzero vdiv to_float16 model data_loader args) = Raise e)
  /\ Forall (fun ev => is_infer ev = false /\ is_save ev = false)
            (trace (run vadd vzero vdiv to_float16 model data_loader args))
  /\ (is_MSATransformer model = false ->
      run vadd vzero vdiv to_float16 model data_loader args
      = ([MkdirOutputDir (Args.output_dir args)], Raise AssertionError)).
Proof.
  intros Hbad. unfold run.
  rewrite (resolve_layers_out_of_range _ _ Hbad).
  destruct (is_MSATransformer model); simpl.
  - split; [by eexists |]. split; [constructor | done].
  - split; [by eexists |]. split; [| done].
    by repeat constructor.
Qed.

(** Inside the window of the script, [run] is the creation of the
    output directory followed by the batches of index below 1200. *)
Lemma run_unfold (data_loader : Z -> list Batch) (layers : list Z) :
  is_MSATransformer model = false ->
  resolve_layers (num_layers model) (Args.repr_layers args) = Ok layers ->
  run vadd vzero vdiv to_float16 model data_loader args
  = io_bind (emit (MkdirOutputDir (Args.output_dir args)))
      (fun _ => process_all vadd vzero vdiv to_float16 model args layers
                  (contains "contacts" (Args.include args))
                  (window_batches 0 1200 0
                     (data_loader (Args.truncation_seq_length args)))).
Proof.
  intros Hmsa Hl. unfold run. rewrite Hmsa, Hl.
  unfold lift, emit, io_bind, batch_loop. simpl.
  rewrite batch_loop_from.
  by destruct (process_all _ _ _ _ _ _ _ _ _).
Qed.

(** C10: the label is split on the space character.  A label that does
    not hold exactly one space raises [ValueError] before anything is
    created or saved for the sequence, and the loop over the labels ends
    there.  A label with exactly one space is [id ++ " " ++ label] with
    no space in either part, and the sequence's result is saved under
    the name [id ++ "_" ++ label ++ ".pt"] in the output directory. *)
Theorem label_split_or_abort (layers : list Z) (rc : bool)
    (representations : list (Z * Tensor3 V)) (contacts : option (Contacts3 C))
    (strs : list string) (i : nat) (lbl : string) (rest : list string) :
  (count_char " " lbl <> 1 ->
     save_sequence vadd vzero vdiv args layers rc representations contacts strs i lbl
       = (([], Raise ValueError) : @IO V C Toks unit)
     /\ for_enumerate
          (save_sequence vadd vzero vdiv args layers rc representations contacts strs)
          i (lbl :: rest)
        = (([], Raise ValueError) : @IO V C Toks unit))
  /\ (count_char " " lbl = 1 ->
      exists id label,
        lbl = (id ++ " " ++ label)%string
        /\ count_char " " id = 0 /\ count_char " " label = 0
        /\ save_sequence vadd vzero vdiv args layers rc representations contacts strs i lbl
           = (let output_file :=
                mkOutputFile (Args.output_dir args) (id ++ "_" ++ label ++ ".pt") in
              io_bind (emit (MkdirParent output_file))
                (fun _ =>
                   io_bind (lift (build_result vadd vzero vdiv args layers rc
                                    representations contacts strs i id label))
                     (fun result => emit (Save result output_file)))
              : @IO V C Toks unit)).
Proof.
  pose proof (split_length " " lbl) as Hlen.
  split.
  - intros Hc.
    assert (Hs : save_sequence vadd vzero vdiv args layers rc representations
                   contacts strs i lbl = (([], Raise ValueError) : @IO V C Toks unit)).
    { unfold save_sequence.
      destruct (split " " lbl) as [| a [| b [| c l]]]; simpl in *; try done.
      lia. }
    split; [done |]. by apply for_enumerate_raise.
  - intros Hc. rewrite Hc in Hlen.
    destruct (split " " lbl) as [| id [| label [| c l]]] eqn:Hs; simpl in Hlen; try lia.
    destruct (split_two _ _ _ _ Hs) as (-> & Hid & Hlabel).
    exists id, label. repeat split; try done.
    unfold save_sequence. rewrite Hs.
    change (lift (unpack2 [id; label])) with (@ret V C Toks _ (id, label)).
    by rewrite io_bind_ret_l.
Qed.

End RunFacts.

(** ** The result of one sequence *)

Section BuildResult.

Context {V C : Type}.
Variable vadd : V -> V -> V.
Variable vzero : V.
Variable vdiv : V -> Z -> V.
Implicit Types representations : list (Z * Tensor3 V).
Implicit Types contacts : option (Contacts3 C).

Lemma truncation_length_nonneg (max_len : Z) (s : string) :
  (0 <= max_len)%Z -> (0 <= truncation_length max_len s)%Z.
Proof. unfold truncation_length. lia. Qed.

Lemma rows_cover_Forall (i : nat) (n : Z) representations :
  rows_cover i n representations = true ->
  Forall (fun kv => exists r, kv.2 !! i = Some r /\ (n + 1 <= Z.of_nat (length r))%Z)
         representations.
Proof.
  unfold rows_cover. rewrite forallb_forall, Forall_forall.
  intros H kv Hkv. specialize (H kv (proj1 (list_elem_of_In _ _) Hkv)).
  destruct (kv.2 !! i) as [r |]; [| done].
  exists r. split; [done | lia].
Qed.

Lemma row_slice_covered (i : nat) (n : Z) (t : Tensor3 V) (r : Tensor2 V) :
  (0 <= n)%Z -> t !! i = Some r ->
  row_slice i 1 (n + 1) t = Ok (spec_per_tok i n t).
Proof.
  intros Hn Hr. unfold row_slice, spec_per_tok, row.
  rewrite (index_lookup _ _ _ Hr), Hr. simpl.
  by rewrite slice_after_first.
Qed.

Lemma spec_per_tok_length (i : nat) (n : Z) (t : Tensor3 V) (r : Tensor2 V) :
  (0 <= n)%Z -> t !! i = Some r -> (n + 1 <= Z.of_nat (length r))%Z ->
  length (spec_per_tok i n t) = Z.to_nat n.
Proof.
  intros Hn Hr Hlen. unfold spec_per_tok, row. rewrite Hr. simpl.
  rewrite length_take, length_drop. lia.
Qed.

Lemma row_first_covered (i : nat) (t : Tensor3 V) (r : Tensor2 V) :
  t !! i = Some r -> (1 <= Z.of_nat (length r))%Z ->
  row_first i t = Ok (spec_bos vzero i t).
Proof.
  intros Hr Hlen. unfold row_first, spec_bos, row.
  rewrite (index_lookup _ _ _ Hr), Hr. simpl.
  destruct r as [| v r]; [simpl in *; lia | done].
Qed.

Lemma stack_same_length (m : nat) (ts : list (Tensor2 V)) :
  ts <> [] -> Forall (fun t => length t = m) ts -> stack ts = Ok ts.
Proof.
  intros Hne Hall. destruct ts as [| t0 rest]; [done |].
  unfold stack. apply Forall_cons in Hall as [H0 Hrest].
  replace (forallb (fun t => length t =? length t0) rest) with true; [done |].
  symmetry. apply forallb_forall. intros t Ht.
  rewrite Forall_forall in Hrest.
  rewrite (Hrest t (proj2 (list_elem_of_In _ _) Ht)), H0.
  apply Nat.eqb_refl.
Qed.

Lemma contact_slice_covered (i : nat) (n : Z) (c : Contacts3 C) (m : Contacts2 C) :
  (0 <= n)%Z -> c !! i = Some m ->
  contact_slice i n c = Ok (spec_contacts i n c).
Proof.
  intros Hn Hm. unfold contact_slice, spec_contacts, row.
  rewrite (index_lookup _ _ _ Hm), Hm. simpl.
  rewrite slice_prefix by done. f_equal.
  apply map_ext. intros r. by apply slice_prefix.
Qed.

(** On inputs that cover the truncated sequence, [build_result] returns
    the reference bundle. *)
Lemma build_result_ok (args : Args.t) (layers : list Z) (rc : bool)
    representations contacts (strs : list string) (i : nat) (s id label : string) :
  strs !! i = Some s ->
  sequence_ok args rc representations contacts i s = true ->
  build_result vadd vzero vdiv args layers rc representations contacts strs i id label
  = Ok (spec_result vadd vzero vdiv args layers rc representations contacts i s id label).
Proof.
  intros Hs Hok. unfold sequence_ok in Hok.
  apply andb_true_iff in Hok as [Hok Hc].
  apply andb_true_iff in Hok as [Hok Havg].
  apply andb_true_iff in Hok as [Htr Hrows].
  apply Z.leb_le in Htr.
  pose proof (truncation_length_nonneg _ s Htr) as Hn.
  apply rows_cover_Forall in Hrows.
  unfold build_result, spec_result.
  rewrite (index_lookup _ _ _ Hs). simpl.
  fold (truncation_length (Args.truncation_seq_length args) s).
  set (n := truncation_length (Args.truncation_seq_length args) s) in *.
  assert (Hpt : dict_comp (row_slice i 1 (n + 1)) representations
                = Ok (map (fun kv => (kv.1, spec_per_tok i n kv.2)) representations)).
  { apply dict_comp_total. eapply Forall_impl; [exact Hrows |].
    intros kv (r & Hr & _). by eapply row_slice_covered. }
  assert (Hmean : dict_comp (fun t => let* sl := row_slice i 1 (n + 1) t in
                                      Ok (mean0 vadd vzero vdiv sl)) representations
                  = Ok (map (fun kv => (kv.1, mean0 vadd vzero vdiv (spec_per_tok i n kv.2)))
                            representations)).
  { apply (dict_comp_total _ (fun t => mean0 vadd vzero vdiv (spec_per_tok i n t))).
    eapply Forall_impl; [exact Hrows |].
    intros kv (r & Hr & _). by erewrite row_slice_covered. }
  assert (Hbos : dict_comp (row_first i) representations
                 = Ok (map (fun kv => (kv.1, spec_bos vzero i kv.2)) representations)).
  { apply dict_comp_total. eapply Forall_impl; [exact Hrows |].
    intros kv (r & Hr & Hlen). eapply row_first_covered; [done | lia]. }
  rewrite Hpt, Hmean, Hbos. simpl.
  destruct (contains "per_tok" (Args.include args)); simpl;
    (destruct (contains "avg_per_tok" (Args.include args)); simpl;
     [ rewrite map_map; simpl;
       rewrite (stack_same_length (Z.to_nat n));
       [ simpl
       | destruct representations; [done | discriminate]
       | apply Forall_map; eapply Forall_impl; [exact Hrows |];
         intros kv (r & Hr & Hlen); by eapply spec_per_tok_length ]
     | ]);
    (destruct (contains "mean" (Args.include args)); simpl);
    (destruct (contains "bos" (Args.include args)); simpl);
    (destruct rc; [| done]);
    unfold contacts_cover in Hc;
    (destruct contacts as [c |]; [| done]);
    (destruct (c !! i) as [m |] eqn:Hm; [| done]);
    by erewrite contact_slice_covered.
Qed.

End BuildResult.

(** ** Entries of the bundle *)

Section Bundle.

Context {V C : Type}.
Variable vadd : V -> V -> V.
Variable vzero : V.
Variable vdiv : V -> Z -> V.
Implicit Types representations : list (Z * Tensor3 V).
Implicit Types contacts : option (Contacts3 C).

Local Ltac bundle_lookup :=
  unfold spec_result;
  repeat match goal with
         | |- context [if ?b then _ else _] => destruct b
         end;
  by simplify_map_eq.

Lemma spec_result_per_tok args layers rc representations contacts i s id label :
  spec_result vadd vzero vdiv args layers rc representations contacts i s id label
    !! "representations"
  = if contains "per_tok" (Args.include args)
    then Some (VLayerTensors
                 (map (fun kv => (kv.1, spec_per_tok i
                                          (truncation_length (Args.truncation_seq_length args) s)
                                          kv.2)) representations))
    else None.
Proof. bundle_lookup. Qed.

Lemma spec_result_avg_per_tok args layers rc representations contacts i s id label :
  spec_result vadd vzero vdiv args layers rc representations contacts i s id label
    !! "avg_per_tok"
  = if contains "avg_per_tok" (Args.include args)
    then Some (VTensor
                 (div_scalar vdiv
                    (sum_dim0 vadd vzero
                       (map (fun kv => spec_per_tok i
                                         (truncation_length (Args.truncation_seq_length args) s)
                                         kv.2) representations))
                    (Z.of_nat (length layers))))
    else None.
Proof. bundle_lookup. Qed.

Lemma spec_result_mean args layers rc representations contacts i s id label :
  spec_result vadd vzero vdiv args layers rc representations contacts i s id label
    !! "mean_representations"
  = if contains "mean" (Args.include args)
    then Some (VLayerVectors
                 (map (fun kv =>
                         (kv.1, mean0 vadd vzero vdiv
                                  (spec_per_tok i
                                     (truncation_length (Args.truncation_seq_length args) s)
                                     kv.2))) representations))
    else None.
Proof. bundle_lookup. Qed.

Lemma spec_result_bos args layers rc representations contacts i s id label :
  spec_result vadd vzero vdiv args layers rc representations contacts i s id label
    !! "bos_representations"
  = if contains "bos" (Args.include args)
    then Some (VLayerVectors (map (fun kv => (kv.1, spec_bos vzero i kv.2)) representations))
    else None.
Proof. bundle_lookup. Qed.

Lemma spec_result_contacts args layers rc representations contacts i s id label :
  spec_result vadd vzero vdiv args layers rc representations contacts i s id label
    !! "contacts"
  = if rc
    then Some (VContacts
                 (spec_contacts i (truncation_length (Args.truncation_seq_length args) s)
                    (default [] contacts)))
    else None.
Proof. bundle_lookup. Qed.

End Bundle.

Section BundleKeys.

Context {V C : Type}.
Variable vadd : V -> V -> V.
Variable vzero : V.
Variable vdiv : V -> Z -> V.
Implicit Types representations : list (Z * Tensor3 V).
Implicit Types contacts : option (Contacts3 C).

(** Whatever the inputs, a bundle that was built holds the entry of a
    kind exactly when the corresponding test of [build_result] passed. *)
Lemma build_result_keys args layers rc representations contacts strs i id label
    (result : gmap string (@Value V C)) :
  build_result vadd vzero vdiv args layers rc representations contacts strs i id label
  = Ok result ->
  (is_Some (result !! "representations") <-> contains "per_tok" (Args.include args) = true)
  /\ (is_Some (result !! "avg_per_tok") <-> contains "avg_per_tok" (Args.include args) = true)
  /\ (is_Some (result !! "mean_representations") <-> contains "mean" (Args.include args) = true)
  /\ (is_Some (result !! "bos_representations") <-> contains "bos" (Args.include args) = true)
  /\ (is_Some (result !! "contacts") <-> rc = true).
Proof.
  intros H. unfold build_result in H.
  destruct (index strs i) as [s |]; simpl in H; [| done].
  repeat match type of H with
         | context [contains ?k ?l] => destruct (contains k l) eqn:?; simpl in H
         | context [dict_comp ?f ?d] => destruct (dict_comp f d) eqn:?; simpl in H; [| done]
         | context [stack ?ts] => destruct (stack ts) eqn:?; simpl in H; [| done]
         end;
    (destruct rc; simpl in H;
     [ destruct contacts as [c |]; [| done];
       destruct (contact_slice _ _ _) eqn:?; simpl in H; [| done] |]);
    injection H as <-;
    repeat split; intros Hx; try done;
      simplify_map_eq; try done; by inversion Hx.
Qed.

(** The tests of [build_result] guard the extractions: when the
    extraction of every kind whose test passes returns, the bundle is
    built, whatever the other extractions would do. *)
Lemma build_result_requested_only args layers rc representations contacts strs i s id label :
  strs !! i = Some s ->
  (contains "per_tok" (Args.include args) = true ->
   exists v : @Value V C,
     extract_per_tok i (truncation_length (Args.truncation_seq_length args) s)
       representations = Ok v) ->
  (contains "avg_per_tok" (Args.include args) = true ->
   exists v : @Value V C,
     extract_avg_per_tok vadd vzero vdiv layers i
       (truncation_length (Args.truncation_seq_length args) s) representations = Ok v) ->
  (contains "mean" (Args.include args) = true ->
   exists v : @Value V C,
     extract_mean vadd vzero vdiv i
       (truncation_length (Args.truncation_seq_length args) s) representations = Ok v) ->
  (contains "bos" (Args.include args) = true ->
   exists v : @Value V C, extract_bos i representations = Ok v) ->
  (rc = true ->
   exists v : @Value V C,
     extract_contacts i (truncation_length (Args.truncation_seq_length args) s) contacts
     = Ok v) ->
  exists result,
    build_result vadd vzero vdiv args layers rc representations contacts strs i id label
    = Ok result.
Proof.
  intros Hs Hp Ha Hm Hb Hc.
  unfold build_result, index. rewrite Hs. simpl.
  unfold truncation_length, extract_per_tok, extract_avg_per_tok, extract_mean, extract_bos,
    extract_contacts in *.
  destruct (contains "per_tok" (Args.include args));
    [destruct (Hp eq_refl) as [vp Hvp] |]; clear Hp;
    (destruct (contains "avg_per_tok" (Args.include args));
     [destruct (Ha eq_refl) as [va Hva] |]; clear Ha);
    (destruct (contains "mean" (Args.include args));
     [destruct (Hm eq_refl) as [vm Hvm] |]; clear Hm);
    (destruct (contains "bos" (Args.include args));
     [destruct (Hb eq_refl) as [vb Hvb] |]; clear Hb);
    (destruct rc; [destruct (Hc eq_refl) as [vc Hvc] |]; clear Hc);
    repeat match goal with
           | H : context [dict_comp ?f ?d] |- _ =>
               destruct (dict_comp f d); simpl in *; [| done]
           | H : context [stack ?ts] |- _ =>
               destruct (stack ts); simpl in *; [| done]
           | H : match ?c with Some _ => _ | None => _ end = Ok _ |- _ =>
               destruct c; [| done]
           | H : context [contact_slice ?i ?n ?c] |- _ =>
               destruct (contact_slice i n c); simpl in *; [| done]
           end;
    simpl; by eexists.
Qed.

(** In a bundle that was built, the entry of a kind whose test passed
    is the value its extraction returned. *)
Lemma build_result_values args layers rc representations contacts strs i s id label
    (result : gmap string (@Value V C)) :
  strs !! i = Some s ->
  build_result vadd vzero vdiv args layers rc representations contacts strs i id label
  = Ok result ->
  (contains "per_tok" (Args.include args) = true ->
   exists v,
     extract_per_tok i (truncation_length (Args.truncation_seq_length args) s)
       representations = Ok v
     /\ result !! "representations" = Some v)
  /\ (contains "avg_per_tok" (Args.include args) = true ->
      exists v,
        extract_avg_per_tok vadd vzero vdiv layers i
          (truncation_length (Args.truncation_seq_length args) s) representations = Ok v
        /\ result !! "avg_per_tok" = Some v)
  /\ (contains "mean" (Args.include args) = true ->
      exists v,
        extract_mean vadd vzero vdiv i
          (truncation_length (Args.truncation_seq_length args) s) representations = Ok v
        /\ result !! "mean_representations" = Some v)
  /\ (contains "bos" (Args.include args) = true ->
      exists v,
        extract_bos i representations = Ok v
        /\ result !! "bos_representations" = Some v)
  /\ (rc = true ->
      exists v,
        extract_contacts i (truncation_length (Args.truncation_seq_length args) s) contacts
        = Ok v
        /\ result !! "contacts" = Some v).
Proof.
  intros Hs H. unfold build_result, index in H. rewrite Hs in H. simpl in H.
  unfold truncation_length, extract_per_tok, extract_avg_per_tok, extract_mean, extract_bos,
    extract_contacts.
  repeat match type of H with
         | context [contains ?k ?l] => destruct (contains k l) eqn:?; simpl in H
         | context [dict_comp ?f ?d] => destruct (dict_comp f d) eqn:?; simpl in H; [| done]
         | context [stack ?ts] => destruct (stack ts) eqn:?; simpl in H; [| done]
         end;
    (destruct rc; simpl in H;
     [ destruct contacts as [c |]; [| done];
       destruct (contact_slice _ _ _) eqn:?; simpl in H; [| done] |]);
    injection H as <-;
    repeat split; intros Hx; try done;
      (eexists; split;
       [simpl;
        repeat match goal with
               | E : ?m = Ok _ |- context [?m] => rewrite E; simpl
               end;
        reflexivity |]);
      by simplify_map_eq.
Qed.

End BundleKeys.

(** ** The extracted artifacts *)

Section Artifacts.

Context {V C : Type}.
Variable vadd : V -> V -> V.
Variable vzero : V.
Variable vdiv : V -> Z -> V.
Implicit Types representations : list (Z * Tensor3 V).
Implicit Types contacts : option (Contacts3 C).

Lemma sequence_ok_inv args rc representations contacts i s :
  sequence_ok args rc representations contacts i s = true ->
  let n := truncation_length (Args.truncation_seq_length args) s in
  (0 <= Args.truncation_seq_length args)%Z
  /\ (0 <= n)%Z
  /\ Forall (fun kv => exists r, kv.2 !! i = Some r /\ (n + 1 <= Z.of_nat (length r))%Z)
            representations
  /\ (rc = true ->
      exists c m, contacts = Some c /\ c !! i = Some m
                  /\ (n <= Z.of_nat (length m))%Z
                  /\ Forall (fun r => (n <= Z.of_nat (length r))%Z) m).
Proof.
  intros Hok n. unfold sequence_ok in Hok. fold n in Hok.
  apply andb_true_iff in Hok as [Hok Hc].
  apply andb_true_iff in Hok as [Hok _].
  apply andb_true_iff in Hok as [Htr Hrows].
  apply Z.leb_le in Htr.
  split; [done |]. split; [by apply truncation_length_nonneg |].
  split; [by apply rows_cover_Forall |].
  intros ->. unfold contacts_cover in Hc.
  destruct contacts as [c |]; [| done].
  destruct (c !! i) as [m |] eqn:Hm; [| done].
  apply andb_true_iff in Hc as [Hlen Hrows'].
  exists c, m. split; [done |]. split; [done |]. split; [by apply Z.leb_le |].
  apply Forall_forall. intros r Hr. rewrite forallb_forall in Hrows'.
  apply Z.leb_le, Hrows'. by apply list_elem_of_In.
Qed.

(** C1: for a sequence [i] with residue string [s] whose activations
    cover the truncated sequence, a request for [per_tok] puts under
    ["representations"] one slice per layer of the model output, under
    that layer's key.  The slice holds the positions 1 to [t_i] of row
    [i], position 0 left out, and its length is [t_i], the minimum of
    the truncation length and the length of [s]. *)
Theorem per_tok_slice args layers rc representations contacts strs i s id label :
  strs !! i = Some s ->
  sequence_ok args rc representations contacts i s = true ->
  contains "per_tok" (Args.include args) = true ->
  exists result d,
    build_result vadd vzero vdiv args layers rc representations contacts strs i id label
    = Ok result
    /\ result !! "representations" = Some (VLayerTensors d)
    /\ Forall2
         (fun (kv : Z * Tensor3 V) (kd : Z * Tensor2 V) =>
            kd.1 = kv.1
            /\ Z.of_nat (length kd.2)
               = Z.min (Args.truncation_seq_length args) (Z.of_nat (String.length s))
            /\ forall p : nat,
                 (Z.of_nat p
                  < Z.min (Args.truncation_seq_length args) (Z.of_nat (String.length s)))%Z ->
                 kd.2 !! p = row i kv.2 !! S p)
         representations d.
Proof.
  intros Hs Hok Hreq.
  destruct (sequence_ok_inv _ _ _ _ _ _ Hok) as (Htr & Hn & Hrows & _).
  eexists _, _. split; [by apply build_result_ok |].
  split; [by rewrite spec_result_per_tok, Hreq |].
  apply Forall2_fmap_r, Forall_Forall2_diag.
  eapply Forall_impl; [exact Hrows |].
  intros kv (r & Hr & Hlen). simpl. split; [done |].
  fold (truncation_length (Args.truncation_seq_length args) s).
  split.
  - rewrite (spec_per_tok_length _ _ _ r) by done. lia.
  - intros p Hp. unfold spec_per_tok, row. rewrite Hr. simpl.
    rewrite lookup_take_lt by lia. by rewrite lookup_drop.
Qed.

(** C5: for a sequence whose activations cover the truncated sequence, a
    request for [mean] puts under ["mean_representations"], for each
    layer, the sum over the positions 1 to [t_i] of row [i] divided by
    [t_i]; when [per_tok] is requested too, it is the mean over the
    position axis of the stored [per_tok] slice of that layer.  For
    [t_i = 1], and with [0 + v = v] and [v / 1 = v] on feature vectors,
    it is position 0 of that slice. *)
Theorem mean_is_position_average args layers rc representations contacts strs i s id label :
  strs !! i = Some s ->
  sequence_ok args rc representations contacts i s = true ->
  contains "mean" (Args.include args) = true ->
  let n := truncation_length (Args.truncation_seq_length args) s in
  exists result d,
    build_result vadd vzero vdiv args layers rc representations contacts strs i id label
    = Ok result
    /\ result !! "mean_representations" = Some (VLayerVectors d)
    /\ Forall2
         (fun (kv : Z * Tensor3 V) (kd : Z * V) =>
            kd.1 = kv.1
            /\ kd.2 = vdiv (vsum vadd vzero (spec_per_tok i n kv.2)) n
            /\ ((forall v, vadd vzero v = v) -> (forall v, vdiv v 1 = v) -> n = 1%Z ->
                spec_per_tok i n kv.2 !! 0 = Some kd.2))
         representations d
    /\ (contains "per_tok" (Args.include args) = true ->
        exists d', result !! "representations" = Some (VLayerTensors d')
                   /\ Forall2 (fun (kd' : Z * Tensor2 V) (kd : Z * V) =>
                                 kd.1 = kd'.1 /\ kd.2 = mean0 vadd vzero vdiv kd'.2) d' d).
Proof.
  intros Hs Hok Hreq n.
  destruct (sequence_ok_inv _ _ _ _ _ _ Hok) as (Htr & Hn & Hrows & _). fold n in Hn, Hrows.
  eexists _, _. split; [by apply build_result_ok |].
  split; [by rewrite spec_result_mean, Hreq |].
  split.
  - apply Forall2_fmap_r, Forall_Forall2_diag.
    eapply Forall_impl; [exact Hrows |].
    intros kv (r & Hr & Hlen). simpl. fold n. split; [done |].
    pose proof (spec_per_tok_length i n kv.2 r Hn Hr Hlen) as Hl.
    split.
    + unfold mean0. rewrite Hl. by rewrite Z2Nat.id.
    + intros Hadd Hdiv Hn1. unfold mean0. rewrite Hl, Hn1 in *.
      destruct (spec_per_tok i 1 kv.2) as [| v [| ? ?]]; try done.
      simpl. unfold vsum. simpl. by rewrite Hadd, Hdiv.
  - intros Hpt. eexists. split; [by rewrite spec_result_per_tok, Hpt |].
    apply Forall2_fmap, Forall_Forall2_diag, Forall_forall. done.
Qed.

(** C6: for a sequence whose contact map covers the truncated sequence,
    a request for [contacts] puts under ["contacts"] the rows and
    columns [0 .. t_i - 1] of the contact map of sequence [i]: a [t_i]
    by [t_i] matrix that agrees with the map on those entries.  When the
    map of the sequence is itself [t_i] by [t_i] (content positions
    only, no padding), the entry is the whole map. *)
Theorem contacts_submatrix args layers representations (c : Contacts3 C) strs i s id label :
  strs !! i = Some s ->
  contains "contacts" (Args.include args) = true ->
  sequence_ok args (contains "contacts" (Args.include args)) representations (Some c) i s
  = true ->
  let n := Z.min (Args.truncation_seq_length args) (Z.of_nat (String.length s)) in
  exists result m,
    build_result vadd vzero vdiv args layers (contains "contacts" (Args.include args))
      representations (Some c) strs i id label = Ok result
    /\ result !! "contacts" = Some (VContacts m)
    /\ Z.of_nat (length m) = n
    /\ Forall (fun r => Z.of_nat (length r) = n) m
    /\ (forall p q : nat, (Z.of_nat p < n)%Z -> (Z.of_nat q < n)%Z ->
          entry m p q = entry (row i c) p q)
    /\ (Z.of_nat (length (row i c)) = n ->
        Forall (fun r => Z.of_nat (length r) = n) (row i c) ->
        m = row i c).
Proof.
  intros Hs Hreq Hok n.
  destruct (sequence_ok_inv _ _ _ _ _ _ Hok) as (Htr & Hn & _ & Hc).
  destruct (Hc Hreq) as (c' & m0 & [= <-] & Hm0 & Hlen & Hrows).
  fold (truncation_length (Args.truncation_seq_length args) s) in n.
  fold n in Hn, Hlen, Hrows.
  eexists _, _. split; [by apply build_result_ok |].
  split; [by rewrite spec_result_contacts, Hreq |].
  simpl. fold n. unfold spec_contacts, row. rewrite Hm0. simpl.
  clear Hok Hc. clearbody n.
  split; [rewrite length_map, length_take; lia |].
  split.
  { apply Forall_map, Forall_take. eapply Forall_impl; [exact Hrows |].
    intros r Hr. simpl in *. rewrite length_take. lia. }
  split.
  { intros p q Hp Hq. unfold entry.
    rewrite list_lookup_fmap, lookup_take_lt by lia.
    destruct (m0 !! p) as [r |]; [| done]. simpl.
    by rewrite lookup_take_lt by lia. }
  intros Hfull Hall. rewrite take_ge by lia.
  rewrite <- (map_id m0) at 2. apply map_ext_Forall.
  eapply Forall_impl; [exact Hall |].
  intros r Hr. simpl in *. apply take_ge. lia.
Qed.

(** C7, as amended: for a sequence whose activations cover the truncated
    sequence, a request for [bos] puts under ["bos_representations"],
    for each layer, position 0 of row [i]; on the same batch activations
    the entry is the same for any two truncation lengths. *)
Theorem bos_is_position_zero (include : list string) (requested : list Z) (dir : string)
    (max_len1 max_len2 : Z) layers rc representations contacts strs i s id label :
  strs !! i = Some s ->
  sequence_ok (Args.mk include requested max_len1 dir) rc representations contacts i s = true ->
  sequence_ok (Args.mk include requested max_len2 dir) rc representations contacts i s = true ->
  contains "bos" include = true ->
  exists result1 result2 d,
    build_result vadd vzero vdiv (Args.mk include requested max_len1 dir) layers rc
      representations contacts strs i id label = Ok result1
    /\ build_result vadd vzero vdiv (Args.mk include requested max_len2 dir) layers rc
         representations contacts strs i id label = Ok result2
    /\ result1 !! "bos_representations" = Some (VLayerVectors d)
    /\ result2 !! "bos_representations" = Some (VLayerVectors d)
    /\ Forall2 (fun (kv : Z * Tensor3 V) (kd : Z * V) =>
                  kd.1 = kv.1 /\ row i kv.2 !! 0 = Some kd.2)
               representations d.
Proof.
  intros Hs Hok1 Hok2 Hreq.
  destruct (sequence_ok_inv _ _ _ _ _ _ Hok1) as (_ & Hn & Hrows & _).
  eexists _, _, _. split; [by apply build_result_ok |].
  split; [by apply build_result_ok |].
  split; [by rewrite spec_result_bos; simpl; rewrite Hreq |].
  split; [by rewrite spec_result_bos; simpl; rewrite Hreq |].
  apply Forall2_fmap_r, Forall_Forall2_diag.
  eapply Forall_impl; [exact Hrows |].
  intros kv (r & Hr & Hlen). simpl. split; [done |].
  unfold spec_bos, row. rewrite Hr. simpl.
  destruct r as [| v r]; [simpl in *; lia | done].
Qed.

(** C9: only the requested kinds are extracted.  For a sequence
    whose residue string exists:
    - on inputs that cover the truncated sequence a bundle is built;
    - a bundle that was built holds the entry of a kind exactly when
      that kind is among the requested ones (["representations"] for
      [per_tok], ["avg_per_tok"], ["mean_representations"] for [mean],
      ["bos_representations"] for [bos], ["contacts"]);
    - a bundle is built as soon as the extraction of every requested
      kind returns, so the extraction of a kind that is not requested
      is not run: whether it would raise has no effect;
    - in a bundle that was built, the entry of a requested kind is the
      value its extraction returned. *)
Theorem bundle_keys_iff_requested args layers representations contacts strs i s id label :
  strs !! i = Some s ->
  (sequence_ok args (contains "contacts" (Args.include args)) representations contacts i s
   = true ->
   exists result,
     build_result vadd vzero vdiv args layers (contains "contacts" (Args.include args))
       representations contacts strs i id label = Ok result)
  /\ (forall result,
        build_result vadd vzero vdiv args layers (contains "contacts" (Args.include args))
          representations contacts strs i id label = Ok result ->
        (is_Some (result !! "representations") <-> "per_tok" ∈ Args.include args)
        /\ (is_Some (result !! "avg_per_tok") <-> "avg_per_tok" ∈ Args.include args)
        /\ (is_Some (result !! "mean_representations") <-> "mean" ∈ Args.include args)
        /\ (is_Some (result !! "bos_representations") <-> "bos" ∈ Args.include args)
        /\ (is_Some (result !! "contacts") <-> "contacts" ∈ Args.include args))
  /\ (("per_tok" ∈ Args.include args ->
        exists v : @Value V C,
          extract_per_tok i (truncation_length (Args.truncation_seq_length args) s)
            representations = Ok v) ->
       ("avg_per_tok" ∈ Args.include args ->
        exists v : @Value V C,
          extract_avg_per_tok vadd vzero vdiv layers i
            (truncation_length (Args.truncation_seq_length args) s) representations = Ok v) ->
       ("mean" ∈ Args.include args ->
        exists v : @Value V C,
          extract_mean vadd vzero vdiv i
            (truncation_length (Args.truncation_seq_length args) s) representations = Ok v) ->
       ("bos" ∈ Args.include args ->
        exists v : @Value V C, extract_bos i representations = Ok v) ->
       ("contacts" ∈ Args.include args ->
        exists v : @Value V C,
          extract_contacts i (truncation_length (Args.truncation_seq_length args) s)
            contacts = Ok v) ->
       exists result,
         build_result vadd vzero vdiv args layers (contains "contacts" (Args.include args))
           representations contacts strs i id label = Ok result)
  /\ (forall result,
        build_result vadd vzero vdiv args layers (contains "contacts" (Args.include args))
          representations contacts strs i id label = Ok result ->
        ("per_tok" ∈ Args.include args ->
         exists v, extract_per_tok i (truncation_length (Args.truncation_seq_length args) s)
                     representations = Ok v
                   /\ result !! "representations" = Some v)
        /\ ("avg_per_tok" ∈ Args.include args ->
            exists v, extract_avg_per_tok vadd vzero vdiv layers i
                        (truncation_length (Args.truncation_seq_length args) s)
                        representations = Ok v
                      /\ result !! "avg_per_tok" = Some v)
        /\ ("mean" ∈ Args.include args ->
            exists v, extract_mean vadd vzero vdiv i
                        (truncation_length (Args.truncation_seq_length args) s)
                        representations = Ok v
                      /\ result !! "mean_representations" = Some v)
        /\ ("bos" ∈ Args.include args ->
            exists v, extract_bos i representations = Ok v
                      /\ result !! "bos_representations" = Some v)
        /\ ("contacts" ∈ Args.include args ->
            exists v, extract_contacts i
                        (truncation_length (Args.truncation_seq_length args) s)
                        contacts = Ok v
                      /\ result !! "contacts" = Some v)).
Proof.
  intros Hs. split; [| split; [| split]].
  - intros Hok. eexists. by apply build_result_ok.
  - intros result Hr.
    apply build_result_keys in Hr as (H1 & H2 & H3 & H4 & H5).
    unfold contains in *. rewrite !bool_decide_eq_true in *. done.
  - intros Hp Ha Hm Hb Hc.
    apply (build_result_requested_only vadd vzero vdiv args layers _ representations contacts
             strs i s id label Hs);
      unfold contains; rewrite bool_decide_eq_true; assumption.
  - intros result Hr.
    apply (build_result_values vadd vzero vdiv args layers _ representations contacts
             strs i s id label result Hs) in Hr as (H1 & H2 & H3 & H4 & H5).
    unfold contains in *. rewrite !bool_decide_eq_true in *. done.
Qed.

End Artifacts.

(** ** From the bundle to the saved file *)

Section SaveSequence.

Context {V C Toks : Type}.
Variable vadd : V -> V -> V.
Variable vzero : V.
Variable vdiv : V -> Z -> V.

(** A sequence whose label splits in two and whose inputs cover the
    truncated sequence creates the parent directory and saves the
    reference bundle. *)
Lemma save_sequence_ok args layers rc (representations : list (Z * Tensor3 V))
    (contacts : option (Contacts3 C)) strs i s lbl id label :
  split " " lbl = [id; label] ->
  strs !! i = Some s ->
  sequence_ok args rc representations contacts i s = true ->
  save_sequence vadd vzero vdiv args layers rc representations contacts strs i lbl
  = (([MkdirParent (mkOutputFile (Args.output_dir args) (id ++ "_" ++ label ++ ".pt"));
       Save (spec_result vadd vzero vdiv args layers rc representations contacts i s id label)
            (mkOutputFile (Args.output_dir args) (id ++ "_" ++ label ++ ".pt"))],
      Ok tt) : @IO V C Toks unit).
Proof.
  intros Hsplit Hs Hok. unfold save_sequence. rewrite Hsplit. simpl.
  by rewrite (build_result_ok _ _ _ _ _ _ _ _ _ _ s) by done.
Qed.

End SaveSequence.

(** ** The average over the layers *)

Section Average.

Context {V C : Type}.
Variable vadd : V -> V -> V.
Variable vzero : V.
Variable vdiv : V -> Z -> V.
Implicit Types slices : list (Tensor2 V).

Lemma foldl_zip_length (m : nat) slices (acc : Tensor2 V) :
  length acc = m -> Forall (fun sl => length sl = m) slices ->
  length (foldl (zip_with vadd) acc slices) = m.
Proof.
  intros Hacc Hall. revert acc Hacc.
  induction Hall as [| sl rest Hsl _ IH]; intros acc Hacc; simpl; [done |].
  apply IH. rewrite length_zip_with. lia.
Qed.

Lemma foldl_zip_lookup (m p : nat) slices (acc : Tensor2 V) (a : V) :
  Forall (fun sl => length sl = m) slices -> p < m ->
  acc !! p = Some a ->
  foldl (zip_with vadd) acc slices !! p
  = Some (foldl vadd a (omap (fun sl : Tensor2 V => sl !! p) slices)).
Proof.
  intros Hall Hp. revert acc a.
  induction Hall as [| sl rest Hsl _ IH]; intros acc a Ha; simpl; [done |].
  destruct (lookup_lt_is_Some_2 sl p) as [x Hx]; [lia |].
  rewrite Hx. simpl. apply IH.
  rewrite lookup_zip_with, Ha. simpl. by rewrite Hx.
Qed.

(** Position by position, [sum(dim=0)] of stacked slices of one length
    adds up what the slices hold there, in stacking order. *)
Lemma sum_dim0_lookup (m p : nat) slices :
  slices <> [] -> Forall (fun sl => length sl = m) slices -> p < m ->
  sum_dim0 vadd vzero slices !! p
  = Some (vsum vadd vzero (omap (fun sl : Tensor2 V => sl !! p) slices)).
Proof.
  intros Hne Hall Hp. unfold sum_dim0, vsum.
  destruct slices as [| t0 rest]; [done |].
  apply (foldl_zip_lookup m); [done | done |].
  apply Forall_cons in Hall as [-> _]. by apply lookup_replicate_2.
Qed.

Lemma sum_dim0_length (m : nat) slices :
  slices <> [] -> Forall (fun sl => length sl = m) slices ->
  length (sum_dim0 vadd vzero slices) = m.
Proof.
  intros Hne Hall. unfold sum_dim0.
  destruct slices as [| t0 rest]; [done |].
  apply foldl_zip_length; [| done].
  apply Forall_cons in Hall as [-> _]. apply length_replicate.
Qed.

(** The sum over the stack divided by the number of stacked slices is
    their elementwise mean. *)
Lemma sum_div_is_mean (m : nat) slices :
  slices <> [] -> Forall (fun sl => length sl = m) slices ->
  div_scalar vdiv (sum_dim0 vadd vzero slices) (Z.of_nat (length slices))
  = spec_avg_per_tok vadd vzero vdiv (Z.of_nat m) slices.
Proof.
  intros Hne Hall. apply list_eq. intros p.
  unfold div_scalar, spec_avg_per_tok. rewrite Nat2Z.id.
  rewrite !list_lookup_fmap.
  destruct (decide (p < m)) as [Hp | Hp].
  - rewrite (sum_dim0_lookup m) by done.
    by rewrite lookup_seq_lt.
  - rewrite lookup_ge_None_2 by (rewrite (sum_dim0_length m); [lia | done | done]).
    by rewrite lookup_seq_ge by lia.
Qed.

(** A single slice summed and divided by 1 is that slice, for float
    operations with [0 + v = v] and [v / 1 = v]. *)
Lemma sum_div_single (sl : Tensor2 V) :
  (forall v, vadd vzero v = v) -> (forall v, vdiv v 1 = v) ->
  div_scalar vdiv (sum_dim0 vadd vzero [sl]) 1 = sl.
Proof.
  intros Hadd Hdiv. unfold div_scalar, sum_dim0. simpl.
  induction sl as [| v sl IH]; [done |].
  simpl. by rewrite Hadd, Hdiv, IH.
Qed.

(** X21: when the model returned as many activations as there are
    entries in the list of requested layers, and they cover the truncated
    sequence, the ["avg_per_tok"] entry is the elementwise mean of the
    per-layer slices: position by position, their sum in dict order
    divided by their number. *)
Lemma avg_per_tok_one_activation_per_layer args layers rc
    (representations : list (Z * Tensor3 V)) (contacts : option (Contacts3 C))
    strs i s id label :
  strs !! i = Some s ->
  sequence_ok args rc representations contacts i s = true ->
  contains "avg_per_tok" (Args.include args) = true ->
  length layers = length representations ->
  let n := truncation_length (Args.truncation_seq_length args) s in
  exists result,
    build_result vadd vzero vdiv args layers rc representations contacts strs i id label
    = Ok result
    /\ result !! "avg_per_tok"
       = Some (VTensor (spec_avg_per_tok vadd vzero vdiv n
                          (map (fun kv => spec_per_tok i n kv.2) representations))).
Proof.
  intros Hs Hok Hreq Hlen n.
  destruct (sequence_ok_inv _ _ _ _ _ _ Hok) as (Htr & Hn & Hrows & _). fold n in Hn, Hrows.
  eexists. split; [by apply build_result_ok |].
  rewrite spec_result_avg_per_tok, Hreq. fold n. do 2 f_equal.
  rewrite Hlen, <- (length_map (fun kv : Z * Tensor3 V => spec_per_tok i n kv.2)).
  set (slices := map (fun kv : Z * Tensor3 V => spec_per_tok i n kv.2) representations).
  rewrite <- (Z2Nat.id n) by done.
  subst slices. apply sum_div_is_mean.
  - unfold sequence_ok in Hok. rewrite Hreq in Hok.
    destruct representations; [| done].
    by rewrite !andb_false_r in Hok.
  - apply Forall_map. eapply Forall_impl; [exact Hrows |].
    intros kv (r & Hr & Hl). simpl. by eapply spec_per_tok_length.
Qed.

End Average.

Section AverageSingle.

Context {V C : Type}.
Variable vadd : V -> V -> V.
Variable vzero : V.
Variable vdiv : V -> Z -> V.

(** X22: with one requested layer and its one activation, the
    ["avg_per_tok"] entry is the [per_tok] slice of that layer, for
    float operations with [0 + v = v] and [v / 1 = v]. *)
Lemma avg_per_tok_single_layer args (layer k : Z) rc (t : Tensor3 V)
    (contacts : option (Contacts3 C)) strs i s id label :
  (forall v, vadd vzero v = v) -> (forall v, vdiv v 1 = v) ->
  strs !! i = Some s ->
  sequence_ok args rc [(k, t)] contacts i s = true ->
  contains "avg_per_tok" (Args.include args) = true ->
  exists result,
    build_result vadd vzero vdiv args [layer] rc [(k, t)] contacts strs i id label
    = Ok result
    /\ result !! "avg_per_tok"
       = Some (VTensor (spec_per_tok i (truncation_length (Args.truncation_seq_length args) s)
                          t)).
Proof.
  intros Hadd Hdiv Hs Hok Hreq.
  eexists. split; [by apply build_result_ok |].
  rewrite spec_result_avg_per_tok, Hreq. do 2 f_equal.
  by apply sum_div_single.
Qed.

End AverageSingle.

(** ** Runs of the concrete instance *)

(** C2: with one layer of the model requested twice ([-1] and [1] on a
    model of one layer, both accepted and both resolved to 1), the run
    succeeds and saves one bundle; its [per_tok] entry holds the single
    slice [[200; 202]] of layer 1, and its ["avg_per_tok"] entry is
    [[100; 101]], that slice divided by 2, not the mean of the per-layer
    slices. *)
Theorem avg_per_tok_duplicate_layers :
  resolve_layers 1 [-1; 1]%Z = Ok [1; 1]%Z
  /\ outcome (Toy.extract 1 Toy.file1 (Toy.args ["per_tok"; "avg_per_tok"] [-1; 1]%Z 1022))
     = Ok tt
  /\ omap (saved "representations")
       (trace (Toy.extract 1 Toy.file1 (Toy.args ["per_tok"; "avg_per_tok"] [-1; 1]%Z 1022)))
     = [(mkOutputFile "out" "s1_x.pt", Some (VLayerTensors [(1, [200; 202])]%Z))]
  /\ omap (saved "avg_per_tok")
       (trace (Toy.extract 1 Toy.file1 (Toy.args ["per_tok"; "avg_per_tok"] [-1; 1]%Z 1022)))
     = [(mkOutputFile "out" "s1_x.pt", Some (VTensor [100; 101]%Z))].
Proof. by vm_compute. Qed.

(** C7, as stated, fails: two runs on the same file and model that differ
    only in the truncation length (1 and 3) both succeed, and the saved
    [bos] entries of the one sequence differ (77 and 238), because the
    batch converter truncates the tokens the model sees. *)
Lemma bos_differs_between_runs :
  outcome (Toy.extract 1 [("s1 x", "MKV")] (Toy.args ["bos"] [-1]%Z 1)) = Ok tt
  /\ outcome (Toy.extract 1 [("s1 x", "MKV")] (Toy.args ["bos"] [-1]%Z 3)) = Ok tt
  /\ omap (saved "bos_representations")
       (trace (Toy.extract 1 [("s1 x", "MKV")] (Toy.args ["bos"] [-1]%Z 1)))
     <> omap (saved "bos_representations")
          (trace (Toy.extract 1 [("s1 x", "MKV")] (Toy.args ["bos"] [-1]%Z 3))).
Proof. by vm_compute. Qed.

Lemma per_tok_slice_witness :
  exists result d,
    Toy.bundle (Toy.args Toy.all_kinds [1%Z] 1022) [1%Z] true
      Toy.representations1 Toy.contacts1 ["BD"] 0 "s1" "x" = Ok result
    /\ result !! "representations" = Some (VLayerTensors d)
    /\ Forall2
         (fun (kv : Z * Tensor3 Z) (kd : Z * Tensor2 Z) =>
            kd.1 = kv.1
            /\ Z.of_nat (length kd.2) = Z.min 1022 (Z.of_nat (String.length "BD"))
            /\ forall p : nat,
                 (Z.of_nat p < Z.min 1022 (Z.of_nat (String.length "BD")))%Z ->
                 kd.2 !! p = row 0 kv.2 !! S p)
         Toy.representations1 d.
Proof.
  apply (per_tok_slice Z.add 0%Z Z.div (Toy.args Toy.all_kinds [1%Z] 1022) [1%Z] true
           Toy.representations1 Toy.contacts1 ["BD"] 0 "BD" "s1" "x");
    reflexivity.
Defined.

Lemma mean_is_position_average_witness :
  exists result d,
    Toy.bundle (Toy.args Toy.all_kinds [1%Z] 1) [1%Z] true
      Toy.representations1 Toy.contacts1 ["BD"] 0 "s1" "x" = Ok result
    /\ result !! "mean_representations" = Some (VLayerVectors d)
    /\ Forall2
         (fun (kv : Z * Tensor3 Z) (kd : Z * Z) =>
            kd.1 = kv.1
            /\ kd.2 = (vsum Z.add 0%Z (spec_per_tok 0 (truncation_length 1 "BD") kv.2)
                       `div` truncation_length 1 "BD")%Z
            /\ ((forall v, (0 + v)%Z = v) -> (forall v, (v `div` 1)%Z = v) ->
                truncation_length 1 "BD" = 1%Z ->
                spec_per_tok 0 (truncation_length 1 "BD") kv.2 !! 0 = Some kd.2))
         Toy.representations1 d
    /\ (contains "per_tok" Toy.all_kinds = true ->
        exists d', result !! "representations" = Some (VLayerTensors d')
                   /\ Forall2 (fun (kd' : Z * Tensor2 Z) (kd : Z * Z) =>
                                 kd.1 = kd'.1 /\ kd.2 = mean0 Z.add 0%Z Z.div kd'.2) d' d).
Proof.
  apply (mean_is_position_average Z.add 0%Z Z.div (Toy.args Toy.all_kinds [1%Z] 1) [1%Z] true
           Toy.representations1 Toy.contacts1 ["BD"] 0 "BD" "s1" "x");
    reflexivity.
Defined.

Lemma contacts_submatrix_witness :
  exists result m,
    Toy.bundle (Toy.args Toy.all_kinds [1%Z] 1022) [1%Z]
      (contains "contacts" Toy.all_kinds)
      Toy.representations1 (Some [[[7; 7]; [7; 7]]]%Z) ["BD"] 0 "s1" "x" = Ok result
    /\ result !! "contacts" = Some (VContacts m)
    /\ Z.of_nat (length m) = Z.min 1022 (Z.of_nat (String.length "BD"))
    /\ Forall (fun r => Z.of_nat (length r) = Z.min 1022 (Z.of_nat (String.length "BD"))) m
    /\ (forall p q : nat,
          (Z.of_nat p < Z.min 1022 (Z.of_nat (String.length "BD")))%Z ->
          (Z.of_nat q < Z.min 1022 (Z.of_nat (String.length "BD")))%Z ->
          entry m p q = entry (row 0 [[[7; 7]; [7; 7]]]%Z) p q)
    /\ (Z.of_nat (length (row 0 [[[7; 7]; [7; 7]]]%Z))
        = Z.min 1022 (Z.of_nat (String.length "BD")) ->
        Forall (fun r => Z.of_nat (length r) = Z.min 1022 (Z.of_nat (String.length "BD")))
               (row 0 [[[7; 7]; [7; 7]]]%Z) ->
        m = row 0 [[[7; 7]; [7; 7]]]%Z).
Proof.
  apply (contacts_submatrix Z.add 0%Z Z.div (Toy.args Toy.all_kinds [1%Z] 1022) [1%Z]
           Toy.representations1 [[[7; 7]; [7; 7]]]%Z ["BD"] 0 "BD" "s1" "x");
    reflexivity.
Defined.

Lemma bos_is_position_zero_witness :
  exists result1 result2 d,
    Toy.bundle (Args.mk ["bos"] [-1]%Z 1 "out") [1%Z] false
      Toy.representations1 None ["BD"] 0 "s1" "x" = Ok result1
    /\ Toy.bundle (Args.mk ["bos"] [-1]%Z 2 "out") [1%Z] false
         Toy.representations1 None ["BD"] 0 "s1" "x" = Ok result2
    /\ result1 !! "bos_representations" = Some (VLayerVectors d)
    /\ result2 !! "bos_representations" = Some (VLayerVectors d)
    /\ Forall2 (fun (kv : Z * Tensor3 Z) (kd : Z * Z) =>
                  kd.1 = kv.1 /\ row 0 kv.2 !! 0 = Some kd.2)
               Toy.representations1 d.
Proof.
  apply (bos_is_position_zero Z.add 0%Z Z.div ["bos"] [-1]%Z "out" 1 2 [1%Z] false
           Toy.representations1 None ["BD"] 0 "BD" "s1" "x");
    reflexivity.
Defined.

Lemma bundle_keys_iff_requested_witness :
  (exists result,
     Toy.bundle (Toy.args ["mean"; "bos"] [1%Z] 1022) [1%Z]
       (contains "contacts" ["mean"; "bos"])
       Toy.representations1 None ["BD"] 0 "s1" "x" = Ok result
     /\ (is_Some (result !! "representations") <-> "per_tok" ∈ ["mean"; "bos"])
     /\ (is_Some (result !! "avg_per_tok") <-> "avg_per_tok" ∈ ["mean"; "bos"])
     /\ (is_Some (result !! "mean_representations") <-> "mean" ∈ ["mean"; "bos"])
     /\ (is_Some (result !! "bos_representations") <-> "bos" ∈ ["mean"; "bos"])
     /\ (is_Some (result !! "contacts") <-> "contacts" ∈ ["mean"; "bos"]))
  /\ extract_bos (C:=Z) 0 Toy2.empty_row = Raise IndexError
  /\ extract_contacts (V:=Z) (C:=Z) 0 2 None = Raise NameError
  /\ (exists result,
        Toy.bundle (Toy.args ["per_tok"; "mean"] [1%Z] 1022) [1%Z]
          (contains "contacts" ["per_tok"; "mean"])
          Toy2.empty_row None ["BD"] 0 "s1" "x" = Ok result
        /\ result !! "representations" = Some (VLayerTensors [(1%Z, [])])
        /\ result !! "mean_representations" = Some (VLayerVectors [(1%Z, 0%Z)])
        /\ result !! "bos_representations" = None
        /\ result !! "contacts" = None).
Proof.
  split; [| split; [reflexivity | split; [reflexivity |]]].
  - destruct (bundle_keys_iff_requested (C:=Z) Z.add 0%Z Z.div
                (Toy.args ["mean"; "bos"] [1%Z] 1022)
                [1%Z] Toy.representations1 None ["BD"] 0 "BD" "s1" "x" eq_refl)
      as (Hbuilt & Hkeys & _).
    destruct (Hbuilt eq_refl) as [result Hresult].
    exists result. split; [exact Hresult | exact (Hkeys result Hresult)].
  - destruct (bundle_keys_iff_requested (C:=Z) Z.add 0%Z Z.div
                (Toy.args ["per_tok"; "mean"] [1%Z] 1022)
                [1%Z] Toy2.empty_row None ["BD"] 0 "BD" "s1" "x" eq_refl)
      as (_ & Hkeys & Hskip & Hvalues).
    destruct Hskip as [result Hresult].
    + intros _. eexists. reflexivity.
    + intros Hin. apply list_elem_of_In in Hin. simpl in Hin. by intuition.
    + intros _. eexists. reflexivity.
    + intros Hin. apply list_elem_of_In in Hin. simpl in Hin. by intuition.
    + intros Hin. apply list_elem_of_In in Hin. simpl in Hin. by intuition.
    + exists result. split; [exact Hresult |].
      destruct (Hkeys result Hresult) as (_ & _ & _ & Hbos & Hcontacts).
      destruct (Hvalues result Hresult) as (Hp & _ & Hm & _).
      destruct Hp as (v & Hv & Hlookup); [apply list_elem_of_In; simpl; tauto |].
      destruct Hm as (vm & Hvm & Hlookupm); [apply list_elem_of_In; simpl; tauto |].
      injection Hv as <-. injection Hvm as <-.
      split; [exact Hlookup | split; [exact Hlookupm |]].
      split.
      * apply eq_None_not_Some. intros Hsome. apply Hbos in Hsome.
        apply list_elem_of_In in Hsome. simpl in Hsome. by intuition.
      * apply eq_None_not_Some. intros Hsome. apply Hcontacts in Hsome.
        apply list_elem_of_In in Hsome. simpl in Hsome. by intuition.
Defined.

Lemma out_of_range_layer_aborts_witness :
  (exists e, outcome (Toy.extract 1 Toy.file1 (Toy.args ["per_tok"] [5]%Z 1022)) = Raise e)
  /\ Forall (fun ev => is_infer ev = false /\ is_save ev = false)
            (trace (Toy.extract 1 Toy.file1 (Toy.args ["per_tok"] [5]%Z 1022)))
  /\ (is_MSATransformer (Toy.model 1) = false ->
      Toy.extract 1 Toy.file1 (Toy.args ["per_tok"] [5]%Z 1022)
      = ([MkdirOutputDir "out"], Raise AssertionError)).
Proof.
  apply (out_of_range_layer_aborts Z.add 0%Z Z.div id (Toy.model 1)
           (Toy.args ["per_tok"] [5]%Z 1022) (Toy.loader Toy.file1)).
  apply Exists_cons_hd. simpl. lia.
Defined.

Lemma label_split_or_abort_witness :
  (save_sequence Z.add 0%Z Z.div (Toy.args Toy.all_kinds [1%Z] 1022) [1%Z] true
     Toy.representations1 Toy.contacts1 ["BD"] 0 "s1"
   = (([], Raise ValueError) : @IO Z Z Toy.Toks unit))
  /\ exists id label,
       "s1 x" = (id ++ " " ++ label)%string
       /\ count_char " " id = 0 /\ count_char " " label = 0
       /\ save_sequence Z.add 0%Z Z.div (Toy.args Toy.all_kinds [1%Z] 1022) [1%Z] true
            Toy.representations1 Toy.contacts1 ["BD"] 0 "s1 x"
          = (let output_file := mkOutputFile "out" (id ++ "_" ++ label ++ ".pt") in
             io_bind (emit (MkdirParent output_file))
               (fun _ =>
                  io_bind (lift (Toy.bundle (Toy.args Toy.all_kinds [1%Z] 1022) [1%Z] true
                                   Toy.representations1 Toy.contacts1 ["BD"] 0 id label))
                    (fun result => emit (Save result output_file)))
             : @IO Z Z Toy.Toks unit).
Proof.
  split.
  - apply (label_split_or_abort (Toks:=Toy.Toks) Z.add 0%Z Z.div
             (Toy.args Toy.all_kinds [1%Z] 1022) [1%Z] true
             Toy.representations1 Toy.contacts1 ["BD"] 0 "s1" []).
    simpl. lia.
  - apply (label_split_or_abort (Toks:=Toy.Toks) Z.add 0%Z Z.div
             (Toy.args Toy.all_kinds [1%Z] 1022) [1%Z] true
             Toy.representations1 Toy.contacts1 ["BD"] 0 "s1 x" []).
    reflexivity.
Defined.

(** ** More on layer resolution *)

Lemma resolve_layer_cases (n i : Z) :
  (- (n + 1) <= i <= n)%Z ->
  resolve_layer n i = if (i <? 0)%Z then (i + n + 1)%Z else i.
Proof.
  intros Hi. destruct (Z.ltb_spec i 0).
  - apply resolve_layer_negative. lia.
  - apply resolve_layer_nonneg. lia.
Qed.

Lemma forallb_layer_in_range (n : Z) (requested : list Z) :
  forallb (layer_in_range n) requested = true <->
  Forall (fun i => (- (n + 1) <= i <= n)%Z) requested.
Proof.
  rewrite forallb_forall, Forall_forall. split.
  - intros H i Hi. by apply layer_in_range_true, H, list_elem_of_In.
  - intros H i Hi. by apply layer_in_range_true, H, list_elem_of_In.
Qed.

Lemma resolve_layers_ok (n : Z) (requested : list Z) :
  Forall (fun i => (- (n + 1) <= i <= n)%Z) requested ->
  resolve_layers n requested
  = Ok (map (fun i => if (i <? 0)%Z then (i + n + 1)%Z else i) requested).
Proof.
  intros Hin. unfold resolve_layers.
  rewrite (proj2 (forallb_layer_in_range n requested) Hin). f_equal.
  apply map_ext_Forall. eapply Forall_impl; [exact Hin |].
  intros i Hi. by apply resolve_layer_cases.
Qed.

(** X1: the list of requested indices is accepted exactly when every
    index lies in [-(num_layers+1) .. num_layers]; the resolved list then
    keeps the non-negative indices and adds [num_layers + 1] to the
    negative ones, in the same order. *)
Theorem resolve_layers_characterised (n : Z) (requested resolved : list Z) :
  resolve_layers n requested = Ok resolved <->
  Forall (fun i => (- (n + 1) <= i <= n)%Z) requested
  /\ resolved = map (fun i => if (i <? 0)%Z then (i + n + 1)%Z else i) requested.
Proof.
  split.
  - intros H. assert (Hin : Forall (fun i => (- (n + 1) <= i <= n)%Z) requested).
    { apply forallb_layer_in_range. unfold resolve_layers in H.
      by destruct (forallb (layer_in_range n) requested). }
    split; [done |]. rewrite (resolve_layers_ok _ _ Hin) in H. by injection H.
  - intros [Hin ->]. by apply resolve_layers_ok.
Qed.

(** X2: an accepted request resolves to as many indices as were
    requested, all in [0 .. num_layers], and resolving the resolved list
    again changes nothing. *)
Theorem resolve_layers_idempotent (n : Z) (requested resolved : list Z) :
  resolve_layers n requested = Ok resolved ->
  length resolved = length requested
  /\ Forall (fun k => (0 <= k <= n)%Z) resolved
  /\ resolve_layers n resolved = Ok resolved.
Proof.
  intros H.
  assert (Hin : Forall (fun i => (- (n + 1) <= i <= n)%Z) requested).
  { apply forallb_layer_in_range. unfold resolve_layers in H.
    by destruct (forallb (layer_in_range n) requested). }
  rewrite (resolve_layers_ok _ _ Hin) in H. injection H as <-.
  set (f := fun i : Z => if (i <? 0)%Z then (i + n + 1)%Z else i).
  assert (Hrange : Forall (fun k => (0 <= k <= n)%Z) (map f requested)).
  { apply Forall_map. eapply Forall_impl; [exact Hin |].
    intros i Hi. unfold f. simpl in *. destruct (Z.ltb_spec i 0); lia. }
  split; [apply length_map |]. split; [done |].
  rewrite resolve_layers_ok.
  - f_equal. rewrite <- (map_id (map f requested)) at 2.
    apply map_ext_Forall. eapply Forall_impl; [exact Hrange |].
    intros k Hk. simpl in *. destruct (Z.ltb_spec k 0); [lia | done].
  - eapply Forall_impl; [exact Hrange |]. intros k Hk. simpl in *. lia.
Qed.

Lemma resolve_layers_idempotent_witness :
  length [33; 0; 33; 0]%Z = length [-1; 0; 33; -34]%Z
  /\ Forall (fun k => (0 <= k <= 33)%Z) [33; 0; 33; 0]%Z
  /\ resolve_layers 33 [33; 0; 33; 0]%Z = Ok [33; 0; 33; 0]%Z.
Proof.
  apply (resolve_layers_idempotent 33 [-1; 0; 33; -34]%Z [33; 0; 33; 0]%Z).
  reflexivity.
Defined.

(** X3: two accepted indices resolve to the same layer exactly when they
    are equal or differ by [num_layers + 1]; so a request can name one
    layer twice, once from the front and once from the end. *)
Theorem resolve_layer_same_layer (n i j : Z) :
  (- (n + 1) <= i <= n)%Z -> (- (n + 1) <= j <= n)%Z ->
  resolve_layer n i = resolve_layer n j <->
  i = j \/ i = (j - (n + 1))%Z \/ j = (i - (n + 1))%Z.
Proof.
  intros Hi Hj. rewrite !resolve_layer_cases by done.
  destruct (Z.ltb_spec i 0), (Z.ltb_spec j 0); lia.
Qed.

Lemma resolve_layer_same_layer_witness :
  resolve_layer 33 (-1) = resolve_layer 33 33 <->
  (-1)%Z = 33%Z \/ (-1)%Z = (33 - (33 + 1))%Z \/ 33%Z = (-1 - (33 + 1))%Z.
Proof. apply (resolve_layer_same_layer 33 (-1) 33); lia. Defined.

(** X4: the default of [--repr_layers] is accepted by every model with at
    least 0 layers and resolves to the final layer alone. *)
Theorem default_layer_is_final (n : Z) :
  (0 <= n)%Z -> resolve_layers n Defaults.repr_layers = Ok [n].
Proof.
  intros Hn. unfold Defaults.repr_layers. rewrite resolve_layers_ok.
  - simpl. do 2 f_equal. lia.
  - apply Forall_singleton. lia.
Qed.

Lemma default_layer_is_final_witness :
  resolve_layers 33 Defaults.repr_layers = Ok [33%Z].
Proof. apply (default_layer_is_final 33). lia. Defined.

(** ** Labels and file names *)

Section Labels.

Lemma replace_char_app (a b : ascii) (s t : string) :
  replace_char a b (s ++ t) = (replace_char a b s ++ replace_char a b t)%string.
Proof. induction s as [| c s IH]; simpl; [done | by rewrite IH]. Qed.

Lemma replace_char_absent (a b : ascii) (s : string) :
  count_char a s = 0 -> replace_char a b s = s.
Proof.
  induction s as [| c s IH]; simpl; [done |].
  destruct (Ascii.eqb c a); [done |]. intros H. by rewrite IH.
Qed.

Lemma count_char_app (a : ascii) (s t : string) :
  count_char a (s ++ t) = count_char a s + count_char a t.
Proof. induction s as [| c s IH]; simpl; [done |]. rewrite IH. lia. Qed.

Lemma string_app_assoc (s t u : string) :
  ((s ++ t) ++ u)%string = (s ++ (t ++ u))%string.
Proof.
  induction s as [| c s IH]; [done |].
  change (String c ((s ++ t) ++ u)%string = String c (s ++ (t ++ u))%string).
  by f_equal.
Qed.

Lemma string_app_inv_tail (s t u : string) : (s ++ u)%string = (t ++ u)%string -> s = t.
Proof.
  intros H.
  assert (Hlen : forall x y : string, String.length (x ++ y) = String.length x + String.length y).
  { intros x y. induction x as [| c x IH]; simpl; [done | by rewrite IH]. }
  revert t H. induction s as [| c s IH]; intros [| d t] H; simpl in *.
  - done.
  - apply (f_equal String.length) in H. simpl in H. rewrite ?Hlen in H. simpl in H. lia.
  - apply (f_equal String.length) in H. simpl in H. rewrite ?Hlen in H. simpl in H. lia.
  - injection H as -> H. f_equal. by apply IH.
Qed.

(** Replacing [a] by [b] loses nothing on strings that hold no [b]. *)
Lemma replace_char_inj (a b : ascii) (s t : string) :
  count_char b s = 0 -> count_char b t = 0 ->
  replace_char a b s = replace_char a b t -> s = t.
Proof.
  revert t. induction s as [| c s IH]; intros [| d t]; simpl; try done.
  destruct (Ascii.eqb_spec c b) as [-> | Hc]; [done |].
  destruct (Ascii.eqb_spec d b) as [-> | Hd]; [done |].
  simpl. intros Hs Ht [= Hhd Htl]. f_equal; [| by apply IH].
  destruct (Ascii.eqb_spec c a) as [-> | Hca], (Ascii.eqb_spec d a) as [-> | Hda];
    congruence.
Qed.

Lemma label_file_split (args : Args.t) (lbl : string) :
  label_file args lbl
  = if count_char " " lbl =? 1
    then Some (mkOutputFile (Args.output_dir args) (replace_char " " "_" lbl ++ ".pt"))
    else None.
Proof.
  unfold label_file. pose proof (split_length " " lbl) as Hlen.
  destruct (Nat.eqb_spec (count_char " " lbl) 1) as [Hc | Hc].
  - rewrite Hc in Hlen.
    destruct (split " " lbl) as [| id [| label [| c l]]] eqn:Hs; simpl in Hlen; try lia.
    destruct (split_two _ _ _ _ Hs) as (-> & Hid & Hlabel).
    do 2 f_equal. rewrite replace_char_app. simpl.
    rewrite !replace_char_absent by done.
    rewrite ?string_app_assoc. simpl. by rewrite ?string_app_assoc.
  - destruct (split " " lbl) as [| id [| label [| c l]]]; simpl in Hlen; try done. lia.
Qed.

(** X5: the path a sequence hands to [mkdir] (for its parent) and to
    [torch.save] is [args.output_dir / name], where [name] is the label
    with its space replaced by an underscore, followed by [.pt]; such
    calls are made only for a label with exactly one space.  Where the
    file lies is decided by pathlib's join of the two operands, which is
    not evaluated here: a label with [/] gives a file in a subdirectory,
    and a label that starts with [/] a file outside [args.output_dir]. *)
Theorem file_name_is_label_with_underscore {V C Toks : Type}
    (vadd : V -> V -> V) (vzero : V) (vdiv : V -> Z -> V)
    (args : Args.t) (layers : list Z) (rc : bool)
    (representations : list (Z * Tensor3 V)) (contacts : option (Contacts3 C))
    (strs : list string) (i : nat) (lbl : string) :
  Forall (fun ev : @Event V C Toks =>
            count_char " " lbl = 1
            /\ (ev = MkdirParent (mkOutputFile (Args.output_dir args)
                                    (replace_char " " "_" lbl ++ ".pt"))
                \/ exists result,
                     ev = Save result (mkOutputFile (Args.output_dir args)
                                         (replace_char " " "_" lbl ++ ".pt"))))
         (trace (save_sequence vadd vzero vdiv args layers rc representations contacts
                   strs i lbl)).
Proof.
  pose proof (label_file_split args lbl) as Hfile.
  unfold label_file in Hfile. unfold save_sequence.
  destruct (split " " lbl) as [| id [| label [| c l]]] eqn:Hs; simpl; try by constructor.
  destruct (Nat.eqb_spec (count_char " " lbl) 1) as [Hc | Hc]; [| done].
  injection Hfile as ->.
  destruct (build_result _ _ _ _ _ _ _ _ _ _ _ _); simpl.
  - apply Forall_cons. split; [split; [done | by left] |].
    apply Forall_cons. split; [split; [done | right; by eexists] |].
    constructor.
  - apply Forall_cons. split; [split; [done | by left] |].
    constructor.
Qed.

(** X6: the name [f"{id}_{label}.pt"] determines the label among the
    labels with exactly one space and no underscore: two such labels
    with the same name are the same label, whatever the output
    directories.  This is about the name strings only; pathlib can still
    take two different names to one file, as for [./a b] and [a b]. *)
Theorem file_name_injective_without_underscore (args1 args2 : Args.t) (lbl1 lbl2 : string) :
  count_char " " lbl1 = 1 -> count_char " " lbl2 = 1 ->
  count_char "_" lbl1 = 0 -> count_char "_" lbl2 = 0 ->
  file_name <$> label_file args1 lbl1 = file_name <$> label_file args2 lbl2 ->
  lbl1 = lbl2.
Proof.
  intros H1 H2 Hu1 Hu2. rewrite !label_file_split, H1, H2. simpl.
  intros [= H]. apply string_app_inv_tail in H.
  by apply (replace_char_inj " " "_").
Qed.

Lemma file_name_injective_without_underscore_witness : "s1 x"%string = "s1 x"%string.
Proof.
  apply (file_name_injective_without_underscore (Toy.args [] [] 0) Toy2.args2 "s1 x" "s1 x");
    reflexivity.
Defined.

(** X7: labels with an underscore can collide: for parts [a], [b], [c]
    without space, the labels [a_b c] and [a b_c] differ and are given
    the same file [a_b_c.pt], so the second [torch.save] overwrites the
    first. *)
Theorem file_name_collision (args : Args.t) (a b c : string) :
  count_char " " a = 0 -> count_char " " b = 0 -> count_char " " c = 0 ->
  (a ++ "_" ++ b ++ " " ++ c)%string <> (a ++ " " ++ b ++ "_" ++ c)%string
  /\ label_file args (a ++ "_" ++ b ++ " " ++ c)
     = Some (mkOutputFile (Args.output_dir args) (a ++ "_" ++ b ++ "_" ++ c ++ ".pt"))
  /\ label_file args (a ++ " " ++ b ++ "_" ++ c)
     = Some (mkOutputFile (Args.output_dir args) (a ++ "_" ++ b ++ "_" ++ c ++ ".pt")).
Proof.
  intros Ha Hb Hc. split; [| split].
  - induction a as [| x a IH]; simpl; [done |].
    simpl in Ha. destruct (Ascii.eqb x " "); [done |].
    intros [= H]. by apply IH.
  - rewrite label_file_split.
    rewrite !count_char_app, Ha, Hb, Hc. simpl.
    rewrite !replace_char_app. simpl.
    rewrite !replace_char_absent by done.
    do 2 f_equal. rewrite ?string_app_assoc. simpl. by rewrite ?string_app_assoc.
  - rewrite label_file_split.
    rewrite !count_char_app, Ha, Hb, Hc. simpl.
    rewrite !replace_char_app. simpl.
    rewrite !replace_char_absent by done.
    do 2 f_equal. rewrite ?string_app_assoc. simpl. by rewrite ?string_app_assoc.
Qed.

Lemma file_name_collision_witness :
  ("a" ++ "_" ++ "b" ++ " " ++ "c")%string <> ("a" ++ " " ++ "b" ++ "_" ++ "c")%string
  /\ label_file (Toy.args [] [] 0) ("a" ++ "_" ++ "b" ++ " " ++ "c")
     = Some (mkOutputFile "out" ("a" ++ "_" ++ "b" ++ "_" ++ "c" ++ ".pt"))
  /\ label_file (Toy.args [] [] 0) ("a" ++ " " ++ "b" ++ "_" ++ "c")
     = Some (mkOutputFile "out" ("a" ++ "_" ++ "b" ++ "_" ++ "c" ++ ".pt")).
Proof. apply (file_name_collision (Toy.args [] [] 0) "a" "b" "c"); reflexivity. Defined.

End Labels.

(** ** Bundles in general *)

Section BundleGeneral.

Context {V C : Type}.
Variable vadd : V -> V -> V.
Variable vzero : V.
Variable vdiv : V -> Z -> V.
Implicit Types representations : list (Z * Tensor3 V).
Implicit Types contacts : option (Contacts3 C).

Lemma index_raise {A} (l : list A) (i : nat) (e : Error) :
  index l i = Raise e -> e = IndexError.
Proof. unfold index. destruct (l !! i); [done | by intros [= <-]]. Qed.

Lemma row_slice_raise (i : nat) (lo hi : Z) (t : Tensor3 V) (e : Error) :
  row_slice i lo hi t = Raise e -> e = IndexError.
Proof.
  unfold row_slice. destruct (index t i) eqn:Hi; simpl; [done |].
  intros [= <-]. by eapply index_raise.
Qed.

Lemma row_first_raise (i : nat) (t : Tensor3 V) (e : Error) :
  row_first i t = Raise e -> e = IndexError.
Proof.
  unfold row_first. destruct (index t i) eqn:Hi; simpl.
  - apply index_raise.
  - intros [= <-]. by eapply index_raise.
Qed.

Lemma contact_slice_raise (i : nat) (n : Z) (c : Contacts3 C) (e : Error) :
  contact_slice i n c = Raise e -> e = IndexError.
Proof.
  unfold contact_slice. destruct (index c i) eqn:Hi; simpl; [done |].
  intros [= <-]. by eapply index_raise.
Qed.

Lemma stack_raise (ts : list (Tensor2 V)) (e : Error) :
  stack ts = Raise e -> e = RuntimeError.
Proof.
  unfold stack. destruct ts as [| t0 rest]; [by intros [= <-] |].
  destruct (forallb _ rest); [done | by intros [= <-]].
Qed.

(** A comprehension raises what one of its elements raises. *)
Lemma dict_comp_raise {K A B} (f : A -> Exc B) (d : list (K * A)) (e e0 : Error) :
  (forall v e', f v = Raise e' -> e' = e0) ->
  dict_comp f d = Raise e -> e = e0.
Proof.
  intros Hf. induction d as [| [k v] d IH]; simpl; [done |].
  destruct (f v) as [b |] eqn:Hb; simpl.
  - destruct (dict_comp f d); simpl; [done |]. intros [= <-]. by apply IH.
  - intros [= <-]. by eapply Hf.
Qed.

(** [build_result] raises [IndexError], or [RuntimeError] from the
    stacking of [avg_per_tok], or [NameError] for an unbound
    [contacts]. *)
Lemma build_result_raises args layers rc representations contacts strs i id label
    (e : Error) :
  build_result vadd vzero vdiv args layers rc representations contacts strs i id label
  = Raise e ->
  e = IndexError
  \/ (e = RuntimeError /\ contains "avg_per_tok" (Args.include args) = true)
  \/ (e = NameError /\ rc = true /\ contacts = None).
Proof.
  intros H. unfold build_result in H.
  destruct (index strs i) as [s |] eqn:Hs; simpl in H;
    [| injection H as <-; left; by eapply index_raise].
  assert (Hmean : forall (n : Z) (t : Tensor3 V) e',
             (let* sl := row_slice i 1 (n + 1) t in Ok (mean0 vadd vzero vdiv sl)) = Raise e' ->
             e' = IndexError).
  { intros n t e'. destruct (row_slice i 1 (n + 1) t) eqn:Hr; simpl; [done |].
    intros [= <-]. by eapply row_slice_raise. }
  repeat match type of H with
         | context [contains ?k ?l] => destruct (contains k l) eqn:?; simpl in H
         | context [dict_comp ?f ?d] =>
             let Hd := fresh "Hd" in
             destruct (dict_comp f d) eqn:Hd; simpl in H;
             [| injection H as <-; left;
                first [ eapply (dict_comp_raise _ _ _ _ (row_slice_raise i _ _)); exact Hd
                      | eapply (dict_comp_raise _ _ _ _ (row_first_raise i)); exact Hd
                      | eapply (dict_comp_raise _ _ _ _ (Hmean _)); exact Hd ] ]
         | context [stack ?ts] =>
             let Hst := fresh "Hst" in
             destruct (stack ts) eqn:Hst; simpl in H;
             [| injection H as <-; right; left; split; [by eapply stack_raise | done] ]
         end;
    (destruct rc; simpl in H; [| done]);
    (destruct contacts as [c |]; [| injection H as <-; right; right; done]);
    (destruct (contact_slice _ _ _) eqn:Hc; simpl in H; [done |]);
    injection H as <-; left; by eapply contact_slice_raise.
Qed.

(** X8: a bundle that was built holds the identifier and the label the
    sequence's label was split into, and no key besides [id], [label] and
    the five artifact keys, whatever [args.include] lists. *)
Theorem bundle_keys_closed args layers rc representations contacts strs i id label
    (result : gmap string (@Value V C)) :
  build_result vadd vzero vdiv args layers rc representations contacts strs i id label
  = Ok result ->
  result !! "id" = Some (VStr id)
  /\ result !! "label" = Some (VStr label)
  /\ forall key, is_Some (result !! key) -> key ∈ result_keys.
Proof.
  intros H. unfold build_result in H.
  destruct (index strs i) as [s |]; simpl in H; [| done].
  repeat match type of H with
         | context [contains ?k ?l] => destruct (contains k l) eqn:?; simpl in H
         | context [dict_comp ?f ?d] => destruct (dict_comp f d) eqn:?; simpl in H; [| done]
         | context [stack ?ts] => destruct (stack ts) eqn:?; simpl in H; [| done]
         end;
    (destruct rc; simpl in H;
     [ destruct contacts as [c |]; [| done];
       destruct (contact_slice _ _ _) eqn:?; simpl in H; [| done] |]);
    injection H as <-;
    (split; [by simplify_map_eq |]); (split; [by simplify_map_eq |]);
    intros key Hkey; unfold result_keys; rewrite !elem_of_cons;
    repeat (apply lookup_insert_is_Some in Hkey as [<- | [_ Hkey]]; [tauto |]);
    rewrite lookup_empty in Hkey; by destruct Hkey.
Qed.

End BundleGeneral.

Section BundleSlices.

Context {V C : Type}.
Variable vadd : V -> V -> V.
Variable vzero : V.
Variable vdiv : V -> Z -> V.
Implicit Types representations : list (Z * Tensor3 V).
Implicit Types contacts : option (Contacts3 C).

Lemma index_ok {A} (l : list A) (i : nat) (x : A) :
  index l i = Ok x -> l !! i = Some x.
Proof. unfold index. destruct (l !! i); [by intros [= ->] | done]. Qed.

(** [l[1:hi]] is an initial part of [l] without its first element,
    whatever the upper bound. *)
Lemma slice_from_one_prefix {A} (hi : Z) (l : list A) :
  slice 1 hi l `prefix_of` drop 1 l.
Proof.
  unfold slice. destruct l as [| x l]; [by rewrite drop_nil, take_nil |].
  replace (Z.to_nat (clamp (Z.of_nat (length (x :: l))) 1)) with 1.
  - apply prefix_take.
  - unfold clamp. simpl length. destruct (Z.ltb_spec 1 0); lia.
Qed.

Lemma row_slice_ok (i : nat) (lo hi : Z) (t : Tensor3 V) (sl : Tensor2 V) :
  row_slice i lo hi t = Ok sl -> exists r, t !! i = Some r /\ sl = slice lo hi r.
Proof.
  unfold row_slice. destruct (index t i) as [r |] eqn:Hr; simpl; [| done].
  intros [= <-]. exists r. split; [by apply index_ok | done].
Qed.

Lemma build_result_per_tok_inv args layers rc representations contacts strs i id label
    (result : gmap string (@Value V C)) :
  build_result vadd vzero vdiv args layers rc representations contacts strs i id label
  = Ok result ->
  contains "per_tok" (Args.include args) = true ->
  exists s d,
    strs !! i = Some s
    /\ dict_comp (row_slice i 1 (truncation_length (Args.truncation_seq_length args) s + 1))
         representations = Ok d
    /\ result !! "representations" = Some (VLayerTensors d).
Proof.
  intros H Hreq. unfold build_result in H.
  destruct (index strs i) as [s |] eqn:Hs; simpl in H; [| done].
  apply index_ok in Hs. rewrite Hreq in H.
  fold (truncation_length (Args.truncation_seq_length args) s) in H.
  destruct (dict_comp (row_slice i 1 _) representations) as [d |] eqn:Hd; simpl in H; [| done].
  exists s, d. split; [done |]. split; [done |].
  repeat match type of H with
         | context [contains ?k ?l] => destruct (contains k l) eqn:?; simpl in H
         | context [dict_comp ?f ?d] => destruct (dict_comp f d) eqn:?; simpl in H; [| done]
         | context [stack ?ts] => destruct (stack ts) eqn:?; simpl in H; [| done]
         end;
    (destruct rc; simpl in H;
     [ destruct contacts as [c |]; [| done];
       destruct (contact_slice _ _ _) eqn:?; simpl in H; [| done] |]);
    injection H as <-; by simplify_map_eq.
Qed.

(** X9: whatever the model returned and whatever the truncation length,
    a stored [per_tok] slice is an initial part of row [i] without
    position 0: the marker position is never part of it, and a row
    shorter than the truncated sequence is not an error, the slice just
    ends with the row.  For a non-negative truncation length the slice is
    the first [t_i] positions after position 0, as far as the row
    goes. *)
Theorem per_tok_never_holds_marker args layers rc representations contacts strs i id label
    (result : gmap string (@Value V C)) :
  build_result vadd vzero vdiv args layers rc representations contacts strs i id label
  = Ok result ->
  contains "per_tok" (Args.include args) = true ->
  exists s d,
    strs !! i = Some s
    /\ result !! "representations" = Some (VLayerTensors d)
    /\ Forall2
         (fun (kv : Z * Tensor3 V) (kd : Z * Tensor2 V) =>
            kd.1 = kv.1
            /\ exists r,
                 kv.2 !! i = Some r
                 /\ kd.2 `prefix_of` drop 1 r
                 /\ ((0 <= Args.truncation_seq_length args)%Z ->
                     kd.2 = take (Z.to_nat (truncation_length
                                              (Args.truncation_seq_length args) s))
                                 (drop 1 r)))
         representations d.
Proof.
  intros H Hreq.
  destruct (build_result_per_tok_inv _ _ _ _ _ _ _ _ _ _ H Hreq) as (s & d & Hs & Hd & Hr).
  exists s, d. split; [done |]. split; [done |].
  apply dict_comp_inv in Hd.
  eapply Forall2_impl; [exact Hd |].
  intros kv kd [Hk Hsl]. simpl in *. split; [done |].
  apply row_slice_ok in Hsl as (r & Hrow & ->).
  exists r. split; [done |]. split; [apply slice_from_one_prefix |].
  intros Htr. apply slice_after_first. by apply truncation_length_nonneg.
Qed.

(** X10: a sequence of truncated length 0 (an empty residue string, or
    truncation length 0) is no error on covering inputs: its [per_tok]
    slices are empty, each layer's mean is the empty sum divided by 0,
    and its contact map is empty. *)
Theorem empty_sequence_bundle args layers rc representations contacts strs i s id label :
  strs !! i = Some s ->
  sequence_ok args rc representations contacts i s = true ->
  truncation_length (Args.truncation_seq_length args) s = 0%Z ->
  exists result,
    build_result vadd vzero vdiv args layers rc representations contacts strs i id label
    = Ok result
    /\ (contains "per_tok" (Args.include args) = true ->
        result !! "representations"
        = Some (VLayerTensors (map (fun kv => (kv.1, [])) representations)))
    /\ (contains "mean" (Args.include args) = true ->
        result !! "mean_representations"
        = Some (VLayerVectors (map (fun kv => (kv.1, vdiv vzero 0)) representations)))
    /\ (rc = true -> result !! "contacts" = Some (VContacts [])).
Proof.
  intros Hs Hok Hn. eexists. split; [by apply build_result_ok |].
  split; [| split].
  - intros Hreq. by rewrite spec_result_per_tok, Hreq, Hn.
  - intros Hreq. by rewrite spec_result_mean, Hreq, Hn.
  - intros ->. by rewrite spec_result_contacts, Hn.
Qed.

End BundleSlices.

(** ** Batches and runs in order *)

Section MoreIOFacts.

Context {V C Toks Logits : Type}.
Local Abbreviation IO := (@IO V C Toks).

Lemma io_bind_assoc {A B D} (m : IO A) (f : A -> IO B) (g : B -> IO D) :
  io_bind (io_bind m f) g = io_bind m (fun a => io_bind (f a) g).
Proof.
  destruct m as [tr [a | e]]; simpl; [| done].
  destruct (f a) as [tr' [b | e]]; simpl; [| done].
  destruct (g b) as [tr'' r]. by rewrite app_assoc.
Qed.

Lemma trace_io_bind {A B} (m : IO A) (k : A -> IO B) :
  trace (io_bind m k)
  = trace m ++ match outcome m with Ok a => trace (k a) | Raise _ => [] end.
Proof.
  destruct m as [tr [a | e]]; simpl; [| by rewrite app_nil_r].
  by destruct (k a).
Qed.

Lemma outcome_io_bind {A B} (m : IO A) (k : A -> IO B) :
  outcome (io_bind m k)
  = match outcome m with Ok a => outcome (k a) | Raise e => Raise e end.
Proof. destruct m as [tr [a | e]]; simpl; [| done]. by destruct (k a). Qed.

(** A loop all of whose iterations return performs their events in
    order and returns. *)
Lemma for_enumerate_in_order {A} (body : nat -> A -> IO unit)
    (ev : nat -> A -> list Event) (i : nat) (xs : list A) :
  (forall j x, xs !! j = Some x -> body (i + j) x = (ev (i + j) x, Ok tt)) ->
  for_enumerate body i xs = (concat_enumerate ev i xs, Ok tt).
Proof.
  revert i. induction xs as [| x xs IH]; intros i Hall; simpl; [done |].
  rewrite <- (Nat.add_0_r i) at 1. rewrite (Hall 0 x eq_refl), Nat.add_0_r. simpl.
  rewrite IH; [done |].
  intros j y Hy. replace (S i + j) with (i + S j) by lia. by apply Hall.
Qed.

Lemma all_enumerate_lookup {A} (p : nat -> A -> bool) (i : nat) (xs : list A) :
  all_enumerate p i xs = true ->
  forall j x, xs !! j = Some x -> p (i + j) x = true.
Proof.
  revert i. induction xs as [| x xs IH]; intros i Hall j y Hy; [done |].
  simpl in Hall. apply andb_true_iff in Hall as [Hx Hrest].
  destruct j as [| j]; simpl in Hy.
  - injection Hy as <-. by rewrite Nat.add_0_r.
  - replace (i + S j) with (S i + j) by lia. by apply IH.
Qed.

(** An exception that ends a loop was raised by one of its
    iterations. *)
Lemma for_enumerate_raise_inv {A} (body : nat -> A -> IO unit) (i : nat) (xs : list A)
    (e : Error) :
  outcome (for_enumerate body i xs) = Raise e ->
  exists j x, xs !! j = Some x /\ outcome (body (i + j) x) = Raise e.
Proof.
  revert i. induction xs as [| x xs IH]; intros i; simpl; [done |].
  rewrite outcome_io_bind.
  destruct (outcome (body i x)) as [[] |] eqn:Hx.
  - intros H. destruct (IH _ H) as (j & y & Hy & Hr).
    exists (S j), y. split; [done |]. by replace (i + S j) with (S i + j) by lia.
  - intros [= <-]. exists 0, x. split; [done |]. by rewrite Nat.add_0_r.
Qed.

Lemma for_enumerate_trace_Forall {A} (P : Event -> Prop) (body : nat -> A -> IO unit)
    (i : nat) (xs : list A) :
  (forall j x, Forall P (trace (body j x))) ->
  Forall P (trace (for_enumerate body i xs)).
Proof.
  intros Hbody. revert i. induction xs as [| x xs IH]; intros i; simpl; [constructor |].
  rewrite trace_io_bind. apply Forall_app. split; [apply Hbody |].
  destruct (outcome (body i x)); [apply IH | constructor].
Qed.

End MoreIOFacts.

(** The batches of a window are a contiguous part of the list. *)
Lemma window_batches_take_drop {Toks : Type} (lo hi : Z) (k : nat)
    (bs : list (@Batch Toks)) :
  window_batches lo hi k bs
  = take (Z.to_nat hi - k - (Z.to_nat lo - k)) (drop (Z.to_nat lo - k) bs).
Proof.
  revert k. induction bs as [| b bs IH]; intros k; simpl.
  - by rewrite drop_nil, take_nil.
  - rewrite IH. case_decide as Hk.
    + replace (Z.to_nat lo - k) with 0 by lia.
      replace (Z.to_nat lo - S k) with 0 by lia.
      replace (Z.to_nat hi - k - 0) with (S (Z.to_nat hi - S k - 0)) by lia.
      done.
    + destruct (decide (Z.to_nat lo <= k)) as [Hlo | Hlo].
      * replace (Z.to_nat hi - k - (Z.to_nat lo - k)) with 0 by lia.
        replace (Z.to_nat hi - S k - (Z.to_nat lo - S k)) with 0 by lia.
        done.
      * replace (Z.to_nat lo - k) with (S (Z.to_nat lo - S k)) by lia.
        simpl drop. f_equal. lia.
Qed.

Section InOrder.

Context {V C Toks Logits : Type}.
Variable vadd : V -> V -> V.
Variable vzero : V.
Variable vdiv : V -> Z -> V.
Variable to_float16 : V -> V.
Variable model : @Model V C Toks Logits.
Variable args : Args.t.
Implicit Types representations : list (Z * Tensor3 V).
Implicit Types contacts : option (Contacts3 C).

Lemma split_one_space (lbl : string) :
  count_char " " lbl = 1 -> exists id label, split " " lbl = [id; label].
Proof.
  intros Hc. pose proof (split_length " " lbl) as Hlen. rewrite Hc in Hlen.
  destruct (split " " lbl) as [| id [| label [| c l]]]; simpl in Hlen; try lia.
  by exists id, label.
Qed.

Lemma save_sequence_in_order layers rc representations contacts strs i lbl :
  sequence_in_order args rc representations contacts strs i lbl = true ->
  save_sequence vadd vzero vdiv args layers rc representations contacts strs i lbl
  = ((sequence_events vadd vzero vdiv args layers rc representations contacts strs i lbl,
      Ok tt) : @IO V C Toks unit).
Proof.
  unfold sequence_in_order. intros H. apply andb_true_iff in H as [Hc Hok].
  apply Nat.eqb_eq in Hc. destruct (split_one_space lbl Hc) as (id & label & Hsplit).
  destruct (strs !! i) as [s |] eqn:Hs; [| done].
  rewrite (save_sequence_ok vadd vzero vdiv args layers rc representations contacts
             strs i s lbl id label Hsplit Hs Hok).
  unfold sequence_events. by rewrite Hsplit, Hs.
Qed.

Lemma sequence_events_files layers rc representations contacts strs i lbl :
  sequence_in_order args rc representations contacts strs i lbl = true ->
  omap saved_file
    (sequence_events (Toks:=Toks) vadd vzero vdiv args layers rc representations contacts
       strs i lbl)
  = option_list (label_file args lbl)
  /\ is_Some (label_file args lbl).
Proof.
  unfold sequence_in_order. intros H. apply andb_true_iff in H as [Hc Hok].
  apply Nat.eqb_eq in Hc. destruct (split_one_space lbl Hc) as (id & label & Hsplit).
  destruct (strs !! i) as [s |] eqn:Hs; [| done].
  unfold sequence_events, label_file. rewrite Hsplit, Hs. simpl. by split.
Qed.

Lemma concat_enumerate_files layers rc representations contacts strs i labels :
  all_enumerate (sequence_in_order args rc representations contacts strs) i labels = true ->
  omap saved_file
    (concat_enumerate
       (sequence_events (Toks:=Toks) vadd vzero vdiv args layers rc representations contacts
          strs) i labels)
  = omap (label_file args) labels
  /\ length (omap (label_file args) labels) = length labels.
Proof.
  revert i. induction labels as [| lbl labels IH]; intros i Hall; [done |].
  simpl in Hall. apply andb_true_iff in Hall as [Hlbl Hrest].
  destruct (sequence_events_files layers _ _ _ _ _ _ Hlbl) as [Hf [f Hsome]].
  destruct (IH _ Hrest) as [IH1 IH2].
  simpl concat_enumerate. rewrite omap_app, Hf, IH1.
  simpl. rewrite Hsome. simpl. split; [done | exact (f_equal S IH2)].
Qed.

Lemma process_batch_in_order (layers : list Z) (rc : bool) (batch : Batch) :
  batch_ok to_float16 model args layers rc batch = true ->
  process_batch vadd vzero vdiv to_float16 model args layers rc batch
  = (batch_events vadd vzero vdiv to_float16 model args layers rc batch, Ok tt).
Proof.
  destruct batch as [[labels strs] toks]. unfold batch_ok, process_batch, batch_events.
  intros H. apply andb_true_iff in H as [Hc Hall].
  set (out := forward model toks layers rc) in *.
  fold (to_half to_float16 (out_representations out)).
  assert (Hbound : (if rc then
                      match out_contacts out with
                      | Some c => Ok (Some c)
                      | None => Raise KeyError
                      end
                    else Ok None) = Ok (bound_contacts rc out)).
  { unfold bound_contacts. destruct rc; [| done].
    apply bool_decide_eq_true in Hc as [c Hc]. by rewrite Hc. }
  rewrite Hbound. simpl.
  rewrite (for_enumerate_in_order _
             (sequence_events vadd vzero vdiv args layers rc
                (to_half to_float16 (out_representations out)) (bound_contacts rc out) strs));
    [done |].
  intros j lbl Hj. apply save_sequence_in_order.
  by apply (all_enumerate_lookup _ 0 labels Hall).
Qed.

Lemma batch_events_files (layers : list Z) (rc : bool) (batch : Batch) :
  batch_ok to_float16 model args layers rc batch = true ->
  omap saved_file (batch_events vadd vzero vdiv to_float16 model args layers rc batch)
  = omap (label_file args) (batch_labels batch)
  /\ length (omap (label_file args) (batch_labels batch)) = length (batch_labels batch).
Proof.
  destruct batch as [[labels strs] toks]. unfold batch_ok, batch_events, batch_labels.
  intros H. apply andb_true_iff in H as [_ Hall]. simpl.
  by apply concat_enumerate_files.
Qed.

Lemma process_all_cons (layers : list Z) (rc : bool) (b : Batch) (bs : list Batch) :
  process_all vadd vzero vdiv to_float16 model args layers rc (b :: bs)
  = io_bind (process_batch vadd vzero vdiv to_float16 model args layers rc b)
      (fun _ => process_all vadd vzero vdiv to_float16 model args layers rc bs).
Proof.
  unfold process_all. simpl. apply io_bind_ext. intros _.
  apply (for_enumerate_const
           (process_batch vadd vzero vdiv to_float16 model args layers rc)).
Qed.

Lemma process_all_in_order (layers : list Z) (rc : bool) (bs : list Batch) :
  forallb (batch_ok to_float16 model args layers rc) bs = true ->
  process_all vadd vzero vdiv to_float16 model args layers rc bs
  = (concat (map (batch_events vadd vzero vdiv to_float16 model args layers rc) bs), Ok tt).
Proof.
  induction bs as [| b bs IH]; [done |].
  simpl. intros H. apply andb_true_iff in H as [Hb Hbs].
  rewrite process_all_cons, (process_batch_in_order _ _ _ Hb), (IH Hbs). simpl.
  done.
Qed.

Lemma process_all_files (layers : list Z) (rc : bool) (bs : list Batch) :
  forallb (batch_ok to_float16 model args layers rc) bs = true ->
  omap saved_file
    (concat (map (batch_events vadd vzero vdiv to_float16 model args layers rc) bs))
  = omap (label_file args) (concat (map batch_labels bs)).
Proof.
  induction bs as [| b bs IH]; [done |].
  simpl. intros H. apply andb_true_iff in H as [Hb Hbs].
  rewrite !omap_app, (IH Hbs).
  by rewrite (proj1 (batch_events_files _ _ _ Hb)).
Qed.

(** In the world where every call returns, a run on an accepted model
    with accepted layers and batches in order performs [run_events] and
    returns. *)
Lemma run_in_order (data_loader : Z -> list Batch) (layers : list Z) :
  is_MSATransformer model = false ->
  resolve_layers (num_layers model) (Args.repr_layers args) = Ok layers ->
  forallb (batch_ok to_float16 model args layers (contains "contacts" (Args.include args)))
          (take 1200 (data_loader (Args.truncation_seq_length args))) = true ->
  run vadd vzero vdiv to_float16 model data_loader args
  = (run_events vadd vzero vdiv to_float16 model args layers data_loader, Ok tt).
Proof.
  intros Hmsa Hl Hok.
  rewrite (run_unfold vadd vzero vdiv to_float16 model args data_loader layers Hmsa Hl).
  unfold emit, io_bind. cbv beta iota.
  rewrite window_batches_take_drop.
  change (Z.to_nat 0) with 0. change (Z.to_nat 1200) with 1200.
  rewrite !Nat.sub_0_r, drop_0.
  by rewrite (process_all_in_order _ _ _ Hok).
Qed.

Lemma run_events_files (data_loader : Z -> list Batch) (layers : list Z) :
  forallb (batch_ok to_float16 model args layers (contains "contacts" (Args.include args)))
          (take 1200 (data_loader (Args.truncation_seq_length args))) = true ->
  omap saved_file (run_events vadd vzero vdiv to_float16 model args layers data_loader)
  = omap (label_file args)
      (concat (map batch_labels
                   (take 1200 (data_loader (Args.truncation_seq_length args))))).
Proof. intros Hok. unfold run_events. simpl omap. by apply process_all_files. Qed.

End InOrder.

(** ** Windows, failures and model invocations *)

Section RunEdges.

Context {V C Toks Logits : Type}.
Variable vadd : V -> V -> V.
Variable vzero : V.
Variable vdiv : V -> Z -> V.
Variable to_float16 : V -> V.
Variable model : @Model V C Toks Logits.
Variable args : Args.t.

(** X13: the batches the loop processes are a contiguous part of the
    loader's batches: those from position [lo] (from the start, for a
    negative [lo]) up to position [hi] excluded; none when [hi <= lo]. *)
Theorem batch_window_is_slice (lo hi : Z) (layers : list Z) (rc : bool)
    (batches : list Batch) :
  batch_loop vadd vzero vdiv to_float16 lo hi model args layers rc batches
  = process_all vadd vzero vdiv to_float16 model args layers rc
      (take (Z.to_nat hi - Z.to_nat lo) (drop (Z.to_nat lo) batches)).
Proof.
  unfold batch_loop. rewrite batch_loop_from, window_batches_take_drop.
  by rewrite !Nat.sub_0_r.
Qed.


Lemma process_all_app (layers : list Z) (rc : bool) (bs1 bs2 : list Batch) :
  process_all vadd vzero vdiv to_float16 model args layers rc (bs1 ++ bs2)
  = io_bind (process_all vadd vzero vdiv to_float16 model args layers rc bs1)
      (fun _ => process_all vadd vzero vdiv to_float16 model args layers rc bs2).
Proof.
  induction bs1 as [| b bs1 IH].
  - simpl app.
    change (process_all vadd vzero vdiv to_float16 model args layers rc [])
      with (@ret V C Toks unit tt).
    by rewrite io_bind_ret_l.
  - simpl app. rewrite !process_all_cons, io_bind_assoc.
    apply io_bind_ext. intros _. apply IH.
Qed.

(** X15: batches are processed fail-fast.  When the batches [bs1] are
    processed without exception and the next batch raises, the whole
    sequence of batches ends with that exception; what was done for
    [bs1] and for the failing batch up to the exception stays done, and
    nothing is done for the batches after it. *)
Theorem batches_fail_fast (layers : list Z) (rc : bool) (bs1 bs2 : list Batch)
    (b : Batch) (e : Error) :
  outcome (process_all vadd vzero vdiv to_float16 model args layers rc bs1) = Ok tt ->
  outcome (process_batch vadd vzero vdiv to_float16 model args layers rc b) = Raise e ->
  process_all vadd vzero vdiv to_float16 model args layers rc (bs1 ++ b :: bs2)
  = (trace (process_all vadd vzero vdiv to_float16 model args layers rc bs1)
     ++ trace (process_batch vadd vzero vdiv to_float16 model args layers rc b),
     Raise e).
Proof.
  intros H1 Hb. rewrite process_all_app, process_all_cons.
  destruct (process_all _ _ _ _ _ _ _ _ bs1) as [tr1 r1]. simpl in H1. subst r1.
  destruct (process_batch _ _ _ _ _ _ _ _ b) as [tr r]. simpl in Hb. subst r.
  done.
Qed.

Lemma save_sequence_no_infer layers rc (representations : list (Z * Tensor3 V))
    (contacts : option (Contacts3 C)) strs i lbl :
  Forall (fun ev : @Event V C Toks => is_infer ev = false)
         (trace (save_sequence vadd vzero vdiv args layers rc representations contacts
                   strs i lbl)).
Proof.
  unfold save_sequence.
  destruct (split " " lbl) as [| id [| label [| c l]]]; simpl; try by constructor.
  destruct (build_result _ _ _ _ _ _ _ _ _ _ _ _); simpl; by repeat constructor.
Qed.

Lemma filter_is_infer_none (evs : list (@Event V C Toks)) :
  Forall (fun ev => is_infer ev = false) evs -> List.filter is_infer evs = [].
Proof. induction 1 as [| ev evs Hev _ IH]; simpl; [done | by rewrite Hev]. Qed.

Lemma process_batch_infer (layers : list Z) (rc : bool) (b : Batch) :
  List.filter is_infer (trace (process_batch vadd vzero vdiv to_float16 model args layers rc b))
  = [infer_event layers rc b].
Proof.
  destruct b as [[labels strs] toks]. unfold process_batch, infer_event.
  cbv beta iota zeta. rewrite (trace_io_bind (V:=V) (C:=C) (Toks:=Toks)).
  change (trace (emit (Infer toks layers rc))) with [@Infer V C Toks toks layers rc].
  change (outcome (emit (Infer toks layers rc))) with (@Ok unit tt).
  cbv beta iota. rewrite List.filter_app. simpl. f_equal.
  apply filter_is_infer_none.
  destruct (if rc then _ else _) as [contacts |]; [| constructor].
  pose proof (for_enumerate_trace_Forall (fun ev : @Event V C Toks => is_infer ev = false)
                (save_sequence vadd vzero vdiv args layers rc
                   (map (fun '(layer, t) => (layer, map (map to_float16) t))
                      (out_representations (forward model toks layers rc)))
                   contacts strs) 0 labels
                (fun j x => save_sequence_no_infer _ _ _ _ _ _ _)) as Hloop.
  by destruct (for_enumerate _ 0 labels).
Qed.

(** X16: the model is invoked at most once per batch, in loader order,
    each time with the resolved layers and the contacts flag, and never
    for a batch after a failing one; when all batches are processed
    without exception it is invoked exactly once for each. *)
Theorem model_invoked_once_per_batch (layers : list Z) (rc : bool) (bs : list Batch) :
  List.filter is_infer
    (trace (process_all vadd vzero vdiv to_float16 model args layers rc bs))
  `prefix_of` map (infer_event layers rc) bs
  /\ (outcome (process_all vadd vzero vdiv to_float16 model args layers rc bs) = Ok tt ->
      List.filter is_infer
        (trace (process_all vadd vzero vdiv to_float16 model args layers rc bs))
      = map (infer_event layers rc) bs).
Proof.
  induction bs as [| b bs [IH1 IH2]]; [split; [by exists [] | done] |].
  rewrite process_all_cons, (trace_io_bind (V:=V) (C:=C) (Toks:=Toks)),
    (outcome_io_bind (V:=V) (C:=C) (Toks:=Toks)), List.filter_app.
  rewrite process_batch_infer. simpl map.
  destruct (outcome (process_batch _ _ _ _ _ _ _ _ b)) as [[] |]; simpl.
  - split; [by apply prefix_cons | intros H; f_equal; by apply IH2].
  - split; [apply prefix_cons, prefix_nil | done].
Qed.

Lemma save_sequence_raise_inv layers rc (representations : list (Z * Tensor3 V))
    (contacts : option (Contacts3 C)) strs i lbl (e : Error) :
  outcome (save_sequence (Toks:=Toks) vadd vzero vdiv args layers rc representations
             contacts strs i lbl) = Raise e ->
  (e = ValueError /\ count_char " " lbl <> 1)
  \/ exists id label,
       build_result vadd vzero vdiv args layers rc representations contacts strs i id label
       = Raise e.
Proof.
  unfold save_sequence. pose proof (split_length " " lbl) as Hlen.
  destruct (split " " lbl) as [| id [| label [| c l]]]; simpl in *;
    try (intros [= <-]; left; split; [done | lia]).
  destruct (build_result _ _ _ _ _ _ _ _ _ _ _ _) as [r | e'] eqn:Hb; simpl; [done |].
  intros [= <-]. right. by exists id, label.
Qed.

(** A batch ends only with these exceptions: [KeyError] when contacts
    are requested and the model output holds none; [ValueError] when one
    of its labels does not hold exactly one space; [IndexError]; or
    [RuntimeError] when [avg_per_tok] is requested. *)
Lemma process_batch_raises (layers : list Z) (rc : bool)
    (labels strs : list string) (toks : Toks) (e : Error) :
  outcome (process_batch vadd vzero vdiv to_float16 model args layers rc
             (labels, strs, toks)) = Raise e ->
  (e = KeyError /\ rc = true /\ out_contacts (forward model toks layers rc) = None)
  \/ (e = ValueError /\ exists lbl, lbl ∈ labels /\ count_char " " lbl <> 1)
  \/ e = IndexError
  \/ (e = RuntimeError /\ contains "avg_per_tok" (Args.include args) = true).
Proof.
  unfold process_batch. rewrite !(outcome_io_bind (V:=V) (C:=C) (Toks:=Toks)). simpl.
  set (out := forward model toks layers rc).
  assert (Hloop : forall contacts : option (Contacts3 C),
             (rc = true -> is_Some contacts) ->
             outcome (for_enumerate
                        (save_sequence (Toks:=Toks) vadd vzero vdiv args layers rc
                           (map (fun '(layer, t) => (layer, map (map to_float16) t))
                                (out_representations out)) contacts strs) 0 labels)
             = Raise e ->
             (e = ValueError /\ exists lbl, lbl ∈ labels /\ count_char " " lbl <> 1)
             \/ e = IndexError
             \/ (e = RuntimeError /\ contains "avg_per_tok" (Args.include args) = true)).
  { intros contacts Hbound H.
    apply for_enumerate_raise_inv in H as (j & lbl & Hj & H).
    apply save_sequence_raise_inv in H as [[-> Hc] | (id & label & H)].
    - left. split; [done |]. exists lbl. split; [| done].
      apply list_elem_of_lookup. by exists j.
    - right. apply build_result_raises in H as [-> | [[-> Havg] | (-> & Hrc & ->)]].
      + by left.
      + by right.
      + destruct (Hbound Hrc) as [c Hc]. done. }
  destruct rc.
  - destruct (out_contacts out) as [c |] eqn:Hc; simpl.
    + intros H. right. apply (Hloop (Some c)); [by eexists | done].
    + intros [= <-]. by left.
  - simpl. intros H. right. by apply (Hloop None).
Qed.

(** X17: a batch ends with [KeyError] exactly when contacts are requested
    and the model output holds none; the batch then stops right after
    the model invocation, and nothing is created or saved for any of its
    sequences. *)
Theorem key_error_iff_contacts_missing (layers : list Z) (rc : bool)
    (labels strs : list string) (toks : Toks) :
  (outcome (process_batch vadd vzero vdiv to_float16 model args layers rc
              (labels, strs, toks)) = Raise KeyError
   <-> rc = true /\ out_contacts (forward model toks layers rc) = None)
  /\ (outcome (process_batch vadd vzero vdiv to_float16 model args layers rc
                 (labels, strs, toks)) = Raise KeyError ->
      process_batch vadd vzero vdiv to_float16 model args layers rc (labels, strs, toks)
      = ([Infer toks layers rc], Raise KeyError)).
Proof.
  assert (Hmiss : rc = true /\ out_contacts (forward model toks layers rc) = None ->
                  process_batch vadd vzero vdiv to_float16 model args layers rc
                    (labels, strs, toks)
                  = ([Infer toks layers rc], Raise KeyError)).
  { intros [-> H]. unfold process_batch. by rewrite H. }
  assert (Hinv : outcome (process_batch vadd vzero vdiv to_float16 model args layers rc
                            (labels, strs, toks)) = Raise KeyError ->
                 rc = true /\ out_contacts (forward model toks layers rc) = None).
  { intros H. apply process_batch_raises in H as [(_ & ? & ?) | [[? _] | [? | [? _]]]]; done. }
  split; [split |].
  - exact Hinv.
  - intros H. by rewrite (Hmiss H).
  - intros H. by apply Hmiss, Hinv.
Qed.

Lemma resolve_layers_raise (n : Z) (requested : list Z) (e : Error) :
  resolve_layers n requested = Raise e ->
  e = AssertionError /\ Exists (fun i => ~ (- (n + 1) <= i <= n)%Z) requested.
Proof.
  unfold resolve_layers.
  destruct (forallb (layer_in_range n) requested) eqn:Hall; [done |].
  intros [= <-]. split; [done |].
  apply not_Forall_Exists; [intros i; apply _ |].
  intros HF. apply forallb_layer_in_range in HF. congruence.
Qed.

(** The exceptions the statements of [run] raise, and when. *)
Lemma run_raise_kinds (data_loader : Z -> list Batch) (e : Error) :
  outcome (run vadd vzero vdiv to_float16 model data_loader args) = Raise e ->
  (e = ValueError
   /\ (is_MSATransformer model = true
       \/ exists batch lbl,
            batch ∈ data_loader (Args.truncation_seq_length args)
            /\ lbl ∈ batch_labels batch /\ count_char " " lbl <> 1))
  \/ (e = AssertionError
      /\ is_MSATransformer model = false
      /\ Exists (fun i => ~ (- (num_layers model + 1) <= i <= num_layers model)%Z)
                (Args.repr_layers args))
  \/ (e = KeyError /\ contains "contacts" (Args.include args) = true)
  \/ e = IndexError
  \/ (e = RuntimeError /\ contains "avg_per_tok" (Args.include args) = true).
Proof.
  destruct (is_MSATransformer model) eqn:Hmsa.
  { unfold run. rewrite Hmsa. simpl. intros [= <-]. left. split; [done | by left]. }
  destruct (resolve_layers (num_layers model) (Args.repr_layers args)) as [layers |] eqn:Hl.
  2: { unfold run. rewrite Hmsa, Hl. simpl. intros [= <-].
       apply resolve_layers_raise in Hl as [-> Hex]. right. left. done. }
  rewrite (run_unfold vadd vzero vdiv to_float16 model args data_loader layers Hmsa Hl).
  rewrite (outcome_io_bind (V:=V) (C:=C) (Toks:=Toks)). simpl.
  unfold process_all. intros H.
  apply for_enumerate_raise_inv in H as (j & [[labels strs] toks] & Hj & H).
  assert (Hin : (labels, strs, toks) ∈ data_loader (Args.truncation_seq_length args)).
  { apply list_elem_of_lookup_2 in Hj.
    apply window_batches_elem in Hj as (k & Hk & _).
    by apply list_elem_of_lookup_2 in Hk. }
  apply process_batch_raises in H
    as [(-> & Hrc & _) | [[-> (lbl & Hlbl & Hc)] | [-> | [-> Havg]]]].
  - right. right. left. done.
  - left. split; [done |]. right. by exists (labels, strs, toks), lbl.
  - right. right. right. by left.
  - right. right. right. by right.
Qed.

(** X19: a run leaves no event at all exactly when the model is an MSA
    Transformer, and then it ends with [ValueError], whatever the
    arguments and the loader; every other run starts by creating the
    output directory, also when the requested layers are then refused. *)
Theorem msa_model_rejected (data_loader : Z -> list Batch) :
  (is_MSATransformer model = true <->
   trace (run vadd vzero vdiv to_float16 model data_loader args) = [])
  /\ (is_MSATransformer model = true ->
      run vadd vzero vdiv to_float16 model data_loader args = ([], Raise ValueError))
  /\ (is_MSATransformer model = false ->
      exists events,
        trace (run vadd vzero vdiv to_float16 model data_loader args)
        = MkdirOutputDir (Args.output_dir args) :: events).
Proof.
  assert (Hyes : is_MSATransformer model = true ->
                 run vadd vzero vdiv to_float16 model data_loader args
                 = ([], Raise ValueError)).
  { intros H. unfold run. by rewrite H. }
  assert (Hno : is_MSATransformer model = false ->
                exists events,
                  trace (run vadd vzero vdiv to_float16 model data_loader args)
                  = MkdirOutputDir (Args.output_dir args) :: events).
  { intros H. unfold run. rewrite H.
    destruct (resolve_layers (num_layers model) (Args.repr_layers args)) as [layers |];
      simpl.
    - destruct (batch_loop _ _ _ _ _ _ _ _ _ _ _) as [tr r]. by exists tr.
    - by exists []. }
  split; [split |]; [| | by split].
  - intros H. by rewrite (Hyes H).
  - intros H. destruct (is_MSATransformer model); [done |].
    destruct (Hno eq_refl) as [events Hev]. congruence.
Qed.

(** X20: with no batches to load, a run on an accepted model and
    accepted layers ends without exception; it creates the output
    directory and neither invokes the model nor saves a file. *)
Theorem no_batches_no_files (data_loader : Z -> list Batch) :
  is_MSATransformer model = false ->
  Forall (fun i => (- (num_layers model + 1) <= i <= num_layers model)%Z)
         (Args.repr_layers args) ->
  data_loader (Args.truncation_seq_length args) = [] ->
  run vadd vzero vdiv to_float16 model data_loader args
  = ([MkdirOutputDir (Args.output_dir args)], Ok tt).
Proof.
  intros Hmsa Hin Hempty.
  rewrite (run_unfold vadd vzero vdiv to_float16 model args data_loader _ Hmsa
             (resolve_layers_ok _ _ Hin)).
  by rewrite Hempty.
Qed.

End RunEdges.

(** ** The script in a world whose calls can raise *)

Section WorldFacts.

Context {V C Toks Logits X : Type}.
Variable vadd : V -> V -> V.
Variable vzero : V.
Variable vdiv : V -> Z -> V.
Variable to_float16 : V -> V.
Variable model : @Model V C Toks Logits.
Variable args : Args.t.
Implicit Types env : @Env V C Toks X.
Implicit Types h tr evs : list (@Event V C Toks).

(** *** Replaying calls *)

Lemma replay_app env h evs1 evs2 :
  replay env h (evs1 ++ evs2)
  = match replay env h evs1 with
    | (tr, None) => let '(tr', r) := replay env (h ++ tr) evs2 in (tr ++ tr', r)
    | (tr, Some f) => (tr, Some f)
    end.
Proof.
  revert h. induction evs1 as [| ev evs1 IH]; intros h; simpl.
  - rewrite app_nil_r. by destruct (replay env h evs2).
  - destruct (env h ev); [done |]. rewrite IH.
    destruct (replay env (h ++ [ev]) evs1) as [tr [f |]]; [done |].
    rewrite <- app_assoc. simpl. by destruct (replay env (h ++ ev :: tr) evs2).
Qed.

Lemma replay_accepts env h evs :
  accepts env h evs = true -> replay env h evs = (evs, None).
Proof.
  revert h. induction evs as [| ev evs IH]; intros h; simpl; [done |].
  destruct (env h ev); [done |]. intros H. by rewrite (IH _ H).
Qed.

Lemma replay_refused env h before ev rest x :
  accepts env h before = true -> env (h ++ before) ev = Some x ->
  replay env h (before ++ ev :: rest) = (before, Some (ev, x)).
Proof.
  intros Hacc Hev. rewrite replay_app, (replay_accepts _ _ _ Hacc). simpl.
  rewrite Hev. by rewrite app_nil_r.
Qed.

Lemma replay_failed_inv env h evs tr ev x :
  replay env h evs = (tr, Some (ev, x)) ->
  env (h ++ tr) ev = Some x /\ exists rest, evs = tr ++ ev :: rest.
Proof.
  revert h tr. induction evs as [| ev' evs IH]; intros h tr; simpl; [done |].
  destruct (env h ev') as [x' |] eqn:Hev.
  - intros [= <- <- <-]. rewrite app_nil_r. split; [done | by exists evs].
  - destruct (replay env (h ++ [ev']) evs) as [tr' r] eqn:Hr.
    intros [= <- ->]. apply IH in Hr as [Hx [rest ->]].
    rewrite <- app_assoc in Hx. split; [done | by exists rest].
Qed.

(** *** From the world where every call returns to any world *)

Lemma under_emit env ev h : under env (emit ev) h = call env ev h.
Proof. unfold under, call. simpl. by destruct (env h ev). Qed.

Lemma under_bind env {A B} (m : @IO V C Toks A) (k : A -> @IO V C Toks B) h :
  under env (io_bind m k) h = bind_env (under env m) (fun a => under env (k a)) h.
Proof.
  destruct m as [tr [a | e]]; unfold under, bind_env; simpl.
  - destruct (k a) as [tr' r] eqn:Hk. simpl. rewrite replay_app.
    destruct (replay env h tr) as [t1 [[ev x] |]]; [done |].
    rewrite Hk. simpl.
    by destruct (replay env (h ++ t1) tr') as [t2 [[ev x] |]].
  - by destruct (replay env h tr) as [t1 [[ev x] |]].
Qed.

Lemma bind_env_ext {A B} (m m' : @IOE V C Toks X A) (k k' : A -> @IOE V C Toks X B) h :
  m h = m' h -> (forall a h', k a h' = k' a h') -> bind_env m k h = bind_env m' k' h.
Proof.
  intros Hm Hk. unfold bind_env. rewrite Hm.
  destruct (m' h) as [tr [a | e | ev x]]; [| done | done]. by rewrite Hk.
Qed.

Lemma under_for_enumerate env {A} (body : nat -> A -> @IO V C Toks unit)
    (body' : nat -> A -> @IOE V C Toks X unit) (i : nat) (xs : list A) h :
  (forall j x h', body' j x h' = under env (body j x) h') ->
  for_enumerate_env body' i xs h = under env (for_enumerate body i xs) h.
Proof.
  intros Hbody. revert i h. induction xs as [| x xs IH]; intros i h; simpl; [done |].
  rewrite under_bind. apply bind_env_ext; [apply Hbody |]. intros _ h'. apply IH.
Qed.

Lemma save_sequence_env_under env layers rc (representations : list (Z * Tensor3 V))
    (contacts : option (Contacts3 C)) strs i lbl h :
  save_sequence_env vadd vzero vdiv env args layers rc representations contacts strs i lbl h
  = under env (save_sequence vadd vzero vdiv args layers rc representations contacts
                 strs i lbl) h.
Proof.
  unfold save_sequence_env, save_sequence.
  rewrite under_bind. apply bind_env_ext; [done |]. intros [id label] h1.
  rewrite under_bind. apply bind_env_ext; [by rewrite under_emit |]. intros _ h2.
  rewrite under_bind. apply bind_env_ext; [done |]. intros result h3.
  by rewrite under_emit.
Qed.

Lemma process_batch_env_under env layers rc (batch : @Batch Toks) h :
  process_batch_env vadd vzero vdiv to_float16 env model args layers rc batch h
  = under env (process_batch vadd vzero vdiv to_float16 model args layers rc batch) h.
Proof.
  destruct batch as [[labels strs] toks]. unfold process_batch_env, process_batch.
  rewrite under_bind. apply bind_env_ext; [by rewrite under_emit |]. intros _ h1.
  rewrite under_bind. apply bind_env_ext; [done |]. intros contacts h2.
  apply under_for_enumerate. intros j lbl h3. apply save_sequence_env_under.
Qed.

Lemma batch_loop_env_under env lo hi layers rc (batches : list (@Batch Toks)) h :
  batch_loop_env vadd vzero vdiv to_float16 env lo hi model args layers rc batches h
  = under env (batch_loop vadd vzero vdiv to_float16 lo hi model args layers rc batches) h.
Proof.
  unfold batch_loop_env, batch_loop. apply under_for_enumerate. intros j batch h'.
  destruct ((lo <=? Z.of_nat j)%Z && (Z.of_nat j <? hi)%Z); [| done].
  apply process_batch_env_under.
Qed.

(** [run_env] makes the calls of [run] in their order up to the first
    one that raises, and ends as [run] does when none raises. *)
Lemma run_env_under env (data_loader : Z -> list (@Batch Toks)) h :
  run_env vadd vzero vdiv to_float16 env model data_loader args h
  = under env (run vadd vzero vdiv to_float16 model data_loader args) h.
Proof.
  unfold run_env, run.
  rewrite under_bind. apply bind_env_ext; [done |]. intros _ h1.
  rewrite under_bind. apply bind_env_ext; [by rewrite under_emit |]. intros _ h2.
  rewrite under_bind. apply bind_env_ext; [done |]. intros layers h3.
  apply batch_loop_env_under.
Qed.

Lemma under_returns env {A} (evs : list (@Event V C Toks)) (a : A) h :
  accepts env h evs = true -> under env (evs, Ok a) h = (evs, Returned a).
Proof. intros H. unfold under. simpl. by rewrite (replay_accepts _ _ _ H). Qed.

Lemma under_fails env {A} (r : Exc A) before ev rest x h :
  accepts env h before = true -> env (h ++ before) ev = Some x ->
  under env (before ++ ev :: rest, r) h = (before, Failed ev x).
Proof.
  intros Hacc Hev. unfold under. simpl.
  by rewrite (replay_refused _ _ _ _ rest _ Hacc Hev).
Qed.

(** *** The calls of a run *)

Lemma for_enumerate_trace_Forall_in {A} (P : @Event V C Toks -> Prop)
    (body : nat -> A -> @IO V C Toks unit) (i : nat) (xs : list A) :
  (forall j x, x ∈ xs -> Forall P (trace (body j x))) ->
  Forall P (trace (for_enumerate body i xs)).
Proof.
  revert i. induction xs as [| x xs IH]; intros i Hbody; simpl; [constructor |].
  rewrite (trace_io_bind (V:=V) (C:=C) (Toks:=Toks)). apply Forall_app. split.
  - apply Hbody. by left.
  - destruct (outcome (body i x)); [| constructor].
    apply IH. intros j y Hy. apply Hbody. by right.
Qed.

Lemma save_sequence_trace_calls layers rc (representations : list (Z * Tensor3 V))
    (contacts : option (Contacts3 C)) strs i lbl :
  Forall (fun ev : @Event V C Toks =>
            exists f, label_file args lbl = Some f
                      /\ (ev = MkdirParent f \/ exists result, ev = Save result f))
         (trace (save_sequence vadd vzero vdiv args layers rc representations contacts
                   strs i lbl)).
Proof.
  unfold save_sequence, label_file.
  destruct (split " " lbl) as [| id [| label [| c l]]]; simpl; try by constructor.
  destruct (build_result _ _ _ _ _ _ _ _ _ _ _ _); simpl.
  - apply Forall_cons. split; [eexists; split; [done | by left] |].
    apply Forall_cons. split; [eexists; split; [done | right; by eexists] |].
    constructor.
  - apply Forall_cons. split; [eexists; split; [done | by left] |].
    constructor.
Qed.

Lemma process_batch_trace_calls layers (batches : list (@Batch Toks)) batch :
  batch ∈ batches ->
  Forall (external_call args batches)
         (trace (process_batch vadd vzero vdiv to_float16 model args layers
                   (contains "contacts" (Args.include args)) batch)).
Proof.
  intros Hin. destruct batch as [[labels strs] toks]. unfold process_batch.
  rewrite (trace_io_bind (V:=V) (C:=C) (Toks:=Toks)). simpl trace at 1. simpl outcome.
  apply Forall_app. split.
  - apply Forall_cons. split; [| constructor].
    right. left. by exists (labels, strs, toks), layers.
  - rewrite (trace_io_bind (V:=V) (C:=C) (Toks:=Toks)). simpl trace at 1.
    unfold lift, outcome, snd.
    match goal with
    | |- context [match ?m with Ok _ => _ | Raise _ => _ end] =>
        destruct m as [contacts |]; [| constructor]
    end.
    apply for_enumerate_trace_Forall_in. intros j lbl Hlbl.
    eapply Forall_impl; [apply save_sequence_trace_calls |].
    intros ev (f & Hf & Hev). right. right.
    by exists (labels, strs, toks), lbl, f.
Qed.

Lemma run_trace_calls (data_loader : Z -> list (@Batch Toks)) :
  Forall (external_call args (data_loader (Args.truncation_seq_length args)))
         (trace (run vadd vzero vdiv to_float16 model data_loader args)).
Proof.
  destruct (is_MSATransformer model) eqn:Hmsa.
  { unfold run. rewrite Hmsa. constructor. }
  destruct (resolve_layers (num_layers model) (Args.repr_layers args)) as [layers |] eqn:Hl.
  - rewrite (run_unfold vadd vzero vdiv to_float16 model args data_loader layers Hmsa Hl).
    rewrite (trace_io_bind (V:=V) (C:=C) (Toks:=Toks)). simpl.
    apply Forall_cons. split; [by left |].
    unfold process_all. apply for_enumerate_trace_Forall_in. intros j batch Hb.
    apply process_batch_trace_calls.
    apply window_batches_elem in Hb as (k & Hk & _).
    by apply list_elem_of_lookup_2 in Hk.
  - unfold run. rewrite Hmsa, Hl. simpl.
    apply Forall_cons. split; [by left | constructor].
Qed.

(** X11: a batch in order (labels with one space, a residue string per
    label, model output covering each truncated sequence, contacts
    returned when asked for) whose calls all return is processed without
    exception: the model is invoked once, then each sequence in label
    order creates its parent directory and saves its bundle, built from
    the activations cast to float16, one file per label.  When one of
    these calls raises (the model, a [mkdir] that meets a file, a
    [torch.save]), processing ends at that call with its exception; the
    calls before it have been made, hence the earlier files saved, and
    no later call is made. *)
Theorem batch_in_order_saves_all env h (layers : list Z) (rc : bool) (batch : @Batch Toks) :
  batch_ok to_float16 model args layers rc batch = true ->
  (accepts env h (batch_events vadd vzero vdiv to_float16 model args layers rc batch) = true ->
   process_batch_env vadd vzero vdiv to_float16 env model args layers rc batch h
   = (batch_events vadd vzero vdiv to_float16 model args layers rc batch, Returned tt))
  /\ (forall before ev rest x,
        batch_events vadd vzero vdiv to_float16 model args layers rc batch
        = before ++ ev :: rest ->
        accepts env h before = true ->
        env (h ++ before) ev = Some x ->
        process_batch_env vadd vzero vdiv to_float16 env model args layers rc batch h
        = (before, Failed ev x))
  /\ omap saved_file (batch_events vadd vzero vdiv to_float16 model args layers rc batch)
     = omap (label_file args) (batch_labels batch)
  /\ length (omap (label_file args) (batch_labels batch)) = length (batch_labels batch).
Proof.
  intros Hok. split; [| split; [| by apply batch_events_files]].
  - intros Hacc.
    rewrite process_batch_env_under, (process_batch_in_order _ _ _ _ _ _ _ _ _ Hok).
    by apply under_returns.
  - intros before ev rest x Hsplit Hacc Hev.
    rewrite process_batch_env_under, (process_batch_in_order _ _ _ _ _ _ _ _ _ Hok), Hsplit.
    by apply under_fails.
Qed.

(** X12: a run on a model that is no MSA Transformer, with accepted
    layers and with every one of the first 1200 batches in order, whose
    calls all return, ends without exception: it creates the output
    directory, then processes those batches one after the other, and the
    files it saves are the files of their labels, one per sequence, in
    loader order.  When one of these calls raises, the run ends at that
    call with its exception: a failure of the model or of the storage is
    fatal to the run, the calls before it have been made, and nothing is
    done afterwards. *)
Theorem run_in_order_saves_all env (data_loader : Z -> list (@Batch Toks))
    (layers : list Z) :
  is_MSATransformer model = false ->
  resolve_layers (num_layers model) (Args.repr_layers args) = Ok layers ->
  forallb (batch_ok to_float16 model args layers (contains "contacts" (Args.include args)))
          (take 1200 (data_loader (Args.truncation_seq_length args))) = true ->
  (accepts env [] (run_events vadd vzero vdiv to_float16 model args layers data_loader)
   = true ->
   run_env vadd vzero vdiv to_float16 env model data_loader args []
   = (run_events vadd vzero vdiv to_float16 model args layers data_loader, Returned tt))
  /\ (forall before ev rest x,
        run_events vadd vzero vdiv to_float16 model args layers data_loader
        = before ++ ev :: rest ->
        accepts env [] before = true ->
        env before ev = Some x ->
        run_env vadd vzero vdiv to_float16 env model data_loader args []
        = (before, Failed ev x))
  /\ omap saved_file (run_events vadd vzero vdiv to_float16 model args layers data_loader)
     = omap (label_file args)
         (concat (map batch_labels
                      (take 1200 (data_loader (Args.truncation_seq_length args))))).
Proof.
  intros Hmsa Hl Hok. split; [| split; [| by apply run_events_files]].
  - intros Hacc.
    rewrite run_env_under, (run_in_order _ _ _ _ _ _ _ _ Hmsa Hl Hok).
    by apply under_returns.
  - intros before ev rest x Hsplit Hacc Hev.
    rewrite run_env_under, (run_in_order _ _ _ _ _ _ _ _ Hmsa Hl Hok), Hsplit.
    by apply under_fails.
Qed.

(** X18: how a run can end, apart from returning.  Either a statement
    of the script raises: [ValueError] (the model is an MSA Transformer,
    or a label of a loaded batch does not hold exactly one space),
    [AssertionError] (the model is accepted and a requested layer is out
    of range), [KeyError] (contacts are requested), [IndexError], or
    [RuntimeError] ([avg_per_tok] is requested).  Or one of the calls of
    the run raises, whatever its exception: the [mkdir] of the output
    directory, the model on a loaded batch, or the [mkdir] or the
    [torch.save] for the file of a label of a loaded batch; the run then
    ends with that exception after the calls that returned. *)
Theorem run_exception_kinds env (data_loader : Z -> list (@Batch Toks)) tr
    (r : @Outcome V C Toks X unit) :
  run_env vadd vzero vdiv to_float16 env model data_loader args [] = (tr, r) ->
  match r with
  | Returned _ => True
  | Raised e =>
      (e = ValueError
       /\ (is_MSATransformer model = true
           \/ exists batch lbl,
                batch ∈ data_loader (Args.truncation_seq_length args)
                /\ lbl ∈ batch_labels batch /\ count_char " " lbl <> 1))
      \/ (e = AssertionError
          /\ is_MSATransformer model = false
          /\ Exists (fun i => ~ (- (num_layers model + 1) <= i <= num_layers model)%Z)
                    (Args.repr_layers args))
      \/ (e = KeyError /\ contains "contacts" (Args.include args) = true)
      \/ e = IndexError
      \/ (e = RuntimeError /\ contains "avg_per_tok" (Args.include args) = true)
  | Failed ev x =>
      env tr ev = Some x
      /\ external_call args (data_loader (Args.truncation_seq_length args)) ev
  end.
Proof.
  rewrite run_env_under. unfold under.
  destruct (replay env [] (trace (run vadd vzero vdiv to_float16 model data_loader args)))
    as [tr' [[ev x] |]] eqn:Hreplay.
  - intros [= <- <-]. apply replay_failed_inv in Hreplay as [Hx [rest Hsplit]].
    split; [done |].
    pose proof (run_trace_calls data_loader) as Hcalls.
    rewrite Hsplit in Hcalls. apply Forall_app in Hcalls as [_ Hcalls].
    by apply Forall_cons in Hcalls as [Hev _].
  - intros [= <- <-].
    destruct (outcome (run vadd vzero vdiv to_float16 model data_loader args))
      as [[] | e] eqn:Hout; [done |].
    by apply (run_raise_kinds vadd vzero vdiv to_float16 model args data_loader).
Qed.

End WorldFacts.

(** ** Instances of the further properties on the concrete model *)

Lemma bundle_keys_closed_witness :
  spec_result Z.add 0%Z Z.div (Toy.args Toy.all_kinds [1%Z] 1022) [1%Z] true
    Toy.representations1 Toy.contacts1 0 "BD" "s1" "x" !! "id" = Some (VStr "s1")
  /\ spec_result Z.add 0%Z Z.div (Toy.args Toy.all_kinds [1%Z] 1022) [1%Z] true
       Toy.representations1 Toy.contacts1 0 "BD" "s1" "x" !! "label" = Some (VStr "x")
  /\ forall key,
       is_Some (spec_result Z.add 0%Z Z.div (Toy.args Toy.all_kinds [1%Z] 1022) [1%Z] true
                  Toy.representations1 Toy.contacts1 0 "BD" "s1" "x" !! key) ->
       key ∈ result_keys.
Proof.
  apply (bundle_keys_closed Z.add 0%Z Z.div (Toy.args Toy.all_kinds [1%Z] 1022) [1%Z] true
           Toy.representations1 Toy.contacts1 ["BD"] 0 "s1" "x").
  apply build_result_ok; reflexivity.
Defined.

Lemma per_tok_never_holds_marker_witness :
  exists s d,
    ["BD"] !! 0 = Some s
    /\ spec_result Z.add 0%Z Z.div (Toy.args Toy.all_kinds [1%Z] 1022) [1%Z] true
         Toy.representations1 Toy.contacts1 0 "BD" "s1" "x" !! "representations"
       = Some (VLayerTensors d)
    /\ Forall2
         (fun (kv : Z * Tensor3 Z) (kd : Z * Tensor2 Z) =>
            kd.1 = kv.1
            /\ exists r,
                 kv.2 !! 0 = Some r
                 /\ kd.2 `prefix_of` drop 1 r
                 /\ ((0 <= 1022)%Z ->
                     kd.2 = take (Z.to_nat (truncation_length 1022 s)) (drop 1 r)))
         Toy.representations1 d.
Proof.
  apply (per_tok_never_holds_marker Z.add 0%Z Z.div (Toy.args Toy.all_kinds [1%Z] 1022)
           [1%Z] true Toy.representations1 Toy.contacts1 ["BD"] 0 "s1" "x").
  - apply build_result_ok; reflexivity.
  - reflexivity.
Defined.

Lemma empty_sequence_bundle_witness :
  exists result,
    Toy.bundle (Toy.args Toy.all_kinds [1%Z] 1022) [1%Z] true
      Toy.representations1 Toy.contacts1 [""] 0 "s1" "x" = Ok result
    /\ (contains "per_tok" Toy.all_kinds = true ->
        result !! "representations"
        = Some (VLayerTensors (map (fun kv => (kv.1, [])) Toy.representations1)))
    /\ (contains "mean" Toy.all_kinds = true ->
        result !! "mean_representations"
        = Some (VLayerVectors (map (fun kv => (kv.1, (0 `div` 0)%Z)) Toy.representations1)))
    /\ (true = true -> result !! "contacts" = Some (VContacts [])).
Proof.
  apply (empty_sequence_bundle Z.add 0%Z Z.div (Toy.args Toy.all_kinds [1%Z] 1022) [1%Z] true
           Toy.representations1 Toy.contacts1 [""] 0 "" "s1" "x");
    reflexivity.
Defined.

Lemma batches_fail_fast_witness :
  Toy2.process_all Toy2.args2 [1%Z] false ([Toy2.batch2] ++ Toy2.bad_batch :: [Toy2.batch2])
  = (trace (Toy2.process_all Toy2.args2 [1%Z] false [Toy2.batch2])
     ++ trace (Toy2.process_batch Toy2.args2 [1%Z] false Toy2.bad_batch),
     Raise ValueError).
Proof.
  apply (batches_fail_fast Z.add 0%Z Z.div id (Toy.model 1) Toy2.args2 [1%Z] false
           [Toy2.batch2] [Toy2.batch2] Toy2.bad_batch ValueError);
    reflexivity.
Defined.

Lemma key_error_iff_contacts_missing_witness :
  process_batch Z.add 0%Z Z.div id Toy2.model_without_contacts
    (Toy.args ["contacts"] [1%Z] 1022) [1%Z] true
    (["s1 x"; "s2 y"], ["BD"; "B"], [[0; 66; 68]; [0; 66; 1]]%Z)
  = ([Infer [[0; 66; 68]; [0; 66; 1]]%Z [1%Z] true], Raise KeyError).
Proof.
  apply (key_error_iff_contacts_missing Z.add 0%Z Z.div id Toy2.model_without_contacts
           (Toy.args ["contacts"] [1%Z] 1022) [1%Z] true ["s1 x"; "s2 y"] ["BD"; "B"]
           [[0; 66; 68]; [0; 66; 1]]%Z).
  reflexivity.
Defined.

Lemma batch_in_order_saves_all_witness :
  process_batch_env Z.add 0%Z Z.div id Toy2.quiet (Toy.model 1) Toy2.args2 [1%Z] false
    Toy2.batch2 []
  = (batch_events Z.add 0%Z Z.div id (Toy.model 1) Toy2.args2 [1%Z] false Toy2.batch2,
     Returned tt)
  /\ exists ev,
       batch_events Z.add 0%Z Z.div id (Toy.model 1) Toy2.args2 [1%Z] false Toy2.batch2 !! 4
       = Some ev
       /\ is_save ev = true
       /\ process_batch_env Z.add 0%Z Z.div id Toy2.full_disk (Toy.model 1) Toy2.args2
            [1%Z] false Toy2.batch2 []
          = (take 4 (batch_events Z.add 0%Z Z.div id (Toy.model 1) Toy2.args2 [1%Z] false
                       Toy2.batch2),
             Failed ev "OSError").
Proof.
  split.
  - apply (batch_in_order_saves_all Z.add 0%Z Z.div id (Toy.model 1) Toy2.args2 Toy2.quiet
             [] [1%Z] false Toy2.batch2 eq_refl).
    reflexivity.
  - eexists. split; [reflexivity |]. split; [reflexivity |].
    destruct (batch_in_order_saves_all Z.add 0%Z Z.div id (Toy.model 1) Toy2.args2
                Toy2.full_disk [] [1%Z] false Toy2.batch2 eq_refl) as (_ & Hfails & _).
    apply (Hfails _ _ (drop 5 (batch_events Z.add 0%Z Z.div id (Toy.model 1) Toy2.args2
                                 [1%Z] false Toy2.batch2)));
      reflexivity.
Defined.

Lemma run_in_order_saves_all_witness :
  run_env Z.add 0%Z Z.div id Toy2.quiet (Toy.model 1) (Toy.loader Toy2.file2) Toy2.args2 []
  = (run_events Z.add 0%Z Z.div id (Toy.model 1) Toy2.args2 [1%Z] (Toy.loader Toy2.file2),
     Returned tt)
  /\ exists ev,
       run_events Z.add 0%Z Z.div id (Toy.model 1) Toy2.args2 [1%Z] (Toy.loader Toy2.file2)
         !! 5 = Some ev
       /\ is_save ev = true
       /\ run_env Z.add 0%Z Z.div id Toy2.full_disk (Toy.model 1) (Toy.loader Toy2.file2)
            Toy2.args2 []
          = (take 5 (run_events Z.add 0%Z Z.div id (Toy.model 1) Toy2.args2 [1%Z]
                       (Toy.loader Toy2.file2)),
             Failed ev "OSError").
Proof.
  split.
  - apply (run_in_order_saves_all Z.add 0%Z Z.div id (Toy.model 1) Toy2.args2 Toy2.quiet
             (Toy.loader Toy2.file2) [1%Z] eq_refl eq_refl eq_refl).
    reflexivity.
  - eexists. split; [reflexivity |]. split; [reflexivity |].
    destruct (run_in_order_saves_all Z.add 0%Z Z.div id (Toy.model 1) Toy2.args2
                Toy2.full_disk (Toy.loader Toy2.file2) [1%Z] eq_refl eq_refl eq_refl)
      as (_ & Hfails & _).
    apply (Hfails _ _ (drop 6 (run_events Z.add 0%Z Z.div id (Toy.model 1) Toy2.args2 [1%Z]
                                 (Toy.loader Toy2.file2))));
      reflexivity.
Defined.

Lemma run_exception_kinds_witness :
  ((AssertionError = ValueError
    /\ (is_MSATransformer (Toy.model 1) = true
        \/ exists batch lbl,
             batch ∈ Toy.loader Toy2.file2 1022
             /\ lbl ∈ batch_labels batch /\ count_char " " lbl <> 1))
   \/ (AssertionError = AssertionError
       /\ is_MSATransformer (Toy.model 1) = false
       /\ Exists (fun i => ~ (- (1 + 1) <= i <= 1)%Z) [5%Z])
   \/ (AssertionError = KeyError /\ contains "contacts" ["mean"] = true)
   \/ AssertionError = IndexError
   \/ (AssertionError = RuntimeError /\ contains "avg_per_tok" ["mean"] = true))
  /\ exists tr ev,
       run_env Z.add 0%Z Z.div id Toy2.full_disk (Toy.model 1) (Toy.loader Toy2.file2)
         Toy2.args2 []
       = (tr, Failed ev "OSError")
       /\ Toy2.full_disk tr ev = Some "OSError"
       /\ external_call Toy2.args2 (Toy.loader Toy2.file2 1022) ev.
Proof.
  split.
  - apply (run_exception_kinds Z.add 0%Z Z.div id (Toy.model 1)
             (Toy.args ["mean"] [5%Z] 1022) Toy2.quiet (Toy.loader Toy2.file2)
             [MkdirOutputDir "out"] (Raised AssertionError)).
    reflexivity.
  - eexists _, _. split; [reflexivity |].
    apply (run_exception_kinds Z.add 0%Z Z.div id (Toy.model 1) Toy2.args2 Toy2.full_disk
             (Toy.loader Toy2.file2) _ (Failed _ _)).
    reflexivity.
Defined.

Lemma msa_model_rejected_witness :
  run Z.add 0%Z Z.div id Toy2.msa_model (Toy.loader Toy2.file2)
    (Toy.args ["mean"] [99%Z] 1022)
  = ([], Raise ValueError)
  /\ exists events,
       trace (Toy.extract 1 Toy2.file2 (Toy.args ["mean"] [99%Z] 1022))
       = MkdirOutputDir "out" :: events.
Proof.
  split.
  - apply (msa_model_rejected Z.add 0%Z Z.div id Toy2.msa_model
             (Toy.args ["mean"] [99%Z] 1022) (Toy.loader Toy2.file2)).
    reflexivity.
  - apply (msa_model_rejected Z.add 0%Z Z.div id (Toy.model 1)
             (Toy.args ["mean"] [99%Z] 1022) (Toy.loader Toy2.file2)).
    reflexivity.
Defined.

Lemma no_batches_no_files_witness :
  run Z.add 0%Z Z.div id (Toy.model 1) (fun _ => []) Toy2.args2
  = ([MkdirOutputDir (Args.output_dir Toy2.args2)], Ok tt).
Proof.
  apply (no_batches_no_files Z.add 0%Z Z.div id (Toy.model 1) Toy2.args2 (fun _ => [])).
  - reflexivity.
  - apply Forall_singleton. simpl. lia.
  - reflexivity.
Defined.

Lemma avg_per_tok_one_activation_per_layer_witness :
  exists result,
    Toy.bundle (Toy.args Toy.all_kinds [1%Z] 1022) [1%Z] true
      Toy.representations1 Toy.contacts1 ["BD"] 0 "s1" "x" = Ok result
    /\ result !! "avg_per_tok"
       = Some (VTensor
                 (spec_avg_per_tok Z.add 0%Z Z.div (truncation_length 1022 "BD")
                    (map (fun kv => spec_per_tok 0 (truncation_length 1022 "BD") kv.2)
                         Toy.representations1))).
Proof.
  apply (avg_per_tok_one_activation_per_layer Z.add 0%Z Z.div
           (Toy.args Toy.all_kinds [1%Z] 1022) [1%Z] true
           Toy.representations1 Toy.contacts1 ["BD"] 0 "BD" "s1" "x");
    reflexivity.
Defined.

Lemma avg_per_tok_single_layer_witness :
  exists result,
    Toy.bundle (Toy.args Toy.all_kinds [-1]%Z 1022) [1%Z] true
      [(1%Z, [[134; 200; 202]]%Z)] Toy.contacts1 ["BD"] 0 "s1" "x" = Ok result
    /\ result !! "avg_per_tok"
       = Some (VTensor (spec_per_tok 0 (truncation_length 1022 "BD") [[134; 200; 202]]%Z)).
Proof.
  apply (avg_per_tok_single_layer Z.add 0%Z Z.div (Toy.args Toy.all_kinds [-1]%Z 1022)
           1%Z 1%Z true [[134; 200; 202]]%Z Toy.contacts1 ["BD"] 0 "BD" "s1" "x");
    [ intros v; apply Z.add_0_l | intros v; apply Z.div_1_r | reflexivity .. ].
Defined.

(** ** Layer keys of the per-layer entries *)

Section LayerKeys.

Context {V C : Type}.
Variable vadd : V -> V -> V.
Variable vzero : V.
Variable vdiv : V -> Z -> V.
Implicit Types representations : list (Z * Tensor3 V).
Implicit Types contacts : option (Contacts3 C).

Lemma dict_comp_keys {K A B} (f : A -> Exc B) (d : list (K * A)) (r : list (K * B)) :
  dict_comp f d = Ok r -> map fst r = map fst d.
Proof.
  revert r. induction d as [| [k v] d IH]; intros r; simpl.
  - by intros [= <-].
  - destruct (f v) as [b |]; [| done]. simpl.
    destruct (dict_comp f d) as [r' |]; [| done]. simpl.
    intros [= <-]. simpl. f_equal. by apply IH.
Qed.

(** X23: in a bundle that was built, every per-layer entry ([per_tok],
    [mean], [bos]) is keyed by exactly the layers of the model output, in
    the order of the model output, whatever the list of requested layers
    was. *)
Theorem layer_keys_follow_model_output args layers rc representations contacts strs i
    id label (result : gmap string (@Value V C)) :
  build_result vadd vzero vdiv args layers rc representations contacts strs i id label
  = Ok result ->
  forall key,
    (forall d, result !! key = Some (VLayerTensors d) ->
               map fst d = map fst representations)
    /\ (forall d, result !! key = Some (VLayerVectors d) ->
                  map fst d = map fst representations).
Proof.
  intros H. unfold build_result in H.
  destruct (index strs i) as [s |]; simpl in H; [| done].
  repeat match type of H with
         | context [contains ?k ?l] => destruct (contains k l) eqn:?; simpl in H
         | context [dict_comp ?f ?d] => destruct (dict_comp f d) eqn:?; simpl in H; [| done]
         | context [stack ?ts] => destruct (stack ts) eqn:?; simpl in H; [| done]
         end;
    (destruct rc; simpl in H;
     [ destruct contacts as [c |]; [| done];
       destruct (contact_slice _ _ _) eqn:?; simpl in H; [| done] |]);
    injection H as <-;
    intros key; split; intros d Hk;
    repeat (apply lookup_insert_Some in Hk as [[_ Hk] | [_ Hk]];
            [ first [ discriminate Hk
                    | injection Hk as <-; eapply dict_comp_keys; eassumption ] |]);
    by rewrite lookup_empty in Hk.
Qed.

End LayerKeys.

Lemma layer_keys_follow_model_output_witness :
  (forall d,
     spec_result Z.add 0%Z Z.div (Toy.args Toy.all_kinds [1; 1]%Z 1022) [1; 1]%Z true
       Toy.representations1 Toy.contacts1 0 "BD" "s1" "x" !! "mean_representations"
     = Some (VLayerTensors d) ->
     map fst d = map fst Toy.representations1)
  /\ (forall d,
        spec_result Z.add 0%Z Z.div (Toy.args Toy.all_kinds [1; 1]%Z 1022) [1; 1]%Z true
          Toy.representations1 Toy.contacts1 0 "BD" "s1" "x" !! "mean_representations"
        = Some (VLayerVectors d) ->
        map fst d = map fst Toy.representations1).
Proof.
  apply (layer_keys_follow_model_output Z.add 0%Z Z.div (Toy.args Toy.all_kinds [1; 1]%Z 1022)
           [1; 1]%Z true Toy.representations1 Toy.contacts1 ["BD"] 0 "s1" "x").
  apply build_result_ok; reflexivity.
Defined.
